(** * Healthcare knowledge assistant: the retrieval-and-answer pipeline

    A shallow embedding of the Python back end (config.py,
    document_processor.py, rag_engine.py, main.py, tools/), the
    properties of it that the design document states, and further
    properties read off the code.  Python values are modelled as
    follows:

    - [str] is a list of Unicode code points, so [len], slicing and
      concatenation are those of lists;
    - [int] is [Z]; [float] is IEEE binary64, through the executable
      specification [spec_float] of the standard library;
    - a [dict] read by key is a [gmap]; a [dict] whose order is
      observed (the tool registry, result payloads) is an association
      list;
    - a call that can raise returns a [result]; code that reads or
      writes the persisted vector store threads a [World].

    Console output ([print]) is not modelled. *)

From Stdlib Require Import ZArith NArith Ascii String Floats.SpecFloat.
From stdpp Require Import base option list gmap.

Set Warnings "-register-all".
Local Open Scope Z_scope.

(** ** Python strings *)

Module Py.

Abbreviation str := (list N).

(** Decoding of the UTF-8 bytes of a source literal into code points. *)
Fixpoint utf8_decode (bs : list N) : list N :=
  match bs with
  | [] => []
  | b :: rest =>
      if (b <? 128)%N then b :: utf8_decode rest
      else if (b <? 224)%N then
        match rest with
        | c1 :: r => ((b - 192) * 64 + (c1 - 128))%N :: utf8_decode r
        | _ => []
        end
      else if (b <? 240)%N then
        match rest with
        | c1 :: c2 :: r =>
            ((b - 224) * 4096 + (c1 - 128) * 64 + (c2 - 128))%N :: utf8_decode r
        | _ => []
        end
      else
        match rest with
        | c1 :: c2 :: c3 :: r =>
            ((b - 240) * 262144 + (c1 - 128) * 4096 + (c2 - 128) * 64 + (c3 - 128))%N
              :: utf8_decode r
        | _ => []
        end
  end.

(** A string literal of the source. *)
Definition lit (s : string) : str :=
  utf8_decode (N_of_ascii <$> list_ascii_of_string s).

Definition nl : str := [10%N].
Definition dquote : str := [34%N].
Definition squote : str := [39%N].
Definition slash : N := 47%N.
Definition backslash : N := 92%N.

(** [sep.join(parts)] *)
Fixpoint join (sep : str) (parts : list str) : str :=
  match parts with
  | [] => []
  | [p] => p
  | p :: ps => p ++ sep ++ join sep ps
  end.

(** The lines of a triple-quoted literal. *)
Definition text (lines : list str) : str := join nl lines.

Fixpoint startswith (s pre : str) : bool :=
  match pre, s with
  | [], _ => true
  | p :: pre', c :: s' => (p =? c)%N && startswith s' pre'
  | _ :: _, [] => false
  end.

(** [needle in s] *)
Fixpoint contains (needle s : str) : bool :=
  startswith s needle ||
  match s with
  | [] => false
  | _ :: s' => contains needle s'
  end.

(** [s.replace(old, new)] for a non-empty [old]: occurrences are found
    left to right and do not overlap; [skip] counts the characters of
    the occurrence just replaced that are still to be dropped. *)
Fixpoint replace_from (old new : str) (skip : nat) (s : str) : str :=
  match s with
  | [] => []
  | c :: s' =>
      match skip with
      | S k => replace_from old new k s'
      | O =>
          if startswith s old
          then new ++ replace_from old new (pred (length old)) s'
          else c :: replace_from old new O s'
      end
  end.

Definition replace (s old new : str) : str := replace_from old new O s.

(** [s.split(sep)] for a one-character [sep]; the result is never empty. *)
Fixpoint split (sep : N) (s : str) : list str :=
  match s with
  | [] => [[]]
  | c :: s' =>
      if (c =? sep)%N then [] :: split sep s'
      else
        match split sep s' with
        | p :: ps => (c :: p) :: ps
        | [] => [[c]]
        end
  end.

(** [parts[-1]] on the result of a split. *)
Definition last_part (parts : list str) : str := default [] (last parts).

(** [str(n)] for an integer. *)
Definition digit (d : Z) : N := Z.to_N (48 + d).

Fixpoint digits_fuel (fuel : nat) (n : Z) (acc : str) : str :=
  match fuel with
  | O => acc
  | S k => if n <? 10 then digit n :: acc
           else digits_fuel k (n / 10) (digit (n mod 10) :: acc)
  end.

Definition str_of_int (n : Z) : str :=
  if n <? 0 then lit "-" ++ digits_fuel (S (Z.to_nat (Z.log2 (- n)))) (- n) []
  else digits_fuel (S (Z.to_nat (Z.log2 n))) n [].

(** ASCII case folding, the part of [str.lower] that does not need the
    Unicode tables. *)
Definition ascii_lower (s : str) : str :=
  (fun c => if (65 <=? c)%N && (c <=? 90)%N then (c + 32)%N else c) <$> s.

(** *** Values *)

(** The objects that travel as keyword arguments and in payloads. *)
Inductive object :=
| VNone
| VBool (b : bool)
| VInt (z : Z)
| VFloat (x : spec_float)
| VStr (s : str)
| VList (l : list object)
| VDict (d : list (str * object)).

(** [type(v).__name__] *)
Definition type_name (v : object) : str :=
  match v with
  | VNone => lit "NoneType"
  | VBool _ => lit "bool"
  | VInt _ => lit "int"
  | VFloat _ => lit "float"
  | VStr _ => lit "str"
  | VList _ => lit "list"
  | VDict _ => lit "dict"
  end.

(** Insertion-ordered dictionaries. *)
Fixpoint dict_get {V} (k : str) (d : list (str * V)) : option V :=
  match d with
  | [] => None
  | (k', v) :: d' => if decide (k = k') then Some v else dict_get k d'
  end.

(** [d[k] = v]: an existing key keeps its position. *)
Fixpoint dict_set {V} (k : str) (v : V) (d : list (str * V)) : list (str * V) :=
  match d with
  | [] => [(k, v)]
  | (k', v') :: d' =>
      if decide (k = k') then (k, v) :: d' else (k', v') :: dict_set k v d'
  end.

(** *** Exceptions *)

Inductive exn_class :=
| ValueError
| TypeError
| AttributeError
| IndexError
| FileNotFoundError
| RuntimeError
| NotImplementedError
| LibraryError.   (* any other [Exception] raised by a collaborator *)

(** An exception: its class and [str(e)].  Every class above derives
    from [Exception], so [except Exception] catches all of them. *)
Record exn := Exn { exn_class_of : exn_class; exn_str : str }.

Inductive result (A : Type) :=
| Ok (a : A)
| Raise (e : exn).
Arguments Ok {A} a.
Arguments Raise {A} e.

#[export] Instance result_ret : MRet result := fun A a => Ok a.

(** Sequencing: the first exception raised ends the block. *)
#[export] Instance result_bind : MBind result := fun A B k r =>
  match r with
  | Ok a => k a
  | Raise e => Raise e
  end.

(** [try: body  except Exception as e: handler(e)] *)
Definition try_except {A} (body : result A) (handler : exn → result A) : result A :=
  match body with
  | Ok a => Ok a
  | Raise e => handler e
  end.

Definition raises {A} (r : result A) : Prop := ∃ e, r = Raise e.

End Py.

Export Py.


(** ** Floating point *)

Module Float64.

(** IEEE binary64, the format of a Python [float]. *)
Definition prec : Z := 53.
Definition emax : Z := 1024.

Abbreviation float := spec_float.

(** Conversion of an [int] operand, rounded to nearest even.  The
    integers converted here are list positions, far below the range
    where CPython raises [OverflowError] instead. *)
Definition of_int (z : Z) : float := binary_normalize prec emax z 0 false.

(** A decimal literal [num/den] of the source, as the parser reads it:
    the double nearest to its value. *)
Definition decimal (num den : Z) : float :=
  SFdiv prec emax (of_int num) (of_int den).

Definition zero : float := S754_zero false.   (* 0.0 *)
Definition one : float := of_int 1.           (* 1.0 *)
Definition tenth : float := decimal 1 10.     (* 0.1 *)

Definition mul : float → float → float := SFmul prec emax.
Definition sub : float → float → float := SFsub prec emax.

(** [num/den] rounded to the nearest integer, ties to even. *)
Definition round_half_even (num den : Z) : Z :=
  let q := num / den in
  match 2 * (num mod den) ?= den with
  | Lt => q
  | Gt => q + 1
  | Eq => if Z.even q then q else q + 1
  end.

(** [round(x, ndigits)] for [ndigits >= 0].  CPython rounds the exact
    binary value of [x] to [ndigits] decimals, ties to even, and returns
    the double nearest to that decimal; the sign of [x] is kept, also on
    a zero result. *)
Definition round (x : float) (ndigits : Z) : float :=
  match x with
  | S754_finite s m e =>
      let scale := 10 ^ ndigits in
      let n := if 0 <=? e then Z.pos m * 2 ^ e * scale
               else round_half_even (Z.pos m * scale) (2 ^ (- e)) in
      match n with
      | Z.pos p => SFdiv prec emax (S754_finite s p 0) (of_int scale)
      | _ => S754_zero s
      end
  | _ => x
  end.

End Float64.

(** ** Tools: tools/base_tool.py, tools/time_tools.py,
       tools/search_tools.py, tools/registry.py *)

Module Tools.
Import Float64.

Inductive ToolCategory := TIME | SEARCH | VALIDATION | HOSPITAL | NOTIFICATION | MEDICAL.

(** [ToolSchema]; the [examples] field is documentation and is left out. *)
Record ToolSchema := {
  name : str;
  display_name : str;
  description : str;
  category : ToolCategory;
  parameters : list (str * list (str * object));
  required_params : list str;
  return_type : str
}.

(** The dictionary that [BaseTool.get_schema] builds, in the function
    calling format: [{"type": "function", "function": {...}}]. *)
Record FunctionSchema := {
  function_name : str;
  function_description : str;
  function_properties : list (str * list (str * object));
  function_required : list str
}.

(** A payload as the tools return it: a dictionary in insertion order. *)
Abbreviation payload := (list (str * object)).

(** Keyword arguments of a call, [**kwargs]. *)
Abbreviation keywords := (gmap str object).

(** *** BaseTool *)

Definition get_schema (schema : option ToolSchema) : result FunctionSchema :=
  match schema with
  | None => Raise (Exn NotImplementedError (lit "Schema not defined"))
  | Some sc =>
      Ok {| function_name := name sc;
            function_description := description sc;
            function_properties := parameters sc;
            function_required := required_params sc |}
  end.

(** The loop of [validate_params] over [required_params]. *)
Fixpoint check_required (required : list str) (kwargs : keywords) : result bool :=
  match required with
  | [] => Ok true
  | r :: rest =>
      match kwargs !! r with
      | None => Raise (Exn ValueError (lit "Missing required parameter: " ++ r))
      | Some _ => check_required rest kwargs
      end
  end.

Definition validate_params (schema : option ToolSchema) (kwargs : keywords) : result bool :=
  match schema with
  | None => Ok false
  | Some sc => check_required (required_params sc) kwargs
  end.

(** [format_result(success, data, error)]; [None] is the default of
    [data] and of [error]. *)
Definition format_result (schema : option ToolSchema)
    (success : bool) (data : object) (error : object) : payload :=
  [ (lit "success", VBool success);
    (lit "data", data);
    (lit "error", error);
    (lit "tool_name", VStr (match schema with
                            | Some sc => name sc
                            | None => lit "unknown"
                            end)) ].

(** *** The call protocol

    A call of [execute] with unpacked keywords binds them to the parameters of
    [execute] before its body, and so before its [try], is entered.
    Every [execute] here takes [self], at most one parameter without a
    default, and a catch-all [**kwargs]. *)

(** A keyword named [self] collides with the bound instance. *)
Definition bound_call (qualname : str) (kwargs : keywords) : result unit :=
  match kwargs !! lit "self" with
  | Some _ =>
      Raise (Exn TypeError
               (qualname ++ lit "() got multiple values for argument 'self'"))
  | None => Ok ()
  end.

(** A parameter without a default. *)
Definition required_argument (qualname : str) (kwargs : keywords) (p : str)
  : result object :=
  match kwargs !! p with
  | Some v => Ok v
  | None =>
      Raise (Exn TypeError
               (qualname ++ lit "() missing 1 required positional argument: '"
                  ++ p ++ squote))
  end.

(** A parameter with a default. *)
Definition optional_argument (kwargs : keywords) (p : str) (dflt : object) : object :=
  default dflt (kwargs !! p).

(** [xs[i]] on a list, with Python's negative indices. *)
Definition list_index {A} (xs : list A) (i : Z) : result A :=
  let n := Z.of_nat (length xs) in
  let j := if i <? 0 then i + n else i in
  if (0 <=? j) && (j <? n) then
    match xs !! Z.to_nat j with
    | Some x => Ok x
    | None => Raise (Exn IndexError (lit "list index out of range"))
    end
  else Raise (Exn IndexError (lit "list index out of range")).

(** [v.utc]: none of the objects above has that attribute. *)
Definition getattr_utc {A} (v : object) : result A :=
  Raise (Exn AttributeError
           (squote ++ type_name v ++ lit "' object has no attribute 'utc'")).

(** *** time_tools.py *)

(** What the tools read from a [datetime] object. *)
Record datetime := {
  isoformat : str;        (* now.isoformat() *)
  strftime_date : str;    (* now.strftime("%Y-%m-%d") *)
  strftime_time : str;    (* now.strftime("%H:%M:%S") *)
  weekday : Z;            (* now.weekday() *)
  unix_timestamp : Z;     (* int(now.timestamp()) *)
  hour : Z;
  minute : Z;
  second : Z
}.

(** The interpreter's time zone database and clock. *)
Class Clock := {
  tzinfo : Type;
  ZoneInfo : object → result tzinfo;     (* ZoneInfo(key) *)
  datetime_now : tzinfo → datetime      (* datetime.now(tz) *)
}.

(** The statements of the mock tools that follow [validate_params]
    inside their [try] block: parsing and subtracting dates, the
    schedule lookup, the canned search results.  They either return the
    payload or raise. *)
Class ToolBodies := {
  calculate_age_body : object → object → result payload;        (* birthdate, reference_date *)
  get_working_hours_body : object → result payload;            (* department *)
  search_internal_docs_body : object → object → object → result payload;  (* query, doc_type, limit *)
  web_search_body : object → object → result payload            (* query, source_filter *)
}.

Definition string_parameter (descr : string) : list (str * object) :=
  [ (lit "type", VStr (lit "string")); (lit "description", VStr (lit descr)) ].

Module GetCurrentDateTimeTool.

Definition schema : option ToolSchema := Some {|
  name := lit "get_current_datetime";
  display_name := lit "Get Current DateTime";
  description := lit "Get current date, time, day of week, and timestamp";
  category := TIME;
  parameters :=
    [ (lit "timezone",
       [ (lit "type", VStr (lit "string"));
         (lit "description",
          VStr (lit "IANA timezone (e.g., 'Asia/Kolkata', 'UTC', 'America/New_York')"));
         (lit "default", VStr (lit "UTC")) ]) ];
  required_params := [];
  return_type := lit "object"
|}.

Definition days : list str :=
  [ lit "Monday"; lit "Tuesday"; lit "Wednesday"; lit "Thursday";
    lit "Friday"; lit "Saturday"; lit "Sunday" ].

(** The body of the outer [try].  The parameter [timezone] hides the
    module [datetime.timezone], so the fallback [tz = timezone.utc]
    reads the attribute [utc] of the argument. *)
Definition attempt `{Clock} (timezone : object) : result payload :=
  _ ← validate_params schema {[ lit "timezone" := timezone ]};
  tz ← try_except (ZoneInfo timezone) (fun _ => getattr_utc timezone);
  let now := datetime_now tz in
  day_name ← list_index days (weekday now);
  let data := VDict
    [ (lit "datetime", VStr (isoformat now));
      (lit "date", VStr (strftime_date now));
      (lit "time", VStr (strftime_time now));
      (lit "day_of_week", VStr day_name);
      (lit "timezone", timezone);
      (lit "unix_timestamp", VInt (unix_timestamp now));
      (lit "hour", VInt (hour now));
      (lit "minute", VInt (minute now));
      (lit "second", VInt (second now)) ] in
  Ok (format_result schema true data VNone).

(** [execute] once its parameter is bound. *)
Definition run `{Clock} (timezone : object) : result payload :=
  try_except (attempt timezone)
    (fun e => Ok (format_result schema false VNone
                    (VStr (lit "Error getting datetime: " ++ exn_str e)))).

(** [async def execute(self, timezone: str = "UTC", **kwargs)] *)
Definition execute `{Clock} (kwargs : keywords) : result payload :=
  _ ← bound_call (lit "GetCurrentDateTimeTool.execute") kwargs;
  run (optional_argument kwargs (lit "timezone") (VStr (lit "UTC"))).

End GetCurrentDateTimeTool.

Module CalculateAgeTool.

Definition schema : option ToolSchema := Some {|
  name := lit "calculate_age";
  display_name := lit "Calculate Age";
  description := lit "Calculate patient age in years, months, days from birthdate";
  category := MEDICAL;
  parameters :=
    [ (lit "birthdate", string_parameter "Birth date in YYYY-MM-DD format");
      (lit "reference_date",
       string_parameter "Reference date (default: today) in YYYY-MM-DD format") ];
  required_params := [ lit "birthdate" ];
  return_type := lit "object"
|}.

Definition run `{ToolBodies} (birthdate reference_date : object) : result payload :=
  try_except
    (_ ← validate_params schema {[ lit "birthdate" := birthdate ]};
     calculate_age_body birthdate reference_date)
    (fun e =>
       match exn_class_of e with
       | ValueError =>
           Ok (format_result schema false VNone
                 (VStr (lit "Invalid date format. Use YYYY-MM-DD: " ++ exn_str e)))
       | _ =>
           Ok (format_result schema false VNone
                 (VStr (lit "Error calculating age: " ++ exn_str e)))
       end).

(** [async def execute(self, birthdate: str, reference_date: str = None, **kwargs)] *)
Definition execute `{ToolBodies} (kwargs : keywords) : result payload :=
  _ ← bound_call (lit "CalculateAgeTool.execute") kwargs;
  birthdate ← required_argument (lit "CalculateAgeTool.execute") kwargs (lit "birthdate");
  run birthdate (optional_argument kwargs (lit "reference_date") VNone).

End CalculateAgeTool.

Module GetWorkingHoursTool.

Definition schema : option ToolSchema := Some {|
  name := lit "get_working_hours";
  display_name := lit "Get Working Hours";
  description := lit "Get working hours for hospital departments";
  category := HOSPITAL;
  parameters :=
    [ (lit "department",
       string_parameter "Department name (emergency, icu, opd, pharmacy, billing)") ];
  required_params := [ lit "department" ];
  return_type := lit "object"
|}.

Definition run `{ToolBodies} (department : object) : result payload :=
  try_except
    (_ ← validate_params schema {[ lit "department" := department ]};
     get_working_hours_body department)
    (fun e => Ok (format_result schema false VNone
                    (VStr (lit "Error fetching working hours: " ++ exn_str e)))).

(** [async def execute(self, department: str, **kwargs)] *)
Definition execute `{ToolBodies} (kwargs : keywords) : result payload :=
  _ ← bound_call (lit "GetWorkingHoursTool.execute") kwargs;
  department ← required_argument (lit "GetWorkingHoursTool.execute") kwargs (lit "department");
  run department.

End GetWorkingHoursTool.

(** *** search_tools.py *)

Module SearchInternalDocsTool.

Definition schema : option ToolSchema := Some {|
  name := lit "search_internal_docs";
  display_name := lit "Search Internal Documents";
  description := lit "Search hospital knowledge base, policies, and procedures";
  category := SEARCH;
  parameters :=
    [ (lit "query",
       string_parameter "Search query (e.g., 'visiting hours', 'admission process')");
      (lit "doc_type",
       string_parameter "Document type filter: all, policy, procedure, guideline");
      (lit "limit",
       [ (lit "type", VStr (lit "integer"));
         (lit "description", VStr (lit "Number of results to return (default: 5)")) ]) ];
  required_params := [ lit "query" ];
  return_type := lit "array"
|}.

Definition run `{ToolBodies} (query doc_type limit : object) : result payload :=
  try_except
    (_ ← validate_params schema {[ lit "query" := query ]};
     search_internal_docs_body query doc_type limit)
    (fun e => Ok (format_result schema false VNone
                    (VStr (lit "Search failed: " ++ exn_str e)))).

(** [async def execute(self, query: str, doc_type: str = "all", limit: int = 5, **kwargs)] *)
Definition execute `{ToolBodies} (kwargs : keywords) : result payload :=
  _ ← bound_call (lit "SearchInternalDocsTool.execute") kwargs;
  query ← required_argument (lit "SearchInternalDocsTool.execute") kwargs (lit "query");
  run query (optional_argument kwargs (lit "doc_type") (VStr (lit "all")))
            (optional_argument kwargs (lit "limit") (VInt 5)).

End SearchInternalDocsTool.

Module WebSearchTool.

Definition schema : option ToolSchema := Some {|
  name := lit "web_search";
  display_name := lit "Web Search";
  description := lit "Search external web for health/medical information";
  category := SEARCH;
  parameters :=
    [ (lit "query", string_parameter "Search query");
      (lit "source_filter", string_parameter "Filter: all, medical, news, research") ];
  required_params := [ lit "query" ];
  return_type := lit "array"
|}.

Definition run `{ToolBodies} (query source_filter : object) : result payload :=
  try_except
    (_ ← validate_params schema {[ lit "query" := query ]};
     web_search_body query source_filter)
    (fun e => Ok (format_result schema false VNone
                    (VStr (lit "Web search failed: " ++ exn_str e)))).

(** [async def execute(self, query: str, source_filter: str = "all", **kwargs)] *)
Definition execute `{ToolBodies} (kwargs : keywords) : result payload :=
  _ ← bound_call (lit "WebSearchTool.execute") kwargs;
  query ← required_argument (lit "WebSearchTool.execute") kwargs (lit "query");
  run query (optional_argument kwargs (lit "source_filter") (VStr (lit "all"))).

End WebSearchTool.

(** *** registry.py *)

(** A tool instance: its schema and its [execute] method. *)
Record BaseTool := {
  schema : option ToolSchema;
  execute : keywords → result payload
}.

(** [ToolRegistry.tools], a dictionary from tool name to instance. *)
Abbreviation ToolRegistry := (list (str * BaseTool)).

Definition register_tool (tools : ToolRegistry) (tool : BaseTool) : ToolRegistry :=
  match schema tool with
  | Some sc => dict_set (name sc) tool tools
  | None => tools
  end.

Definition _initialize_tools `{Clock} `{ToolBodies} : ToolRegistry :=
  foldl register_tool []
    [ {| schema := GetCurrentDateTimeTool.schema; execute := GetCurrentDateTimeTool.execute |};
      {| schema := CalculateAgeTool.schema; execute := CalculateAgeTool.execute |};
      {| schema := GetWorkingHoursTool.schema; execute := GetWorkingHoursTool.execute |};
      {| schema := SearchInternalDocsTool.schema; execute := SearchInternalDocsTool.execute |};
      {| schema := WebSearchTool.schema; execute := WebSearchTool.execute |} ].

(** The global [tool_registry]. *)
Definition tool_registry `{Clock} `{ToolBodies} : ToolRegistry := _initialize_tools.

Definition get_tool (tools : ToolRegistry) (tool_name : str) : option BaseTool :=
  dict_get tool_name tools.

Definition get_all_schemas (tools : ToolRegistry) : result (list FunctionSchema) :=
  mapM (fun entry => get_schema (schema entry.2)) tools.

Definition get_tool_names (tools : ToolRegistry) : list str := tools.*1.

(** [ToolRegistry.execute_tool(tool_name, **kwargs)] *)
Definition execute_tool (tools : ToolRegistry) (tool_name : str) (kwargs : keywords)
  : result payload :=
  match get_tool tools tool_name with
  | None =>
      Ok [ (lit "success", VBool false);
           (lit "error", VStr (lit "Tool '" ++ tool_name ++ lit "' not found")) ]
  | Some tool => execute tool kwargs
  end.

End Tools.

(** ** Ingestion: config.py, document_processor.py *)

Module DocumentProcessor.
Import Float64.

(** The fields of [Settings] that the pipeline reads. *)
Record Settings := {
  CHROMA_PERSIST_DIRECTORY : str;
  CHROMA_COLLECTION_NAME : str;
  DOCUMENTS_PATH : str;
  CHUNK_SIZE : Z;
  CHUNK_OVERLAP : Z;
  RETRIEVAL_TOP_K : Z
}.

(** The defaults of config.py. *)
Definition default_settings : Settings := {|
  CHROMA_PERSIST_DIRECTORY := lit "./vectordb/chroma_db";
  CHROMA_COLLECTION_NAME := lit "healthcare_docs";
  DOCUMENTS_PATH := lit "./data/sample_docs";
  CHUNK_SIZE := 1000;
  CHUNK_OVERLAP := 200;
  RETRIEVAL_TOP_K := 5
|}.

(** A metadata value; the vector store keeps strings, integers, floats
    and booleans. *)
Inductive scalar :=
| MStr (s : str)
| MInt (z : Z)
| MFloat (x : float)
| MBool (b : bool).

(** [langchain.schema.Document] *)
Record Document := {
  page_content : str;
  metadata : gmap str scalar
}.

(** The instance built by [DocumentProcessor.__init__]. *)
Record DocumentProcessor := {
  documents_path : str;
  chunk_size : Z;
  chunk_overlap : Z;
  persist_directory : str;
  collection_name : str
}.

Definition __init__ (settings : Settings) : DocumentProcessor := {|
  documents_path := DOCUMENTS_PATH settings;
  chunk_size := CHUNK_SIZE settings;
  chunk_overlap := CHUNK_OVERLAP settings;
  persist_directory := CHROMA_PERSIST_DIRECTORY settings;
  collection_name := CHROMA_COLLECTION_NAME settings
|}.

(** *** Collaborators *)

(** [RecursiveCharacterTextSplitter] of langchain_text_splitters, with
    [length_function=len] and the separator list of the source. *)
Class TextSplitter := {
  (* the constructor, given chunk_size and chunk_overlap *)
  splitter_init : Z → Z → result unit;
  (* split_text(text) of the instance so configured *)
  split_text : Z → Z → str → result (list str)
}.

(** The embedding provider. *)
Class Embeddings := {
  embed_documents : list str → result (list (list float))
}.

(** An entry of a collection: chunk text, embedding vector, metadata. *)
Record Entry := {
  entry_text : str;
  entry_vector : list float;
  entry_metadata : gmap str scalar
}.

(** The collection of the vector store library, as far as a write
    goes. *)
Class VectorStore := {
  (* what an upsert without entries raises *)
  empty_batch : exn;
  (* what an upsert raises when the vectors are not as many as the texts *)
  unequal_lengths : exn;
  (* an upsert of entries that the collection accepts: [None] when all
     of them are written, otherwise how many were written and what was
     raised then *)
  upsert : list Entry → option (nat * exn)
}.

(** Calls made to the outside that leave no mark on the store. *)
Inductive call :=
| LoaderLoad (path : str)
| EmbedDocuments (texts : list str).

(** The persisted vector store under the persist directory, the
    documents directory, and the record of outside calls. *)
Record World := {
  collections : gmap str (list Entry);
  store_error : option exn;        (* opening the store raises this *)
  count_error : option exn;        (* counting a collection raises this *)
  documents_directory : option (result (list Document));
                                   (* None: the path does not exist;
                                      otherwise what the loader yields *)
  calls : list call
}.

Definition set_collections (f : gmap str (list Entry) → gmap str (list Entry))
    (w : World) : World :=
  {| collections := f (collections w);
     store_error := store_error w;
     count_error := count_error w;
     documents_directory := documents_directory w;
     calls := calls w |}.

Definition log (c : call) (w : World) : World :=
  {| collections := collections w;
     store_error := store_error w;
     count_error := count_error w;
     documents_directory := documents_directory w;
     calls := calls w ++ [c] |}.

(** Computations on the world that may raise.  The world at the point
    of a raise is kept: nothing is rolled back. *)
Definition M (A : Type) : Type := World → result A * World.

#[export] Instance M_ret : MRet M := fun A a w => (Ok a, w).

#[export] Instance M_bind : MBind M := fun A B k m w =>
  match m w with
  | (Ok a, w') => k a w'
  | (Raise e, w') => (Raise e, w')
  end.

Definition lift {A} (r : result A) : M A := fun w => (r, w).

Definition raise {A} (e : exn) : M A := fun w => (Raise e, w).

(** [try: body  except Exception as e: handler(e)] *)
Definition try_catch {A} (body : M A) (handler : exn → M A) : M A := fun w =>
  match body w with
  | (Ok a, w') => (Ok a, w')
  | (Raise e, w') => handler e w'
  end.

(** [Chroma(collection_name=..., embedding_function=...,
    persist_directory=...)]: opens the store and gets the collection,
    creating it empty when it is not there. *)
Definition Chroma (collection : str) : M str := fun w =>
  match store_error w with
  | Some e => (Raise e, w)
  | None =>
      match collections w !! collection with
      | Some _ => (Ok collection, w)
      | None => (Ok collection, set_collections <[collection := []]> w)
      end
  end.

(** [vectorstore._collection.count()] *)
Definition count (collection : str) : M Z := fun w =>
  match count_error w with
  | Some e => (Raise e, w)
  | None => (Ok (Z.of_nat (length (default [] (collections w !! collection)))), w)
  end.

(** A call of the embedding provider. *)
Definition embed `{Embeddings} (texts : list str) : M (list (list float)) := fun w =>
  (embed_documents texts, log (EmbedDocuments texts) w).

(** The write of chunks and their vectors to a collection.  The
    library refuses a write without chunks and one whose vectors are
    not as many as the chunks; a write that it accepts appends one
    entry for each chunk, and when it fails on the way, the entries
    written until then stay. *)
Definition add_entries `{VectorStore} (collection : str) (chunks : list Document)
    (vectors : list (list float)) : M unit := fun w =>
  let entries :=
    zip_with (fun c v => {| entry_text := page_content c;
                            entry_vector := v;
                            entry_metadata := metadata c |}) chunks vectors in
  let written (k : nat) :=
    set_collections
      (fun cs => <[collection := default [] (cs !! collection) ++ take k entries]> cs) w in
  match chunks with
  | [] => (Raise empty_batch, w)
  | _ :: _ =>
      if negb (length vectors =? length chunks)%nat then (Raise unequal_lengths, w)
      else
        match upsert entries with
        | None => (Ok (), written (length entries))
        | Some (k, e) => (Raise e, written k)
        end
  end.

(** [Chroma.from_documents(documents=chunks, ...)]: opens the
    collection, embeds the texts, writes the entries. *)
Definition from_documents `{Embeddings} `{VectorStore} (chunks : list Document)
    (collection : str) : M str :=
  store ← Chroma collection;
  vectors ← embed (page_content <$> chunks);
  _ ← add_entries store chunks vectors;
  mret store.

(** *** DocumentProcessor.load_documents *)

Definition load_documents (self : DocumentProcessor) : M (list Document) := fun w =>
  match documents_directory w with
  | None =>
      (Raise (Exn FileNotFoundError
                (lit "❌ Documents directory not found: " ++ documents_path self)), w)
  | Some loaded =>
      let w' := log (LoaderLoad (documents_path self)) w in
      match loaded with
      | Raise e =>
          (Raise (Exn ValueError (lit "❌ Error loading documents: " ++ exn_str e)), w')
      | Ok [] =>
          (Raise (Exn ValueError
                    (lit "❌ No .txt files found in " ++ documents_path self
                       ++ lit ". Please add documents to this directory.")), w')
      | Ok documents => (Ok documents, w')
      end
  end.

(** *** DocumentProcessor.split_documents *)

(** [TextSplitter.split_documents] of the library: every chunk of a
    document gets its own copy of that document's metadata. *)
Definition library_split_documents `{TextSplitter} (size overlap : Z)
    (documents : list Document) : result (list Document) :=
  per_document ← mapM (fun d =>
      texts ← split_text size overlap (page_content d);
      mret ((fun t => {| page_content := t; metadata := metadata d |}) <$> texts))
    documents;
  mret (concat per_document).

(** The loop [for i, chunk in enumerate(chunks)], from position [i]. *)
Fixpoint index_chunks (i : Z) (chunks : list Document) : list Document :=
  match chunks with
  | [] => []
  | chunk :: rest =>
      {| page_content := page_content chunk;
         metadata :=
           <[lit "chunk_size" := MInt (Z.of_nat (length (page_content chunk)))]>
             (<[lit "chunk_index" := MInt i]> (metadata chunk)) |}
        :: index_chunks (i + 1) rest
  end.

Definition split_documents `{TextSplitter} (self : DocumentProcessor)
    (documents : list Document) : result (list Document) :=
  _ ← splitter_init (chunk_size self) (chunk_overlap self);
  chunks ← library_split_documents (chunk_size self) (chunk_overlap self) documents;
  mret (index_chunks 0 chunks).

(** *** DocumentProcessor.ingest_documents *)

(** The block under [if not force_reindex]: [Some] is its early
    [return], [None] falls through, also after [except Exception: pass]. *)
Definition existing_collection (self : DocumentProcessor) : M (option (Z * Z * float)) :=
  try_catch
    (existing_db ← Chroma (collection_name self);
     existing_count ← count existing_db;
     if existing_count >? 0
     then mret (Some (0, existing_count, zero))
     else mret None)
    (fun _ => mret None).

(** [start_time] and [end_time] are the two readings of [time.time()]. *)
Definition ingest_documents `{TextSplitter} `{Embeddings} `{VectorStore}
    (self : DocumentProcessor)
    (force_reindex : bool) (start_time end_time : float) : M (Z * Z * float) :=
  early ← (if negb force_reindex then existing_collection self else mret None);
  match early with
  | Some report => mret report
  | None =>
      documents ← load_documents self;
      chunks ← lift (split_documents self documents);
      _ ← try_catch (from_documents chunks (collection_name self))
            (fun e => raise (Exn RuntimeError
                               (lit "❌ Failed to create vector store: " ++ exn_str e)));
      let elapsed_time := sub end_time start_time in
      mret (Z.of_nat (length documents), Z.of_nat (length chunks), elapsed_time)
  end.

(** *** DocumentProcessor.get_vectorstore, get_document_count *)

Definition get_vectorstore (self : DocumentProcessor) : M str :=
  Chroma (collection_name self).

Definition get_document_count (self : DocumentProcessor) : M Z :=
  try_catch
    (vectorstore ← get_vectorstore self;
     count vectorstore)
    (fun _ => mret 0).

End DocumentProcessor.

(** ** Question answering: models.py, rag_engine.py *)

Module RAGEngine.
Import Float64 DocumentProcessor.

(** [class UserRole(str, Enum)]: a member is a string, equal to and
    hashed as its value. *)
Inductive UserRole := DOCTOR | RECEPTIONIST | BILLING | GENERAL.

Definition value (role : UserRole) : str :=
  match role with
  | DOCTOR => lit "doctor"
  | RECEPTIONIST => lit "receptionist"
  | BILLING => lit "billing"
  | GENERAL => lit "general"
  end.

Definition DOCTOR_PROMPT : str :=
  text
    [ lit "You are a helpful AI assistant designed for doctors and medical professionals at a hospital.";
      [];
      lit "Your Role:";
      lit "- Answer questions about hospital policies, procedures, and patient care guidelines";
      lit "- Provide detailed, accurate medical information suitable for healthcare professionals";
      lit "- Use ONLY information from the provided context";
      [];
      lit "SAFETY RULES (CRITICAL):";
      lit "1. NEVER provide medical diagnosis";
      lit "2. NEVER prescribe medications or recommend dosages";
      lit "3. NEVER provide treatment recommendations";
      lit "4. ONLY use information from the provided context";
      lit "5. If information is not in context, state " ++ dquote ++ lit "I don't have that information in our records" ++ dquote;
      lit "6. For emergencies, direct to call 911";
      [];
      lit "Format: Be clear, professional, use bullet points when helpful." ].

Definition RECEPTIONIST_PROMPT : str :=
  text
    [ lit "You are a helpful AI assistant for hospital reception and front-desk staff.";
      [];
      lit "Your Role:";
      lit "- Answer questions about admission procedures, visiting hours, appointments";
      lit "- Provide clear general hospital information";
      lit "- Use ONLY information from the provided context";
      [];
      lit "SAFETY RULES (CRITICAL):";
      lit "1. ONLY answer questions based on provided information";
      lit "2. Direct medical questions to medical staff";
      lit "3. If unsure, say " ++ dquote ++ lit "I don't have that information, let me connect you with the right department" ++ dquote;
      lit "4. For emergencies, direct to call 911";
      [];
      lit "Format: Keep responses simple, professional, clear." ].

Definition BILLING_PROMPT : str :=
  text
    [ lit "You are a helpful AI assistant for hospital billing and financial services.";
      [];
      lit "Your Role:";
      lit "- Answer questions about billing, insurance, payment options, and financial policies";
      lit "- Provide clear information about costs and payment processes";
      lit "- Use ONLY information from the provided context";
      [];
      lit "SAFETY RULES (CRITICAL):";
      lit "1. ONLY use information from provided context";
      lit "2. Don't make financial recommendations";
      lit "3. For insurance questions, suggest checking with insurance provider directly";
      lit "4. If unsure, say " ++ dquote ++ lit "Please contact our billing department for clarification" ++ dquote;
      [];
      lit "Format: Be precise about financial information, use clear language." ].

Definition GENERAL_PROMPT : str :=
  text
    [ lit "You are a helpful AI assistant for general hospital information.";
      [];
      lit "Your Role:";
      lit "- Answer questions about hospital services, policies, and procedures";
      lit "- Provide clear, easy-to-understand information for patients and visitors";
      lit "- Use ONLY information from the provided context";
      [];
      lit "SAFETY RULES (CRITICAL):";
      lit "1. ONLY answer based on provided information";
      lit "2. Do NOT provide medical advice";
      lit "3. If medical question, suggest consulting healthcare professionals";
      lit "4. For emergencies, direct to call 911";
      [];
      lit "Format: Use simple language, be friendly and professional." ].

(** [RAGEngine.ROLE_PROMPTS] *)
Definition ROLE_PROMPTS : gmap str str :=
  list_to_map
    [ (value DOCTOR, DOCTOR_PROMPT);
      (value RECEPTIONIST, RECEPTIONIST_PROMPT);
      (value BILLING, BILLING_PROMPT);
      (value GENERAL, GENERAL_PROMPT) ].

Definition DISCLAIMER : str :=
  text
    [ lit "⚠️ IMPORTANT DISCLAIMER:";
      lit "This information is for general guidance only. For medical advice, diagnosis, or treatment, please consult with qualified healthcare professionals. In case of emergency, call 911 or visit the Emergency Department immediately." ].

(** [langchain.prompts.PromptTemplate] *)
Record PromptTemplate := {
  template : str;
  input_variables : list str
}.

(** What follows the role block in the template. *)
Definition template_frame : str :=
  text
    [ [];
      [];
      lit "===== CONTEXT FROM DOCUMENTS =====";
      lit "{context}";
      [];
      lit "===== USER QUESTION =====";
      lit "{question}";
      [];
      lit "===== RESPONSE =====";
      lit "Provide a clear, detailed response based ONLY on the context above.";
      lit "Include relevant details and use bullet points if appropriate.";
      lit "DO NOT make up information not in the context." ].

(** [RAGEngine._create_prompt_template].  The argument is the key
    handed to [ROLE_PROMPTS.get]. *)
Definition _create_prompt_template (user_role : str) : PromptTemplate :=
  let role_context := default (ROLE_PROMPTS !!! value GENERAL) (ROLE_PROMPTS !! user_role) in
  {| template := role_context ++ template_frame;
     input_variables := [ lit "context"; lit "question" ] |}.

(** The two literals around the tool list. *)
Definition tool_info_head : str :=
  text
    [ [];
      lit "===== AVAILABLE TOOLS =====";
      lit "The following tools are available to enhance your response:";
      lit "    " ].

Definition tool_info_tail : str :=
  text
    [ [];
      lit "IMPORTANT: If the user asks about:";
      lit "- Current time, date, or day → Use get_current_datetime";
      lit "- Patient age from birthdate → Use calculate_age";
      lit "- Hospital department hours → Use get_working_hours";
      lit "- Hospital policies or procedures → Use search_internal_docs";
      lit "- Health information from web → Use web_search";
      [];
      lit "When you use a tool, mention it in your response like:";
      dquote ++ lit "Using get_current_datetime to check..." ++ dquote ++ lit " or " ++ dquote ++ lit "Searching hospital docs for..." ++ dquote;
      lit "===== END TOOLS =====";
      lit "    " ].

(** The dictionary returned by the chain: the key [result] and, when
    sources were asked for, the key [source_documents]. *)
Record ChainResult := {
  result_text : option str;
  source_documents : option (list Document)
}.

(** The retrieval chain of langchain over the retriever and the chat
    model. *)
Class Chain := {
  qa_chain : Type;
  (* RetrievalQA.from_chain_type(llm, chain_type="stuff", retriever,
     return_source_documents, chain_type_kwargs={"prompt": prompt}),
     given the collection, top k, the flag and the prompt *)
  from_chain_type : str → Z → bool → PromptTemplate → result qa_chain;
  (* qa_chain.invoke({"query": question}) on the store as it stands *)
  invoke : qa_chain → str → World → result ChainResult
}.

(** [str.lower] of the interpreter. *)
Class Unicode := {
  lower : str → str
}.

(** An entry of [sources]. *)
Record Source := {
  filename : str;
  chunk_index : scalar;
  relevance_score : float;
  content_preview : str
}.

(** The dictionary returned by [query]. *)
Record QueryResult := {
  question : str;
  answer : str;
  sources : list Source;
  user_role : str;
  disclaimer : str;
  processing_time_seconds : float;
  tools_used : list str
}.

(** *** RAGEngine._process_sources *)

(** [doc.metadata.get("source", "unknown")] reduced to a file name.  The
    membership test needs a string. *)
Definition source_filename (doc : Document) : result str :=
  match default (MStr (lit "unknown")) (metadata doc !! lit "source") with
  | MStr filename =>
      if contains [slash] filename || contains [backslash] filename
      then Ok (last_part (split backslash (last_part (split slash filename))))
      else Ok filename
  | MInt _ => Raise (Exn TypeError (lit "argument of type 'int' is not iterable"))
  | MFloat _ => Raise (Exn TypeError (lit "argument of type 'float' is not iterable"))
  | MBool _ => Raise (Exn TypeError (lit "argument of type 'bool' is not iterable"))
  end.

(** [round(1.0 - (i * 0.1), 2)] *)
Definition rank_score (i : Z) : float :=
  round (sub one (mul (of_int i) tenth)) 2.

(** [doc.page_content[:200]], with the marker appended to longer content. *)
Definition preview (content : str) : str :=
  let content_preview := take 200 content in
  if (200 <? length content)%nat then content_preview ++ lit "..." else content_preview.

(** One round of the loop. *)
Definition process_source (i : Z) (doc : Document) : result Source :=
  filename ← source_filename doc;
  mret {| filename := filename;
          chunk_index := default (MInt i) (metadata doc !! lit "chunk_index");
          relevance_score := rank_score i;
          content_preview := preview (page_content doc) |}.

(** The loop [for i, doc in enumerate(source_documents)], from position
    [i] with the entries appended so far. *)
Fixpoint process_from (i : Z) (source_documents : list Document) (sources : list Source)
  : result (list Source) :=
  match source_documents with
  | [] => Ok sources
  | doc :: rest =>
      entry ← process_source i doc;
      process_from (i + 1) rest (sources ++ [entry])
  end.

Definition _process_sources (source_documents : list Document) : result (list Source) :=
  process_from 0 source_documents [].

(** *** RAGEngine._extract_tools_used *)

Definition _extract_tools_used `{Unicode} (tool_names : list str) (response : str)
  : list str :=
  filter (fun tool_name => contains (lower tool_name) (lower response) = true) tool_names.

(** *** RAGEngine.query *)

(** The numbered tool lines, [enumerate(tool_schemas, 1)]. *)
Fixpoint tool_lines (i : Z) (tool_schemas : list Tools.FunctionSchema) : str :=
  match tool_schemas with
  | [] => []
  | func :: rest =>
      str_of_int i ++ lit ". " ++ Tools.function_name func ++ lit ": "
        ++ Tools.function_description func ++ nl ++ tool_lines (i + 1) rest
  end.

Definition tool_info (tool_schemas : list Tools.FunctionSchema) : str :=
  match tool_schemas with
  | [] => []
  | _ => tool_info_head ++ tool_lines 1 tool_schemas ++ tool_info_tail
  end.

(** The template with the tool block put before the response header. *)
Definition with_tools (prompt_template : PromptTemplate)
    (tool_schemas : list Tools.FunctionSchema) : PromptTemplate :=
  let original_template := template prompt_template in
  if contains (lit "AVAILABLE TOOLS") original_template then prompt_template
  else {| template := replace original_template (lit "===== RESPONSE =====")
                        (tool_info tool_schemas ++ nl ++ lit "===== RESPONSE =====");
          input_variables := input_variables prompt_template |}.

Section Query.
Context `{Tools.Clock} `{Tools.ToolBodies} `{Chain} `{Unicode}.
Variable settings : Settings.

(** The global [document_processor]. *)
Definition document_processor : DocumentProcessor := __init__ settings.

(** The answer of the [except] branch. *)
Definition failure_result (question : str) (user_role : UserRole) (e : exn)
    (start_time end_time : float) : QueryResult :=
  {| question := question;
     answer := lit "❌ Error processing query: " ++ exn_str e;
     sources := [];
     user_role := value user_role;
     disclaimer := DISCLAIMER;
     processing_time_seconds := round (sub end_time start_time) 2;
     tools_used := [] |}.

(** What follows a successful [invoke]. *)
Definition success_result (question : str) (user_role : UserRole)
    (include_sources : bool) (chain_result : ChainResult)
    (start_time end_time : float) : result QueryResult :=
  sources ← match include_sources, source_documents chain_result with
            | true, Some documents => _process_sources documents
            | _, _ => Ok []
            end;
  let response := default [] (result_text chain_result) in
  mret {| question := question;
          answer := response;
          sources := sources;
          user_role := value user_role;
          disclaimer := DISCLAIMER;
          processing_time_seconds := round (sub end_time start_time) 2;
          tools_used :=
            _extract_tools_used (Tools.get_tool_names Tools.tool_registry) response |}.

(** The [try] around [invoke] and what follows it. *)
Definition answer_with (chain : qa_chain) (question : str) (user_role : UserRole)
    (include_sources : bool) (start_time end_time : float) : M QueryResult := fun w =>
  match invoke chain question w with
  | Raise e => (Ok (failure_result question user_role e start_time end_time), w)
  | Ok chain_result =>
      (success_result question user_role include_sources chain_result
         start_time end_time, w)
  end.

(** The statements of [query] before its [try]: the store is opened
    afresh, the prompt is assembled, the chain is built. *)
Definition prepare_chain (user_role : UserRole) (include_sources : bool) : M qa_chain :=
  vectorstore ← get_vectorstore document_processor;
  tool_schemas ← lift (Tools.get_all_schemas Tools.tool_registry);
  let prompt_template :=
    with_tools (_create_prompt_template (value user_role)) tool_schemas in
  lift (from_chain_type vectorstore (RETRIEVAL_TOP_K settings)
          include_sources prompt_template).

(** [RAGEngine.query]; [start_time] and [end_time] are the readings of
    [time.time()] on entry and when the answer is assembled. *)
Definition query (question : str) (user_role : UserRole) (include_sources : bool)
    (start_time end_time : float) : M QueryResult :=
  chain ← prepare_chain user_role include_sources;
  answer_with chain question user_role include_sources start_time end_time.

End Query.

End RAGEngine.

(** ** Sample collaborators and inputs *)

Module Samples.
Import Float64 Tools DocumentProcessor RAGEngine.

Definition monday_night : datetime := {|
  isoformat := lit "2025-11-17T23:30:45+00:00";
  strftime_date := lit "2025-11-17";
  strftime_time := lit "23:30:45";
  weekday := 0;
  unix_timestamp := 1763422245;
  hour := 23;
  minute := 30;
  second := 45
|}.

(** A time zone database that knows the key UTC only. *)
Definition utc_clock : Clock := {|
  tzinfo := unit;
  ZoneInfo := fun key =>
    match key with
    | VStr s =>
        if decide (s = lit "UTC") then Ok ()
        else Raise (Exn LibraryError (lit "'No time zone found with key " ++ s ++ squote))
    | _ => Raise (Exn TypeError (lit "ZoneInfo keys must be strings"))
    end;
  datetime_now := fun _ => monday_night
|}.

(** Tool bodies that return an empty success payload. *)
Definition plain_bodies : ToolBodies := {|
  calculate_age_body := fun _ _ => Ok [ (lit "success", VBool true) ];
  get_working_hours_body := fun _ => Ok [ (lit "success", VBool true) ];
  search_internal_docs_body := fun _ _ _ => Ok [ (lit "success", VBool true) ];
  web_search_body := fun _ _ => Ok [ (lit "success", VBool true) ]
|}.

(** A splitter whose constructor rejects an overlap larger than the
    chunk size, as the library's does, and that keeps a text that fits
    the chunk size whole; a longer text is cut every [size] characters. *)
Fixpoint cut (fuel : nat) (size : nat) (s : str) : list str :=
  match fuel with
  | O => []
  | S k => if (length s <=? size)%nat then [s] else take size s :: cut k size (drop size s)
  end.

Definition plain_splitter : TextSplitter := {|
  splitter_init := fun size overlap =>
    if overlap >? size
    then Raise (Exn ValueError (lit "Got a larger chunk overlap than chunk size"))
    else Ok ();
  split_text := fun size overlap s =>
    if size <=? 0 then Ok [s] else Ok (cut (S (length s)) (Z.to_nat size) s)
|}.



Definition provider_down : exn := Exn LibraryError (lit "503 Service Unavailable").

(** A chain whose provider is down. *)
Definition failing_chain : Chain := {|
  qa_chain := unit;
  from_chain_type := fun _ _ _ _ => Ok ();
  invoke := fun _ _ _ => Raise provider_down
|}.

Definition visiting_question : str := lit "What are the visiting hours?".

Definition ascii_only : Unicode := {| lower := ascii_lower |}.

Definition visiting_hours : Document := {|
  page_content := lit "Visiting hours are 10:00-12:00 and 16:00-18:00.";
  metadata := {[ lit "source" := MStr (lit "data/sample_docs/visitor_policy.txt") ]}
|}.

Definition billing_note : Document := {|
  page_content := lit "Invoices are due within 30 days.";
  metadata := {[ lit "source" := MStr (lit "data/sample_docs/billing.txt") ]}
|}.

(** A chunk of 201 characters. *)
Definition long_chunk : Document := {|
  page_content := replicate 201 97%N;
  metadata := {[ lit "source" := MStr (lit "data/sample_docs/visitor_policy.txt");
                 lit "chunk_index" := MInt 3 ]}
|}.

(** The source entry of [long_chunk] at rank 0. *)
Definition long_chunk_entry : Source := {|
  filename := lit "visitor_policy.txt";
  chunk_index := MInt 3;
  relevance_score := one;
  content_preview := replicate 200 97%N ++ lit "..."
|}.



Definition entry_of (d : Document) : Entry := {|
  entry_text := page_content d;
  entry_vector := [zero];
  entry_metadata := metadata d
|}.

(** A store that holds one collection with one entry. *)
Definition populated : World := {|
  collections := {[ lit "healthcare_docs" := [entry_of visiting_hours] ]};
  store_error := None;
  count_error := None;
  documents_directory := Some (Ok [visiting_hours; billing_note]);
  calls := []
|}.

(** A store that cannot be opened. *)
Definition unreachable : World := {|
  collections := ∅;
  store_error := Some (Exn LibraryError (lit "unable to open database file"));
  count_error := None;
  documents_directory := None;
  calls := []
|}.

(** The chunk that [visiting_hours] yields when it comes first. *)
Definition visiting_hours_chunk : Document := {|
  page_content := page_content visiting_hours;
  metadata :=
    <[lit "chunk_size" := MInt 47]>
      (<[lit "chunk_index" := MInt 0]> (metadata visiting_hours))
|}.

(** A processor with chunks of 20 characters. *)
Definition small_chunks : DocumentProcessor := {|
  documents_path := lit "./data/sample_docs";
  chunk_size := 20;
  chunk_overlap := 5;
  persist_directory := lit "./vectordb/chroma_db";
  collection_name := lit "healthcare_docs"
|}.

(** The piece of [d] of [len] characters from [start], as chunk [index]. *)
Definition piece (d : Document) (start len : nat) (index : Z) : Document := {|
  page_content := take len (drop start (page_content d));
  metadata :=
    <[lit "chunk_size" := MInt (Z.of_nat len)]>
      (<[lit "chunk_index" := MInt index]> (metadata d))
|}.

(** The chunks of the batch [visiting_hours; billing_note]. *)
Definition batch_chunks : list Document :=
  [ piece visiting_hours 0 20 0;
    piece visiting_hours 20 20 1;
    piece visiting_hours 40 7 2;
    piece billing_note 0 20 3;
    piece billing_note 20 12 4 ].

(** A processor whose overlap equals its chunk size. *)
Definition equal_sizes : DocumentProcessor := {|
  documents_path := lit "./data/sample_docs";
  chunk_size := 1000;
  chunk_overlap := 1000;
  persist_directory := lit "./vectordb/chroma_db";
  collection_name := lit "healthcare_docs"
|}.

End Samples.

(** ** Predicates and decision procedures for the proofs *)

Module Checks.
Import Float64 DocumentProcessor RAGEngine.

(** The source entry of the document, when there is one, is a string,
    as the loader writes it. *)
Definition source_is_text (doc : Document) : Prop :=
  match metadata doc !! lit "source" with
  | Some (MStr _) | None => True
  | Some _ => False
  end.





End Checks.

(** ** More of the interpreter: whitespace, truth values, slices, dates *)

Module Builtins.

(** [c.isspace()]: the white space characters of Unicode. *)
Definition isspace (c : N) : bool :=
  ((9 <=? c) && (c <=? 13) || (28 <=? c) && (c <=? 32) || (c =? 133) || (c =? 160)
   || (c =? 5760) || (8192 <=? c) && (c <=? 8202) || (c =? 8232) || (c =? 8233)
   || (c =? 8239) || (c =? 8287) || (c =? 12288))%N.

Fixpoint lstrip (s : str) : str :=
  match s with
  | [] => []
  | c :: s' => if isspace c then lstrip s' else s
  end.

Definition rstrip (s : str) : str := reverse (lstrip (reverse s)).

(** [s.strip()] *)
Definition strip (s : str) : str := rstrip (lstrip s).

(** [bool(v)], the test of an [if]. *)
Definition truthy (v : object) : bool :=
  match v with
  | VNone => false
  | VBool b => b
  | VInt z => negb (z =? 0)
  | VFloat (S754_zero _) => false
  | VFloat _ => true
  | VStr s => negb (bool_decide (s = []))
  | VList l => negb (bool_decide (length l = 0%nat))
  | VDict d => negb (bool_decide (length d = 0%nat))
  end.

(** [s == v] for a string [s]: only a string with the same characters
    is equal to it. *)
Definition str_eq (s : str) (v : object) : bool :=
  match v with
  | VStr t => bool_decide (s = t)
  | _ => false
  end.

(** [xs[:stop]] *)
Definition slice_to {A} (xs : list A) (stop : object) : result (list A) :=
  match stop with
  | VNone => Ok xs
  | VInt n =>
      if n <? 0 then Ok (take (Z.to_nat (Z.of_nat (length xs) + n)) xs)
      else Ok (take (Z.to_nat n) xs)
  | VBool b => Ok (take (if b then 1%nat else 0%nat) xs)
  | _ =>
      Raise (Exn TypeError
               (lit "slice indices must be integers or None or have an __index__ method"))
  end.

(** [v.attr] for an attribute that the object does not have. *)
Definition no_attribute {A} (v : object) (attr : str) : result A :=
  Raise (Exn AttributeError
           (squote ++ type_name v ++ lit "' object has no attribute '" ++ attr ++ squote)).

(** [datetime.date] *)
Record date := {
  year : Z;
  month : Z;
  day : Z
}.

Definition is_leap (y : Z) : bool :=
  (y mod 4 =? 0) && (negb (y mod 100 =? 0) || (y mod 400 =? 0)).

Definition days_before_year (y : Z) : Z :=
  (y - 1) * 365 + (y - 1) / 4 - (y - 1) / 100 + (y - 1) / 400.

Definition days_in_month (y m : Z) : Z :=
  if m =? 2 then (if is_leap y then 29 else 28)
  else if (m =? 4) || (m =? 6) || (m =? 9) || (m =? 11) then 30
  else 31.

Definition days_before_month (y m : Z) : Z :=
  nth (Z.to_nat (m - 1)) [0; 31; 59; 90; 120; 151; 181; 212; 243; 273; 304; 334] 0
  + (if (2 <? m) && is_leap y then 1 else 0).

(** [d.toordinal()]: the day number, 1 for 0001-01-01. *)
Definition toordinal (d : date) : Z :=
  days_before_year (year d) + days_before_month (year d) (month d) + day d.

(** The dates that a [date] object can hold. *)
Definition valid_date (d : date) : Prop :=
  1 ≤ year d ≤ 9999 ∧ 1 ≤ month d ≤ 12 ∧ 1 ≤ day d ≤ days_in_month (year d) (month d).

(** [a < b] on dates. *)
Definition date_lt (a b : date) : Prop :=
  year a < year b
  ∨ year a = year b ∧ (month a < month b ∨ month a = month b ∧ day a < day b).

(** Parsing, the clock and formatting of the [datetime] module. *)
Class Calendar := {
  strptime : object → result date;   (* datetime.strptime(v, "%Y-%m-%d").date() *)
  today : date;                      (* datetime.now().date() *)
  strftime : date → str              (* d.strftime("%Y-%m-%d") *)
}.

End Builtins.

(** ** The bodies of the mock tools: tools/time_tools.py,
       tools/search_tools.py *)

Module MockTools.
Import Float64 Tools Builtins.

(** *** CalculateAgeTool *)

(** Years, months and days between two dates, a month counted as 30
    days. *)
Definition age (ref_dt birth_dt : date) : Z * Z * Z :=
  let age_years := year ref_dt - year birth_dt in
  let age_months := month ref_dt - month birth_dt in
  let age_days := day ref_dt - day birth_dt in
  let '(age_months, age_days) :=
    if age_days <? 0 then (age_months - 1, age_days + 30) else (age_months, age_days) in
  let '(age_years, age_months) :=
    if age_months <? 0 then (age_years - 1, age_months + 12) else (age_years, age_months) in
  (age_years, age_months, age_days).

Definition is_birthday (ref_dt birth_dt : date) : bool :=
  (month ref_dt =? month birth_dt) && (day ref_dt =? day birth_dt).

Definition age_data `{Calendar} (birthdate : object) (ref_dt birth_dt : date)
  : list (str * object) :=
  let '(age_years, age_months, age_days) := age ref_dt birth_dt in
  [ (lit "age_years", VInt age_years);
    (lit "age_months", VInt age_months);
    (lit "age_days", VInt age_days);
    (lit "birthdate", birthdate);
    (lit "reference_date", VStr (strftime ref_dt));
    (lit "is_birthday_today", VBool (is_birthday ref_dt birth_dt));
    (lit "total_days_lived", VInt (toordinal ref_dt - toordinal birth_dt)) ].

Definition calculate_age `{Calendar} (birthdate reference_date : object)
  : result payload :=
  birth_dt ← strptime birthdate;
  ref_dt ← (if truthy reference_date then strptime reference_date else Ok today);
  Ok (format_result CalculateAgeTool.schema true
        (VDict (age_data birthdate ref_dt birth_dt)) VNone).

(** *** GetWorkingHoursTool *)

Definition always_open (full_name : string) : list (str * object) :=
  [ (lit "name", VStr (lit full_name));
    (lit "hours", VStr (lit "24/7"));
    (lit "is_24_7", VBool true);
    (lit "note", VStr (lit "Always open")) ].

Definition weekly (full_name monday_friday saturday sunday : string)
  : list (str * object) :=
  [ (lit "name", VStr (lit full_name));
    (lit "monday_friday", VStr (lit monday_friday));
    (lit "saturday", VStr (lit saturday));
    (lit "sunday", VStr (lit sunday));
    (lit "is_24_7", VBool false) ].

Definition HOSPITAL_SCHEDULE : list (str * list (str * object)) :=
  [ (lit "emergency", always_open "Emergency Department");
    (lit "icu", always_open "Intensive Care Unit");
    (lit "opd", weekly "Out Patient Department" "09:00 - 17:00" "09:00 - 13:00" "Closed");
    (lit "pharmacy", weekly "Pharmacy" "08:00 - 20:00" "09:00 - 18:00" "10:00 - 15:00");
    (lit "billing", weekly "Billing Department" "10:00 - 16:00" "10:00 - 14:00" "Closed") ].

Definition get_working_hours `{RAGEngine.Unicode} (department : object) : result payload :=
  match department with
  | VStr s =>
      let dept_lower := strip (RAGEngine.lower s) in
      match dict_get dept_lower HOSPITAL_SCHEDULE with
      | None =>
          let available := HOSPITAL_SCHEDULE.*1 in
          Ok (format_result GetWorkingHoursTool.schema false VNone
                (VStr (lit "Department not found. Available: "
                         ++ join (lit ", ") available)))
      | Some data => Ok (format_result GetWorkingHoursTool.schema true (VDict data) VNone)
      end
  | _ => no_attribute department (lit "lower")
  end.

(** *** SearchInternalDocsTool *)

Definition mock_document (id title type excerpt : string) (score : float)
  : list (str * object) :=
  [ (lit "id", VStr (lit id));
    (lit "title", VStr (lit title));
    (lit "type", VStr (lit type));
    (lit "excerpt", VStr (lit excerpt));
    (lit "relevance_score", VFloat score) ].

Definition internal_results : list (list (str * object)) :=
  [ mock_document "doc_001" "Visitor Policy" "policy"
      "Visiting hours: 10:00-12:00, 16:00-18:00 daily" (decimal 95 100);
    mock_document "doc_002" "ICU Visiting Guidelines" "procedure"
      "ICU visitors limited to 1 per patient per visit" (decimal 87 100);
    mock_document "doc_003" "Admission Procedures" "policy"
      "New admissions: Check-in at Reception, complete forms..." (decimal 72 100) ].

(** [r["type"] == doc_type] *)
Definition has_type (doc_type : object) (r : list (str * object)) : bool :=
  match dict_get (lit "type") r with
  | Some (VStr t) => str_eq t doc_type
  | _ => false
  end.

Definition search_internal_docs (query doc_type limit : object) : result payload :=
  let mock_results :=
    if str_eq (lit "all") doc_type then internal_results
    else List.filter (has_type doc_type) internal_results in
  mock_results ← slice_to mock_results limit;
  let data := VDict
    [ (lit "query", query);
      (lit "results_count", VInt (Z.of_nat (length mock_results)));
      (lit "results", VList (VDict <$> mock_results));
      (lit "search_time_ms", VInt 125) ] in
  Ok (format_result SearchInternalDocsTool.schema true data VNone).

(** *** WebSearchTool *)

Definition web_result (title url snippet source date : string) : list (str * object) :=
  [ (lit "title", VStr (lit title));
    (lit "url", VStr (lit url));
    (lit "snippet", VStr (lit snippet));
    (lit "source", VStr (lit source));
    (lit "date", VStr (lit date)) ].

Definition web_results : list (list (str * object)) :=
  [ web_result "Health Topic Overview" "https://health-resource.com/info"
      "General information about the health topic..." "Medical Database" "2025-11-15";
    web_result "Latest Medical Research" "https://research.journal.com/article"
      "Recent findings show..." "Medical Journal" "2025-11-10" ].

Definition web_search (query source_filter : object) : result payload :=
  let data := VDict
    [ (lit "query", query);
      (lit "results", VList (VDict <$> web_results));
      (lit "total_results", VInt (Z.of_nat (length web_results))) ] in
  Ok (format_result WebSearchTool.schema true data VNone).

(** The four bodies as the source has them. *)
Definition source_bodies `{RAGEngine.Unicode} `{Calendar} : ToolBodies := {|
  calculate_age_body := calculate_age;
  get_working_hours_body := get_working_hours;
  search_internal_docs_body := search_internal_docs;
  web_search_body := web_search
|}.

End MockTools.

(** ** Provider configuration: config.py *)

Module Config.
Import Float64.

(** The fields of [Settings] that name the providers and the
    application; the pipeline fields are in [DocumentProcessor.Settings]. *)
Record ProviderSettings := {
  GEMINI_API_KEY : option str;
  OPENAI_API_KEY : option str;
  APP_NAME : str;
  APP_VERSION : str;
  DEBUG_MODE : bool;
  LLM_TEMPERATURE : float;
  LLM_MAX_OUTPUT_TOKENS : Z;
  EMBEDDING_MODEL : str;
  CHAT_MODEL : str
}.

(** The dictionary returned by [get_llm_config] and
    [get_embedding_config]. *)
Record ProviderConfig := {
  provider : str;
  api_key : str;
  model : str
}.

Definition is_gemini_configured (self : ProviderSettings) : bool :=
  bool_decide (GEMINI_API_KEY self ≠ None).

Definition is_openai_configured (self : ProviderSettings) : bool :=
  bool_decide (OPENAI_API_KEY self ≠ None).

Definition get_llm_config (self : ProviderSettings) : result ProviderConfig :=
  match GEMINI_API_KEY self, OPENAI_API_KEY self with
  | Some key, _ =>
      Ok {| provider := lit "gemini"; api_key := key; model := CHAT_MODEL self |}
  | None, Some key =>
      Ok {| provider := lit "openai"; api_key := key; model := CHAT_MODEL self |}
  | None, None =>
      Raise (Exn ValueError
               (lit "❌ Neither Gemini nor OpenAI is properly configured. "
                  ++ lit "Please set GEMINI_API_KEY in .env file for primary support."))
  end.

Definition get_embedding_config (self : ProviderSettings) : result ProviderConfig :=
  match GEMINI_API_KEY self, OPENAI_API_KEY self with
  | Some key, _ =>
      Ok {| provider := lit "gemini"; api_key := key; model := EMBEDDING_MODEL self |}
  | None, Some key =>
      Ok {| provider := lit "openai"; api_key := key; model := EMBEDDING_MODEL self |}
  | None, None =>
      Raise (Exn ValueError
               (lit "❌ Neither Gemini nor OpenAI is properly configured for embeddings. "
                  ++ lit "Please set GEMINI_API_KEY in .env file."))
  end.

(** The check at the end of the module, run when it is imported. *)
Definition validate_on_import (settings : ProviderSettings) : result unit :=
  if negb (is_gemini_configured settings) && negb (is_openai_configured settings)
  then Raise (Exn ValueError
                (text [ lit "❌ Application is not properly configured.";
                        lit "Please set GEMINI_API_KEY in your .env file for Gemini support." ]))
  else Ok ().

End Config.

(** ** Construction of the provider clients:
       DocumentProcessor._initialize_embeddings, RAGEngine._initialize_llm *)

Module Clients.
Import Float64 Config DocumentProcessor.

(** The constructors of the client libraries and the file system call
    of [DocumentProcessor.__init__]. *)
Class Libraries := {
  chat_model : Type;
  embeddings : Type;
  (* ChatGoogleGenerativeAI(google_api_key, model, temperature, max_output_tokens) *)
  ChatGoogleGenerativeAI : str → str → float → Z → result chat_model;
  (* ChatOpenAI(api_key, model, temperature, max_tokens) *)
  ChatOpenAI : str → str → float → Z → result chat_model;
  (* AzureChatOpenAI(azure_endpoint, api_key, api_version, azure_deployment,
     model, temperature, max_tokens) *)
  AzureChatOpenAI : str → str → str → str → str → float → Z → result chat_model;
  (* AzureOpenAIEmbeddings(azure_endpoint, api_key, api_version,
     azure_deployment, model) *)
  AzureOpenAIEmbeddings : str → str → str → str → str → result embeddings;
  (* OpenAIEmbeddings(api_key, model) *)
  OpenAIEmbeddings : str → str → result embeddings;
  (* GoogleGenerativeAIEmbeddings(model, google_api_key, dimensions) *)
  GoogleGenerativeAIEmbeddings : str → str → Z → result embeddings;
  (* Path(persist_directory).mkdir(parents=True, exist_ok=True) *)
  mkdir : str → result unit
}.

(** [config[key]] for a key that the configuration dictionaries do not
    have.  The [KeyError] is carried in the class of the remaining
    exceptions; its text is the quoted key. *)
Definition missing_key {A} (key : str) : result A :=
  Raise (Exn LibraryError (squote ++ key ++ squote)).

(** [settings.name] for a name that [Settings] does not define. *)
Definition missing_setting {A} (name : str) : result A :=
  Raise (Exn AttributeError
           (lit "'Settings' object has no attribute '" ++ name ++ squote)).

Definition _initialize_embeddings `{Libraries} (settings : ProviderSettings)
  : result embeddings :=
  embedding_config ← get_embedding_config settings;
  let provider := provider embedding_config in
  if decide (provider = lit "azure") then
    azure_endpoint ← missing_key (lit "azure_endpoint");
    api_version ← missing_key (lit "api_version");
    deployment_name ← missing_key (lit "deployment_name");
    AzureOpenAIEmbeddings azure_endpoint (api_key embedding_config) api_version
      deployment_name (model embedding_config)
  else if decide (provider = lit "openai") then
    OpenAIEmbeddings (api_key embedding_config) (model embedding_config)
  else if decide (provider = lit "gemini") then
    GoogleGenerativeAIEmbeddings (model embedding_config) (api_key embedding_config) 768
  else
    Raise (Exn ValueError (lit "❌ Unsupported embedding provider: " ++ provider)).

(** The arguments of a call are evaluated before the call:
    [settings.LLM_MAX_TOKENS], which [Settings] does not define, comes
    before [ChatOpenAI] is entered. *)
Definition _initialize_llm `{Libraries} (settings : ProviderSettings) : result chat_model :=
  llm_config ← get_llm_config settings;
  if decide (provider llm_config = lit "gemini") then
    ChatGoogleGenerativeAI (api_key llm_config) (model llm_config)
      (LLM_TEMPERATURE settings) (LLM_MAX_OUTPUT_TOKENS settings)
  else if decide (provider llm_config = lit "azure") then
    azure_endpoint ← missing_key (lit "azure_endpoint");
    api_version ← missing_key (lit "api_version");
    deployment_name ← missing_key (lit "deployment_name");
    max_tokens ← missing_setting (lit "LLM_MAX_TOKENS");
    AzureChatOpenAI azure_endpoint (api_key llm_config) api_version deployment_name
      (model llm_config) (LLM_TEMPERATURE settings) max_tokens
  else
    max_tokens ← missing_setting (lit "LLM_MAX_TOKENS");
    ChatOpenAI (api_key llm_config) (model llm_config) (LLM_TEMPERATURE settings) max_tokens.

(** [DocumentProcessor()], the global instance: the fields, the
    embedding client, the persist directory. *)
Definition new_document_processor `{Libraries} (providers : ProviderSettings)
    (settings : Settings) : result (DocumentProcessor * embeddings) :=
  client ← _initialize_embeddings providers;
  _ ← mkdir (CHROMA_PERSIST_DIRECTORY settings);
  Ok (__init__ settings, client).

(** [RAGEngine()]: the chat model, then the vector store. *)
Definition new_rag_engine `{Libraries} (providers : ProviderSettings) (settings : Settings)
  : M chat_model :=
  llm ← lift (_initialize_llm providers);
  vectorstore ← get_vectorstore (__init__ settings);
  mret llm.

(** What importing main.py runs before it serves: config.py, the
    global document processor, the engine. *)
Definition startup `{Libraries} (providers : ProviderSettings) (settings : Settings)
  : M (DocumentProcessor * embeddings * chat_model) :=
  _ ← lift (validate_on_import providers);
  '(processor, client) ← lift (new_document_processor providers settings);
  llm ← new_rag_engine providers settings;
  mret (processor, client, llm).

End Clients.

(** ** Tool execution on behalf of the model: tools/tool_executor.py *)

Module ToolExecutor.
Import Tools.

(** The parameters that [ToolRegistry.execute_tool] names itself. *)
Definition own_parameters : list str := [ lit "self"; lit "tool_name" ].

(** [registry.execute_tool(tool_name, **params)]: the dictionary is
    unpacked in its own order, and a key that names a parameter already
    given collides with it. *)
Definition unpack_call (tools : ToolRegistry) (tool_name : str)
    (params : list (str * object)) : result payload :=
  match List.find (fun entry => bool_decide (entry.1 ∈ own_parameters)) params with
  | Some (key, _) =>
      Raise (Exn TypeError
               (lit "ToolRegistry.execute_tool() got multiple values for argument '"
                  ++ key ++ squote))
  | None => execute_tool tools tool_name (list_to_map params)
  end.

(** [ToolExecutor.execute_from_llm_request] *)
Definition execute_from_llm_request `{Clock} `{ToolBodies} (tool_name : str)
    (params : list (str * object)) : result payload :=
  unpack_call tool_registry tool_name params.

(** [ToolExecutor.get_tool_schemas] *)
Definition get_tool_schemas `{Clock} `{ToolBodies} : result (list FunctionSchema) :=
  get_all_schemas tool_registry.

End ToolExecutor.

(** ** The endpoints: main.py *)

Module Main.
Import Float64 Tools DocumentProcessor RAGEngine Config.

(** What a handler hands to the framework: a response body, or an
    [HTTPException] with its status code and detail. *)
Inductive http (A : Type) :=
| Response (body : A)
| HTTPException (status_code : Z) (detail : str).
Arguments Response {A} body.
Arguments HTTPException {A} status_code detail.

Definition status_of {A} (h : http A) : Z :=
  match h with
  | Response _ => 200
  | HTTPException status_code _ => status_code
  end.

Record HealthCheckResponse := {
  status : str;
  version : str;
  vector_db_status : str;
  document_count : Z
}.

Record IngestResponse := {
  success : bool;
  message : str;
  documents_processed : Z;
  chunks_created : Z;
  time_taken_seconds : float
}.

Record DocumentSource := {
  source_filename : str;
  source_chunk_index : Z;
  source_relevance_score : float;
  source_content_preview : str
}.

Record QueryResponse := {
  response_question : str;
  response_answer : str;
  response_sources : list DocumentSource;
  response_user_role : str;
  response_disclaimer : str;
  response_processing_time_seconds : float;
  response_tools_used : list str
}.

(** The dictionary of /stats. *)
Record Statistics := {
  total_chunks : Z;
  stats_chunk_size : Z;
  stats_chunk_overlap : Z;
  embedding_model : str;
  chat_model_name : str;
  retrieval_top_k : Z;
  stats_collection_name : str;
  provider_name : str
}.

(** The dictionary of /tools. *)
Record ToolListing := {
  listing_status : str;
  total_tools : Z;
  tools : list str;
  schemas : list FunctionSchema
}.

(** The dictionary of /execute-tool. *)
Record ToolRun := {
  run_status : str;
  run_tool : str;
  run_result : payload
}.

(** The validation of an [int] field of a response model: an integer
    is taken as it is, what the model does with other values is the
    library's. *)
Class ResponseValidation := {
  coerce_int : scalar → result Z
}.

Definition int_field `{ResponseValidation} (v : scalar) : result Z :=
  match v with
  | MInt z => Ok z
  | _ => coerce_int v
  end.

(** [QueryResponse] built from the dictionary that [query] returns. *)
Definition validate_query_response `{ResponseValidation} (r : QueryResult)
  : result QueryResponse :=
  checked ← mapM (fun src : Source =>
      index ← int_field (chunk_index src);
      mret {| source_filename := filename src;
              source_chunk_index := index;
              source_relevance_score := relevance_score src;
              source_content_preview := content_preview src |}) (sources r);
  mret {| response_question := question r;
          response_answer := answer r;
          response_sources := checked;
          response_user_role := user_role r;
          response_disclaimer := disclaimer r;
          response_processing_time_seconds := processing_time_seconds r;
          response_tools_used := tools_used r |}.

Section Endpoints.
Context `{Clock} `{ToolBodies} `{Chain} `{Unicode} `{TextSplitter} `{Embeddings} `{VectorStore}
        `{ResponseValidation}.
Variable providers : ProviderSettings.
Variable settings : Settings.

(** A handler on the world. *)
Definition handler (A : Type) : Type := World → http A * World.

(** GET /health *)
Definition health_check : handler HealthCheckResponse := fun w =>
  match get_document_count (document_processor settings) w with
  | (Ok doc_count, w') =>
      (Response {| status := lit "healthy";
                   version := APP_VERSION providers;
                   vector_db_status :=
                     if doc_count >? 0 then lit "healthy" else lit "empty";
                   document_count := doc_count |}, w')
  | (Raise e, w') => (HTTPException 503 (lit "Health check failed: " ++ exn_str e), w')
  end.

(** POST /ingest; the two clock readings are those of
    [ingest_documents]. *)
Definition ingest_documents_endpoint (force_reindex : bool) (start_time end_time : float)
  : handler IngestResponse := fun w =>
  match ingest_documents (document_processor settings) force_reindex
          start_time end_time w with
  | (Ok (docs_count, chunks_count, time_taken), w') =>
      (Response {| success := true;
                   message := if docs_count >? 0
                              then lit "Documents ingested successfully"
                              else lit "No new documents to ingest";
                   documents_processed := docs_count;
                   chunks_created := chunks_count;
                   time_taken_seconds := round time_taken 2 |}, w')
  | (Raise e, w') =>
      match exn_class_of e with
      | FileNotFoundError => (HTTPException 404 (exn_str e), w')
      | ValueError => (HTTPException 400 (exn_str e), w')
      | _ => (HTTPException 500 (lit "Document ingestion failed: " ++ exn_str e), w')
      end
  end.

(** POST /query; the two clock readings are those of [query]. *)
Definition query_knowledge_base (question : str) (role : UserRole)
    (include_sources : bool) (start_time end_time : float) : handler QueryResponse :=
  fun w =>
  let failed (e : exn) := HTTPException 500 (lit "Query processing failed: " ++ exn_str e) in
  match get_document_count (document_processor settings) w with
  | (Raise e, w1) => (failed e, w1)
  | (Ok doc_count, w1) =>
      if doc_count =? 0 then
        (HTTPException 400
           (lit "No documents ingested. Please call /ingest endpoint first."), w1)
      else
        match query settings question role include_sources start_time end_time w1 with
        | (Raise e, w2) => (failed e, w2)
        | (Ok result, w2) =>
            match validate_query_response result with
            | Ok response => (Response response, w2)
            | Raise e => (failed e, w2)
            end
        end
  end.

(** GET /stats.  [Settings] defines no [is_azure_configured]; the call
    in the second test of the provider raises. *)
Definition get_statistics : handler Statistics := fun w =>
  let failed (e : exn) := HTTPException 500 (lit "Failed to get statistics: " ++ exn_str e) in
  match get_document_count (document_processor settings) w with
  | (Raise e, w') => (failed e, w')
  | (Ok doc_count, w') =>
      let provider_str : result str :=
        if is_gemini_configured providers then Ok (lit "Gemini (Google AI)")
        else
          azure ← Clients.missing_setting (lit "is_azure_configured");
          if azure : bool then Ok (lit "Azure OpenAI") else Ok (lit "OpenAI") in
      match provider_str with
      | Raise e => (failed e, w')
      | Ok provider_str =>
          (Response {| total_chunks := doc_count;
                       stats_chunk_size := CHUNK_SIZE settings;
                       stats_chunk_overlap := CHUNK_OVERLAP settings;
                       embedding_model := EMBEDDING_MODEL providers;
                       chat_model_name := CHAT_MODEL providers;
                       retrieval_top_k := RETRIEVAL_TOP_K settings;
                       stats_collection_name := CHROMA_COLLECTION_NAME settings;
                       provider_name := provider_str |}, w')
      end
  end.

(** GET /tools *)
Definition list_available_tools : http ToolListing :=
  match get_all_schemas tool_registry with
  | Ok all_schemas =>
      Response {| listing_status := lit "success";
                  total_tools := Z.of_nat (length (get_tool_names tool_registry));
                  tools := get_tool_names tool_registry;
                  schemas := all_schemas |}
  | Raise e => HTTPException 500 (lit "Failed to list tools: " ++ exn_str e)
  end.

(** POST /execute-tool; [params] is [None] or a dictionary. *)
Definition execute_tool_manual (tool_name : str) (params : option (list (str * object)))
  : http ToolRun :=
  let params := match params with
                | Some (entry :: entries) => entry :: entries
                | _ => []
                end in
  match ToolExecutor.unpack_call tool_registry tool_name params with
  | Ok result =>
      Response {| run_status := lit "success"; run_tool := tool_name; run_result := result |}
  | Raise e => HTTPException 500 (lit "Tool execution failed: " ++ exn_str e)
  end.

End Endpoints.

End Main.

(** ** Predicates for the properties of the remaining code *)

Module Invariants.
Import Float64 Tools DocumentProcessor RAGEngine Builtins MockTools.

(** A registry as [register_tool] builds it: no name twice, and every
    tool filed under the name of its schema. *)
Definition well_keyed (tools : ToolRegistry) : Prop :=
  NoDup tools.*1 ∧
  Forall (fun entry => ∃ sc, schema entry.2 = Some sc ∧ name sc = entry.1) tools.

(** The first required parameter that the keywords leave out. *)
Definition first_missing (required : list str) (kwargs : keywords) : option str :=
  List.find (fun r => bool_decide (kwargs !! r = None)) required.

(** The store after a step still holds every entry it held before, in
    the same collections and the same order. *)
Definition keeps_entries (w w' : World) : Prop :=
  ∀ (collection : str) (entries : list Entry),
    collections w !! collection = Some entries →
    ∃ more, collections w' !! collection = Some (entries ++ more).

(** A step that at most creates empty collections. *)
Definition same_entries (w w' : World) : Prop :=
  ∀ collection : str,
    default [] (collections w' !! collection) = default [] (collections w !! collection).

(** The chunks that the library makes of the pieces of each document:
    piece after piece, document after document, each with the metadata
    of its document. *)
Definition pieces_as_chunks (documents : list Document) (pieces : list (list str))
  : list Document :=
  concat (zip_with (fun d texts =>
                      (fun t => {| page_content := t; metadata := metadata d |}) <$> texts)
            documents pieces).

(** A bound that a slice takes: [None] or an integer, [True] and
    [False] among them. *)
Definition slice_bound (stop : object) : bool :=
  match stop with
  | VNone | VInt _ | VBool _ => true
  | _ => false
  end.

(** The number of entries that a count of the collection reports: 0
    when the store does not open or does not count. *)
Definition visible_count (collection : str) (w : World) : Z :=
  match store_error w, count_error w with
  | None, None => Z.of_nat (length (default [] (collections w !! collection)))
  | _, _ => 0
  end.

(** Every run of the computation leaves the world related to the one
    it started from. *)
Definition preserves {A : Type} (R : relation World) (m : M A) : Prop :=
  ∀ w : World, R w (m w).2.

(** The two dates that the age tool parses, in the order it parses
    them. *)
Definition parsed_dates `{Calendar} (birthdate reference_date : object)
  : result (date * date) :=
  birth_dt ← strptime birthdate;
  ref_dt ← (if truthy reference_date then strptime reference_date else Ok today);
  Ok (ref_dt, birth_dt).

(** How the age tool words an exception. *)
Definition age_error (e : exn) : str :=
  match exn_class_of e with
  | ValueError => lit "Invalid date format. Use YYYY-MM-DD: " ++ exn_str e
  | _ => lit "Error calculating age: " ++ exn_str e
  end.

(** The frame of the template, around the response header. *)
Definition response_header : str := lit "===== RESPONSE =====".

Definition frame_before : str :=
  text
    [ [];
      [];
      lit "===== CONTEXT FROM DOCUMENTS =====";
      lit "{context}";
      [];
      lit "===== USER QUESTION =====";
      lit "{question}";
      [];
      [] ].

Definition frame_after : str :=
  text
    [ [];
      lit "Provide a clear, detailed response based ONLY on the context above.";
      lit "Include relevant details and use bullet points if appropriate.";
      lit "DO NOT make up information not in the context." ].

End Invariants.

(** ** Further sample collaborators and inputs *)

Module Scenarios.
Import Float64 Tools DocumentProcessor RAGEngine Builtins MockTools Config Clients.

(** A chunk whose source path mixes both separators. *)
Definition exported_chunk : Document := {|
  page_content := lit "Visiting hours are 10:00-12:00 and 16:00-18:00.";
  metadata := {[ lit "source" := MStr (lit "C:\exports/sample_docs\visitor_policy.txt") ]}
|}.

(** A request of the model for the time in Kolkata that also names the
    tool in its parameters. *)
Definition naming_request : list (str * object) :=
  [ (lit "timezone", VStr (lit "Asia/Kolkata"));
    (lit "tool_name", VStr (lit "get_current_datetime")) ].

(** A call that names the zone. *)
Definition utc_call : keywords := {[ lit "timezone" := VStr (lit "UTC") ]}.

(** A calendar whose today is 2025-11-17 and whose parser reads ten
    characters, four digits, two and two with dashes between, that
    name a day of the calendar. *)
Definition digits_value (s : str) : option Z :=
  foldl (fun acc c =>
           match acc with
           | Some n => if ((48 <=? c) && (c <=? 57))%N then Some (10 * n + Z.of_N c - 48)
                       else None
           | None => None
           end) (Some 0) s.

Definition two_digits (n : Z) : str :=
  if n <? 10 then lit "0" ++ str_of_int n else str_of_int n.

Definition fixed_calendar : Calendar := {|
  strptime := fun v =>
    match v with
    | VStr s =>
        let mismatch :=
          Raise (Exn ValueError
                   (lit "time data '" ++ s ++ lit "' does not match format '%Y-%m-%d'")) in
        match digits_value (take 4 s), digits_value (take 2 (drop 5 s)),
              digits_value (drop 8 s) with
        | Some y, Some m, Some d =>
            if bool_decide (length s = 10%nat)
               && bool_decide (s !! 4%nat = Some 45%N)
               && bool_decide (s !! 7%nat = Some 45%N)
               && (1 <=? y) && (1 <=? m) && (m <=? 12) && (1 <=? d)
               && (d <=? days_in_month y m)
            then Ok {| year := y; month := m; day := d |}
            else mismatch
        | _, _, _ => mismatch
        end
    | _ =>
        Raise (Exn TypeError
                 (lit "strptime() argument 1 must be str, not " ++ type_name v))
    end;
  today := {| year := 2025; month := 11; day := 17 |};
  strftime := fun d =>
    str_of_int (year d) ++ lit "-" ++ two_digits (month d) ++ lit "-" ++ two_digits (day d)
|}.

Definition birthday_1990 : date := {| year := 1990; month := 5; day := 15 |}.

(** A call of the age tool with the birth date only. *)
Definition age_call : keywords := {[ lit "birthdate" := VStr (lit "1990-05-15") ]}.






(** A processor whose overlap is larger than its chunk size. *)
Definition larger_overlap : DocumentProcessor := {|
  documents_path := lit "./data/sample_docs";
  chunk_size := 100;
  chunk_overlap := 200;
  persist_directory := lit "./vectordb/chroma_db";
  collection_name := lit "healthcare_docs"
|}.



(** A retrieved chunk whose source entry is a number. *)
Definition numbered_source : Document := {|
  page_content := lit "Visiting hours are 10:00-12:00 and 16:00-18:00.";
  metadata := {[ lit "source" := MInt 7 ]}
|}.

Definition numbered_answer : ChainResult := {|
  result_text := Some (lit "Visiting hours are 10:00-12:00 and 16:00-18:00.");
  source_documents := Some [numbered_source]
|}.

(** A chain that answers, with that chunk as its source. *)
Definition numbered_chain : Chain := {|
  qa_chain := unit;
  from_chain_type := fun _ _ _ _ => Ok tt;
  invoke := fun _ _ _ => Ok numbered_answer
|}.

(** A validation that takes integers only. *)
Definition strict_validation : Main.ResponseValidation := {|
  Main.coerce_int := fun _ => Raise (Exn ValueError (lit "Input should be a valid integer"))
|}.

(** A request for a tool that is not registered. *)
Definition unknown_tool : str := lit "book_appointment".

Definition patient_params : option (list (str * object)) :=
  Some [ (lit "patient_id", VStr (lit "P-102")) ].

(** The age tool as the registry holds it. *)
Definition age_tool `{ToolBodies} : BaseTool := {|
  schema := CalculateAgeTool.schema;
  execute := CalculateAgeTool.execute
|}.

End Scenarios.

(** * Properties *)

Import Float64 Tools DocumentProcessor RAGEngine.

(** ** Source entries *)

Section ProcessSources.
Import Checks.

(** The loop appends one entry per document, built from the document
    and its position. *)
Lemma process_from_entries (docs : list Document) :
  ∀ (i : Z) (acc sources : list Source),
    process_from i docs acc = Ok sources →
    ∃ entries : list Source,
      sources = acc ++ entries ∧
      length entries = length docs ∧
      ∀ (k : nat) (doc : Document),
        docs !! k = Some doc →
        ∃ src, entries !! k = Some src ∧ process_source (i + Z.of_nat k) doc = Ok src.
Proof.
  induction docs as [|d docs IH]; intros i acc sources Hrun; simpl in Hrun.
  - exists []. split; [|split].
    + injection Hrun as <-. by rewrite app_nil_r.
    + done.
    + intros k doc Hk. by rewrite lookup_nil in Hk.
  - destruct (process_source i d) as [entry|e] eqn:Hentry; simpl in Hrun; [|done].
    apply IH in Hrun as (entries & -> & Hlen & Hall).
    exists (entry :: entries). split; [|split].
    + by rewrite <- app_assoc.
    + simpl. by rewrite Hlen.
    + intros [|k] doc Hk; simpl in Hk.
      * injection Hk as <-. exists entry. split; [done|].
        by replace (i + Z.of_nat 0) with i by lia.
      * destruct (Hall k doc Hk) as (src & Hsrc & Hps).
        exists src. split; [done|].
        by replace (i + Z.of_nat (S k)) with (i + 1 + Z.of_nat k) by lia.
Qed.

Lemma process_sources_entries (docs : list Document) (sources : list Source) :
  _process_sources docs = Ok sources →
  length sources = length docs ∧
  ∀ (k : nat) (doc : Document),
    docs !! k = Some doc →
    ∃ src, sources !! k = Some src ∧ process_source (Z.of_nat k) doc = Ok src.
Proof.
  intros Hrun. apply process_from_entries in Hrun as (entries & -> & Hlen & Hall).
  simpl. split; [done|]. intros k doc Hk.
  destruct (Hall k doc Hk) as (src & Hsrc & Hps). exists src. split; [done|].
  by replace (Z.of_nat k) with (0 + Z.of_nat k) by lia.
Qed.

(** An entry carries the score and the preview computed from its rank
    and its content. *)
Lemma process_source_fields (i : Z) (doc : Document) (src : Source) :
  process_source i doc = Ok src →
  relevance_score src = rank_score i ∧
  content_preview src = preview (page_content doc).
Proof.
  unfold process_source. destruct (source_filename doc) as [fn|e]; simpl; [|done].
  intros [= <-]. done.
Qed.

(** The loop runs to its end on such documents. *)
Lemma process_from_returns (docs : list Document) :
  Forall source_is_text docs →
  ∀ (i : Z) (acc : list Source), ∃ sources, process_from i docs acc = Ok sources.
Proof.
  induction 1 as [|d docs Hd _ IH]; intros i acc; simpl.
  - by eexists.
  - assert (∃ entry, process_source i d = Ok entry) as [entry ->].
    { unfold process_source, source_filename, source_is_text in *.
      destruct (metadata d !! lit "source") as [[f| | |]|]; try done;
        cbn [default from_option]; unfold id;
        destruct (contains [slash] _ || contains [backslash] _); by eexists. }
    simpl. apply IH.
Qed.

Lemma process_sources_returns (docs : list Document) :
  Forall source_is_text docs → ∃ sources, _process_sources docs = Ok sources.
Proof. intros Hdocs. by apply process_from_returns. Qed.

End ProcessSources.

(** ** The content preview *)

Lemma preview_short (content : str) :
  (length content ≤ 200)%nat → preview content = content.
Proof.
  intros Hlen. unfold preview.
  destruct (Nat.ltb_spec 200 (length content)); [lia|].
  by apply take_ge.
Qed.

Lemma preview_long (content : str) :
  (200 < length content)%nat → preview content = take 200 content ++ lit "...".
Proof.
  intros Hlen. unfold preview.
  destruct (Nat.ltb_spec 200 (length content)); [done|lia].
Qed.

Lemma preview_length (content : str) : (length (preview content) ≤ 203)%nat.
Proof.
  unfold preview. destruct (Nat.ltb_spec 200 (length content)).
  - rewrite length_app, length_take. change (length (lit "...")) with 3%nat. lia.
  - rewrite length_take. lia.
Qed.

Lemma preview_prefix (content : str) :
  take 200 (preview content) = take 200 content.
Proof.
  unfold preview. destruct (Nat.ltb_spec 200 (length content)).
  - rewrite take_app_le by (rewrite length_take; lia).
    rewrite take_take. by replace (200 `min` 200)%nat with 200%nat by lia.
  - by rewrite take_take, Nat.min_id.
Qed.

(** C4, as the source has it.  For every list of retrieved documents on
    which [_process_sources] returns, the entry at each position has as
    its content_preview the content itself when that has at most 200
    characters, and otherwise the first 200 characters followed by
    three dots; the preview starts with the first 200 characters of the
    content and is never longer than 203 characters. *)
Theorem content_preview_first_200_then_dots
    (docs : list Document) (sources : list Source) (i : nat) (doc : Document) :
  _process_sources docs = Ok sources →
  docs !! i = Some doc →
  ∃ src : Source,
    sources !! i = Some src ∧
    content_preview src =
      (if (200 <? length (page_content doc))%nat
       then take 200 (page_content doc) ++ lit "..."
       else page_content doc) ∧
    take 200 (content_preview src) = take 200 (page_content doc) ∧
    (length (content_preview src) ≤ 203)%nat.
Proof.
  intros Hrun Hdoc.
  destruct (process_sources_entries docs sources Hrun) as [_ Hall].
  destruct (Hall i doc Hdoc) as (src & Hsrc & Hps).
  apply process_source_fields in Hps as [_ Hprev].
  exists src. rewrite Hprev. split; [done|]. split; [|split].
  - destruct (Nat.ltb_spec 200 (length (page_content doc))).
    + by apply preview_long.
    + by apply preview_short.
  - apply preview_prefix.
  - apply preview_length.
Qed.

(** The statement above on a chunk of 201 characters. *)
Lemma content_preview_first_200_then_dots_witness :
  _process_sources [Samples.long_chunk] = Ok [Samples.long_chunk_entry] ∧
  [Samples.long_chunk] !! 0%nat = Some Samples.long_chunk ∧
  ∃ src : Source,
    [Samples.long_chunk_entry] !! 0%nat = Some src ∧
    content_preview src =
      (if (200 <? length (page_content Samples.long_chunk))%nat
       then take 200 (page_content Samples.long_chunk) ++ lit "..."
       else page_content Samples.long_chunk) ∧
    take 200 (content_preview src) = take 200 (page_content Samples.long_chunk) ∧
    (length (content_preview src) ≤ 203)%nat.
Proof.
  split; [vm_compute; reflexivity|].
  split; [reflexivity|].
  apply (content_preview_first_200_then_dots
           [Samples.long_chunk] [Samples.long_chunk_entry] 0 Samples.long_chunk).
  - vm_compute. reflexivity.
  - reflexivity.
Defined.

(** C4, as stated, fails on a chunk of 201 characters: the preview is
    its first 200 characters followed by three dots, 203 characters in
    all, which is neither the first 200 characters nor within 200. *)
Lemma content_preview_exceeds_200 :
  _process_sources [Samples.long_chunk] = Ok [Samples.long_chunk_entry] ∧
  content_preview Samples.long_chunk_entry = replicate 200 97%N ++ lit "..." ∧
  content_preview Samples.long_chunk_entry ≠ take 200 (page_content Samples.long_chunk) ∧
  length (content_preview Samples.long_chunk_entry) = 203%nat.
Proof.
  split; [vm_compute; reflexivity|].
  split; [reflexivity|].
  split; [vm_compute; discriminate|].
  vm_compute. reflexivity.
Qed.

(** ** The relevance score *)

Section RelevanceScore.
Import Checks.









End RelevanceScore.







(** The scores of the ranks 9 to 11: 0.1, 0.0 and -0.1. *)
Example rank_score_around_zero :
  rank_score 9 = decimal 1 10 ∧ rank_score 10 = zero ∧ rank_score 11 = decimal (-1) 10.
Proof. vm_compute. done. Qed.

(** ** Provider failures during a query *)

(** C1.  For every question and role: when the chain has been built and
    its invocation raises, [query] does not raise; it returns a result
    whose answer is the error marker followed by the text of the
    exception, whose sources are empty and whose tools_used is empty. *)
Theorem query_survives_provider_failure
    `{Clock} `{ToolBodies} `{Chain} `{Unicode} (settings : Settings)
    (question : str) (user_role : UserRole) (include_sources : bool)
    (start_time end_time : float) (w w1 : World) (chain : qa_chain) (e : exn) :
  prepare_chain settings user_role include_sources w = (Ok chain, w1) →
  invoke chain question w1 = Raise e →
  ∃ r : QueryResult,
    query settings question user_role include_sources start_time end_time w = (Ok r, w1) ∧
    answer r = lit "❌ Error processing query: " ++ exn_str e ∧
    sources r = [] ∧
    tools_used r = [].
Proof.
  intros Hchain Hinvoke.
  exists (failure_result question user_role e start_time end_time).
  split; [|done].
  unfold query, mbind, M_bind. rewrite Hchain.
  unfold answer_with. by rewrite Hinvoke.
Qed.

(** The statement above for a provider that answers 503. *)
Lemma query_survives_provider_failure_witness :
  @prepare_chain Samples.utc_clock Samples.plain_bodies Samples.failing_chain
    default_settings GENERAL true Samples.populated = (Ok (), Samples.populated) ∧
  @invoke Samples.failing_chain () Samples.visiting_question Samples.populated
    = Raise Samples.provider_down ∧
  ∃ r : QueryResult,
    @query Samples.utc_clock Samples.plain_bodies Samples.failing_chain Samples.ascii_only
      default_settings Samples.visiting_question GENERAL true zero one
      Samples.populated = (Ok r, Samples.populated) ∧
    answer r = lit "❌ Error processing query: " ++ exn_str Samples.provider_down ∧
    sources r = [] ∧
    tools_used r = [].
Proof.
  split; [vm_compute; reflexivity|].
  split; [reflexivity|].
  apply (@query_survives_provider_failure
           Samples.utc_clock Samples.plain_bodies Samples.failing_chain Samples.ascii_only
           default_settings Samples.visiting_question GENERAL true zero one
           Samples.populated Samples.populated () Samples.provider_down).
  - vm_compute. reflexivity.
  - reflexivity.
Defined.

(** ** Tool invocation through the registry *)

Section Registry.
Context `{Clock} `{ToolBodies}.

(** The registry holds the five tools under their schema names. *)
Lemma tool_registry_entries :
  tool_registry =
    [ (lit "get_current_datetime",
       {| schema := GetCurrentDateTimeTool.schema; execute := GetCurrentDateTimeTool.execute |});
      (lit "calculate_age",
       {| schema := CalculateAgeTool.schema; execute := CalculateAgeTool.execute |});
      (lit "get_working_hours",
       {| schema := GetWorkingHoursTool.schema; execute := GetWorkingHoursTool.execute |});
      (lit "search_internal_docs",
       {| schema := SearchInternalDocsTool.schema; execute := SearchInternalDocsTool.execute |});
      (lit "web_search",
       {| schema := WebSearchTool.schema; execute := WebSearchTool.execute |}) ].
Proof. vm_compute. reflexivity. Qed.

(** Binding a call that leaves out the parameter without default fails
    with a [TypeError]. *)
Lemma unbound_argument_raises {A : Type} (qualname p : str) (kwargs : keywords)
    (k : object → result A) :
  kwargs !! p = None →
  ∃ msg, (_ ← bound_call qualname kwargs;
          v ← required_argument qualname kwargs p;
          k v) = Raise (Exn TypeError msg).
Proof.
  intros Hp. unfold bound_call, required_argument.
  destruct (kwargs !! lit "self"); simpl; [by eexists|].
  rewrite Hp. simpl. by eexists.
Qed.

(** Each [execute] hands [validate_params] the very parameter it has
    just bound, so the check in the body cannot fail. *)
Lemma validate_params_bound (sc : ToolSchema) (p : str) (v : object) :
  required_params sc = [p] →
  validate_params (Some sc) {[ p := v ]} = Ok true.
Proof.
  intros Hreq. unfold validate_params. rewrite Hreq. simpl.
  by rewrite lookup_singleton_eq.
Qed.

(** The schema at hand names one required parameter, the one that the
    call leaves out. *)
Ltac sole_required Hsc Hp :=
  injection Hsc as <-; cbn [required_params] in Hp;
  apply list_elem_of_singleton in Hp as ->;
  apply unbound_argument_raises.

(** For every registered tool, a call through the registry that leaves
    out a required parameter raises [TypeError] out of [execute_tool]. *)
Lemma execute_tool_unbound (tool_name : str) (tool : BaseTool) (sc : ToolSchema)
    (p : str) (kwargs : keywords) :
  get_tool tool_registry tool_name = Some tool →
  schema tool = Some sc →
  p ∈ required_params sc →
  kwargs !! p = None →
  ∃ msg, execute_tool tool_registry tool_name kwargs = Raise (Exn TypeError msg).
Proof.
  intros Htool Hsc Hp Hkw. unfold execute_tool. rewrite Htool.
  rewrite tool_registry_entries in Htool. unfold get_tool in Htool.
  cbn [dict_get] in Htool.
  repeat case_decide; [injection Htool as <-; cbn [schema] in Hsc .. | discriminate Htool].
  - unfold GetCurrentDateTimeTool.schema in Hsc. injection Hsc as <-.
    cbn [required_params] in Hp. by apply elem_of_nil in Hp.
  - unfold CalculateAgeTool.schema in Hsc. by sole_required Hsc Hp.
  - unfold GetWorkingHoursTool.schema in Hsc. by sole_required Hsc Hp.
  - unfold SearchInternalDocsTool.schema in Hsc. by sole_required Hsc Hp.
  - unfold WebSearchTool.schema in Hsc. by sole_required Hsc Hp.
Qed.

End Registry.

(** C2, evaluated on a call of calculate_age without arguments.  The
    check of [validate_params] would name the parameter in a
    [ValueError]; the call through the registry never gets there: the
    binding of the arguments raises a [TypeError], outside the [try] of
    the tool, and [execute_tool] lets it through. *)
Theorem execute_tool_missing_parameter_propagates `{Clock} `{ToolBodies} :
  validate_params CalculateAgeTool.schema ∅
    = Raise (Exn ValueError (lit "Missing required parameter: birthdate")) ∧
  execute_tool tool_registry (lit "calculate_age") ∅
    = Raise (Exn TypeError
               (lit "CalculateAgeTool.execute() missing 1 required positional argument: 'birthdate'")).
Proof. split; vm_compute; reflexivity. Qed.

(** ** Splitting a batch of documents *)

Section ResultLists.
Context {A B : Type} (f : A → result B).

(** [mapM] returns the pointwise results when every call returns. *)
Lemma mapM_Ok (l : list A) (k : list B) :
  mapM f l = Ok k → Forall2 (λ x y, f x = Ok y) l k.
Proof.
  revert k. induction l as [|x l IH]; intros k Hk; simpl in Hk.
  - injection Hk as <-. constructor.
  - destruct (f x) as [y|e] eqn:Hx; simpl in Hk; [|done].
    destruct (mapM f l) as [k'|e] eqn:Hl; simpl in Hk; [|done].
    injection Hk as <-. constructor; [done|]. by apply IH.
Qed.

Lemma Forall2_mapM_Ok (l : list A) (k : list B) :
  Forall2 (λ x y, f x = Ok y) l k → mapM f l = Ok k.
Proof.
  induction 1 as [|x y l k Hx _ IH]; simpl; [done|].
  by rewrite Hx, IH.
Qed.

(** [mapM] raises exactly when one of the calls does. *)
Lemma mapM_raises (l : list A) :
  raises (mapM f l) ↔ ∃ x, x ∈ l ∧ raises (f x).
Proof.
  induction l as [|x l IH]; simpl.
  - split; [by intros [e ?]|]. intros (x & Hx & _). by apply elem_of_nil in Hx.
  - destruct (f x) as [y|e] eqn:Hx; simpl.
    + destruct (mapM f l) as [k|e] eqn:Hl; simpl.
      * split; [by intros [e ?]|]. intros (x' & Hin & Hr).
        apply elem_of_cons in Hin as [->|Hin].
        -- rewrite Hx in Hr. by destruct Hr.
        -- assert (raises (Ok k : result (list B))) as [e ?]; [|done].
           apply IH. eauto.
      * split; [|by eexists]. intros _.
        destruct (proj1 IH) as (x' & Hin & Hr); [by eexists|].
        exists x'. split; [by apply elem_of_cons; right|done].
    + split; [|by eexists]. intros _. exists x.
      split; [by apply elem_of_cons; left|]. rewrite Hx. by eexists.
Qed.

End ResultLists.

Section SplitDocuments.
Context `{TextSplitter}.

Lemma library_split_documents_raises (size overlap : Z) (docs : list Document) :
  raises (library_split_documents size overlap docs) ↔
  ∃ d, d ∈ docs ∧ raises (split_text size overlap (page_content d)).
Proof.
  unfold library_split_documents.
  set (per := λ d : Document,
         texts ← split_text size overlap (page_content d);
         mret ((λ t, {| page_content := t; metadata := metadata d |}) <$> texts)).
  assert (Hper : ∀ d, raises (per d) ↔ raises (split_text size overlap (page_content d))).
  { intros d. unfold per. destruct (split_text size overlap (page_content d)); simpl.
    - split; by intros [e ?].
    - split; intros _; by eexists. }
  destruct (mapM per docs) as [k|e] eqn:Hmap; simpl.
  - split; [by intros [e ?]|]. intros (d & Hin & Hr).
    assert (raises (mapM per docs)) as [e He].
    { apply mapM_raises. exists d. split; [done|]. by apply Hper. }
    rewrite Hmap in He. done.
  - split; [|by eexists]. intros _.
    destruct (proj1 (mapM_raises per docs)) as (d & Hin & Hr).
    { rewrite Hmap. by eexists. }
    exists d. split; [done|]. by apply Hper.
Qed.

(** The library returns exactly when every text is split, and then
    returns the pieces as chunks. *)
Lemma library_split_documents_pieces (size overlap : Z) (docs raw : list Document) :
  library_split_documents size overlap docs = Ok raw ↔
  ∃ pieces : list (list str),
    Forall2 (λ d texts, split_text size overlap (page_content d) = Ok texts) docs pieces ∧
    raw = Invariants.pieces_as_chunks docs pieces.
Proof.
  unfold library_split_documents, Invariants.pieces_as_chunks.
  set (per := λ d : Document,
         texts ← split_text size overlap (page_content d);
         mret ((λ t, {| page_content := t; metadata := metadata d |}) <$> texts)).
  split.
  - destruct (mapM per docs) as [groups|e] eqn:Hmap; simpl; [|done].
    intros [= <-]. apply mapM_Ok in Hmap.
    induction Hmap as [|d group docs groups Hd _ (pieces & Hpieces & IH)].
    + exists []. split; [constructor|reflexivity].
    + unfold per in Hd.
      destruct (split_text size overlap (page_content d)) as [texts|e] eqn:Htexts;
        simpl in Hd; [|done].
      injection Hd as <-. exists (texts :: pieces).
      split; [by constructor|]. cbn [zip_with concat]. by rewrite IH.
  - intros (pieces & Hpieces & ->).
    rewrite (Forall2_mapM_Ok per docs
               (zip_with (λ d texts, (λ t, {| page_content := t; metadata := metadata d |})
                                       <$> texts) docs pieces)); [reflexivity|].
    induction Hpieces as [|d texts docs pieces Hd _ IH]; [constructor|].
    cbn [zip_with]. constructor; [|exact IH]. unfold per. by rewrite Hd.
Qed.

End SplitDocuments.

(** C3, as the source has it.  For every chunk_size and chunk_overlap,
    whatever their order, [split_documents] makes no check of its own.
    It raises exactly when the text splitter does, at its construction
    or on the text of one of the documents.  With a splitter that
    rejects an overlap larger than the chunk size, as the library's
    does, a processor so configured raises what the constructor raises.
    Otherwise it returns the chunks: the pieces that the splitter cuts
    from each document, in order, with the metadata of the document and
    with chunk_index and chunk_size written by the loop. *)
Theorem split_documents_raises_with_splitter
    `{TextSplitter} (self : DocumentProcessor) (docs : list Document) :
  (raises (split_documents self docs) ↔
   raises (splitter_init (chunk_size self) (chunk_overlap self)) ∨
   ∃ d, d ∈ docs ∧
        raises (split_text (chunk_size self) (chunk_overlap self) (page_content d))) ∧
  ((∀ size overlap : Z, size < overlap → raises (splitter_init size overlap)) →
   chunk_size self < chunk_overlap self →
   ∃ e, splitter_init (chunk_size self) (chunk_overlap self) = Raise e ∧
        split_documents self docs = Raise e) ∧
  (¬ raises (split_documents self docs) →
   ∃ pieces : list (list str),
     Forall2 (λ d texts,
                split_text (chunk_size self) (chunk_overlap self) (page_content d) = Ok texts)
             docs pieces ∧
     split_documents self docs = Ok (index_chunks 0 (Invariants.pieces_as_chunks docs pieces))).
Proof.
  split; [|split].
  - rewrite <- library_split_documents_raises. unfold split_documents.
    destruct (splitter_init (chunk_size self) (chunk_overlap self)) as [[]|e]; simpl.
    + destruct (library_split_documents (chunk_size self) (chunk_overlap self) docs)
        as [chunks|e]; simpl.
      * split; [by intros [e ?]|]. by intros [[e ?]|[e ?]].
      * split; [|by eexists]. intros _. right. by eexists.
    + split; [|by eexists]. intros _. left. by eexists.
  - intros Hlibrary Hlarger.
    destruct (Hlibrary _ _ Hlarger) as [e He]. exists e. split; [exact He|].
    unfold split_documents. by rewrite He.
  - intros Hreturns. unfold split_documents in *.
    destruct (splitter_init (chunk_size self) (chunk_overlap self)) as [[]|e];
      [|destruct Hreturns; by eexists].
    destruct (library_split_documents (chunk_size self) (chunk_overlap self) docs)
      as [raw|e] eqn:Hraw; [|destruct Hreturns; by eexists].
    apply library_split_documents_pieces in Hraw as (pieces & Hpieces & ->).
    by exists pieces.
Qed.

(** The statement above for a splitter that rejects a larger overlap,
    on a processor with chunk_size 100 and chunk_overlap 200. *)
Lemma split_documents_raises_with_splitter_witness :
  chunk_size Scenarios.larger_overlap < chunk_overlap Scenarios.larger_overlap ∧
  @split_documents Samples.plain_splitter Scenarios.larger_overlap [Samples.visiting_hours]
    = Raise (Exn ValueError (lit "Got a larger chunk overlap than chunk size")).
Proof.
  assert (chunk_size Scenarios.larger_overlap < chunk_overlap Scenarios.larger_overlap)
    as Hlarger by (simpl; lia).
  split; [exact Hlarger|].
  assert (∀ size overlap : Z,
            size < overlap → raises (@splitter_init Samples.plain_splitter size overlap))
    as Hlibrary.
  { intros size overlap Hlt. cbn [splitter_init Samples.plain_splitter].
    destruct (Z.gtb_spec overlap size) as [_|Hle]; [by eexists|lia]. }
  destruct (proj1 (proj2 (@split_documents_raises_with_splitter Samples.plain_splitter
                            Scenarios.larger_overlap [Samples.visiting_hours]))
              Hlibrary Hlarger) as (e & Hinit & ->).
  vm_compute in Hinit. injection Hinit as <-. reflexivity.
Defined.

(** C3, as stated, fails with chunk_overlap equal to chunk_size: a
    splitter that accepts the pair is asked to split, and the chunk
    comes back. *)
Lemma split_documents_accepts_equal_overlap :
chunk_size Samples.equal_sizes ≤ chunk_overlap Samples.equal_sizes ∧
  @split_documents Samples.plain_splitter Samples.equal_sizes [Samples.visiting_hours]
    = Ok [Samples.visiting_hours_chunk] ∧
  ¬ raises (@split_documents Samples.plain_splitter Samples.equal_sizes
              [Samples.visiting_hours]).
Proof.
  assert (Hrun : @split_documents Samples.plain_splitter Samples.equal_sizes
                   [Samples.visiting_hours] = Ok [Samples.visiting_hours_chunk])
    by (vm_compute; reflexivity).
  split; [simpl; lia|]. split; [exact Hrun|].
  rewrite Hrun. by intros [e ?].
Qed.

(** ** Chunk metadata *)


(** The loop keeps the chunks in place and writes the position and the
    length into the metadata of each. *)
Lemma index_chunks_lookup (chunks : list Document) :
  ∀ (i : Z) (k : nat) (c : Document),
    index_chunks i chunks !! k = Some c →
    ∃ c0 : Document,
      chunks !! k = Some c0 ∧
      page_content c = page_content c0 ∧
      metadata c =
        <[lit "chunk_size" := MInt (Z.of_nat (length (page_content c0)))]>
          (<[lit "chunk_index" := MInt (i + Z.of_nat k)]> (metadata c0)).
Proof.
  induction chunks as [|c0 chunks IH]; intros i k c Hk; simpl in Hk.
  - by rewrite lookup_nil in Hk.
  - destruct k as [|k]; simpl in Hk.
    + injection Hk as <-. exists c0. simpl.
      by replace (i + Z.of_nat 0) with i by lia.
    + destruct (IH (i + 1) k c Hk) as (c1 & Hc1 & Hpc & Hmd).
      exists c1. split; [done|]. split; [done|].
      by replace (i + Z.of_nat (S k)) with (i + 1 + Z.of_nat k) by lia.
Qed.




Section Batch.
Context `{TextSplitter}.



End Batch.



(** ** Role prompts *)

Lemma role_keys_distinct :
  NoDup [value DOCTOR; value RECEPTIONIST; value BILLING; value GENERAL].
Proof. apply (bool_decide_unpack _). vm_compute. exact I. Qed.

Lemma role_prompts_general : ROLE_PROMPTS !! value GENERAL = Some GENERAL_PROMPT.
Proof.
  unfold ROLE_PROMPTS. apply elem_of_list_to_map_1.
  - exact role_keys_distinct.
  - do 3 apply list_elem_of_further. apply list_elem_of_here.
Qed.

Lemma role_prompts_default : ROLE_PROMPTS !!! value GENERAL = GENERAL_PROMPT.
Proof. by rewrite lookup_total_alt, role_prompts_general. Qed.

(** C6.  For every role key that is none of doctor, receptionist,
    billing and general, [_create_prompt_template] returns a template,
    the one it returns for the general role: the general prompt
    followed by the context, question and response frame. *)
Theorem unrecognized_role_gets_general_template (user_role : str) :
  user_role ∉ [value DOCTOR; value RECEPTIONIST; value BILLING; value GENERAL] →
  _create_prompt_template user_role = _create_prompt_template (value GENERAL) ∧
  _create_prompt_template user_role =
    {| template := GENERAL_PROMPT ++ template_frame;
       input_variables := [ lit "context"; lit "question" ] |}.
Proof.
  intros Hrole.
  assert (Hmiss : ROLE_PROMPTS !! user_role = None).
  { unfold ROLE_PROMPTS. by apply not_elem_of_list_to_map_1. }
  unfold _create_prompt_template.
  rewrite Hmiss, role_prompts_general, role_prompts_default.
  cbn [default from_option]. unfold id. split; reflexivity.
Qed.

(** The statement above for the role key nurse. *)
Lemma unrecognized_role_gets_general_template_witness :
  (lit "nurse" ∉ [value DOCTOR; value RECEPTIONIST; value BILLING; value GENERAL]) ∧
  _create_prompt_template (lit "nurse") = _create_prompt_template (value GENERAL) ∧
  _create_prompt_template (lit "nurse") =
    {| template := GENERAL_PROMPT ++ template_frame;
       input_variables := [ lit "context"; lit "question" ] |}.
Proof.
  assert (Hrole : lit "nurse" ∉ [value DOCTOR; value RECEPTIONIST; value BILLING; value GENERAL]).
  { apply (bool_decide_unpack _). vm_compute. exact I. }
  split; [exact Hrole|].
  exact (unrecognized_role_gets_general_template (lit "nurse") Hrole).
Defined.

(** A recognized role gets its own prompt. *)
Lemma recognized_role_gets_own_template :
  template (_create_prompt_template (value DOCTOR)) = DOCTOR_PROMPT ++ template_frame ∧
  template (_create_prompt_template (value RECEPTIONIST))
    = RECEPTIONIST_PROMPT ++ template_frame ∧
  template (_create_prompt_template (value BILLING)) = BILLING_PROMPT ++ template_frame ∧
  template (_create_prompt_template (value GENERAL)) = GENERAL_PROMPT ++ template_frame.
Proof. split; [|split; [|split]]; vm_compute; reflexivity. Qed.

(** ** Ingestion of an already populated collection *)




(** ** Counting the stored chunks *)

(** C9.  For every state of the store, [get_document_count] returns,
    and what it returns is a count that is not negative: the number of
    entries of the collection when the store opens and counts, and 0
    when opening the store fails, when counting fails, or when the
    collection is not there. *)
Theorem get_document_count_never_raises (self : DocumentProcessor) (w : World) :
  ∃ (n : Z) (w' : World),
    get_document_count self w = (Ok n, w') ∧
    0 ≤ n ∧
    (store_error w = None → count_error w = None →
     n = Z.of_nat (length (default [] (collections w !! collection_name self)))) ∧
    (store_error w ≠ None ∨ count_error w ≠ None
       ∨ collections w !! collection_name self = None → n = 0).
Proof.
  unfold get_document_count, try_catch, get_vectorstore, mbind, M_bind, Chroma, count.
  destruct (store_error w) as [e|] eqn:Hstore.
  { exists 0, w. split; [done|]. split; [lia|]. split; [done|]. done. }
  destruct (collections w !! collection_name self) as [entries|] eqn:Hentries.
  - rewrite Hentries. destruct (count_error w) as [e|] eqn:Hcount.
    + exists 0, w. split; [done|]. split; [lia|]. split; [done|]. done.
    + exists (Z.of_nat (length entries)), w. cbn [default from_option]. unfold id.
      split; [done|]. split; [lia|]. split; [done|].
      intros [?|[?|?]]; done.
  - cbn [count_error collections set_collections].
    rewrite lookup_insert_eq.
    destruct (count_error w) as [e|] eqn:Hcount.
    + eexists 0, _. split; [done|]. split; [lia|]. split; [done|]. done.
    + eexists 0, _. split; [done|]. split; [lia|]. split; [done|]. done.
Qed.

(** The statement above on a store that cannot be opened. *)
Lemma get_document_count_never_raises_witness :
  get_document_count (__init__ default_settings) Samples.unreachable
    = (Ok 0, Samples.unreachable) ∧
  get_document_count (__init__ default_settings) Samples.populated
    = (Ok 1, Samples.populated) ∧
  ∃ (n : Z) (w' : World),
    get_document_count (__init__ default_settings) Samples.unreachable = (Ok n, w') ∧
    0 ≤ n ∧
    (store_error Samples.unreachable = None → count_error Samples.unreachable = None →
     n = Z.of_nat (length (default [] (collections Samples.unreachable
                                         !! collection_name (__init__ default_settings))))) ∧
    (store_error Samples.unreachable ≠ None ∨ count_error Samples.unreachable ≠ None
       ∨ collections Samples.unreachable !! collection_name (__init__ default_settings) = None
     → n = 0).
Proof.
  split; [vm_compute; reflexivity|]. split; [vm_compute; reflexivity|].
  exact (get_document_count_never_raises (__init__ default_settings) Samples.unreachable).
Defined.

(** ** The date and time tool *)

Lemma timezone_is_not_self : lit "timezone" ≠ lit "self".
Proof. vm_compute. discriminate. Qed.

(** C10.  For every time zone string, [execute] of the date and time
    tool returns a payload with a success flag and does not raise.
    When the zone database rejects the string, the flag is false and
    the error text is that of the attribute lookup on the string: the
    fallback to UTC is not taken. *)
Theorem get_current_datetime_never_raises `{Clock} (timezone : str) :
  ∃ (p : payload) (success : bool),
    GetCurrentDateTimeTool.execute {[ lit "timezone" := VStr timezone ]} = Ok p ∧
    dict_get (lit "success") p = Some (VBool success) ∧
    (raises (ZoneInfo (VStr timezone)) →
     success = false ∧
     dict_get (lit "error") p
       = Some (VStr (lit "Error getting datetime: 'str' object has no attribute 'utc'"))).
Proof.
  unfold GetCurrentDateTimeTool.execute, bound_call, optional_argument.
  rewrite (lookup_singleton_ne _ (lit "self")) by exact timezone_is_not_self.
  rewrite lookup_singleton_eq. cbn [default from_option mbind result_bind]. unfold id.
  unfold GetCurrentDateTimeTool.run, GetCurrentDateTimeTool.attempt.
  change (validate_params GetCurrentDateTimeTool.schema {[lit "timezone" := VStr timezone]})
    with (Ok true : result bool).
  cbn [mbind result_bind].
  destruct (ZoneInfo (VStr timezone)) as [tz|e] eqn:Hzone; cbn [try_except mbind result_bind].
  - destruct (list_index GetCurrentDateTimeTool.days (weekday (datetime_now tz)))
      as [day_name|e]; cbn [try_except mbind result_bind].
    + eexists _, true. split; [reflexivity|]. split; [vm_compute; reflexivity|].
      intros [e He]. discriminate He.
    + eexists _, false. split; [reflexivity|]. split; [vm_compute; reflexivity|].
      intros [e' He]. discriminate He.
  - unfold getattr_utc. cbn [try_except mbind result_bind].
    eexists _, false. split; [reflexivity|]. split; [vm_compute; reflexivity|].
    intros _. split; [reflexivity|]. vm_compute. reflexivity.
Qed.

(** The statement above for a key that the zone database does not know. *)
Lemma get_current_datetime_never_raises_witness :
  raises (@ZoneInfo Samples.utc_clock (VStr (lit "Mars/Olympus"))) ∧
  ∃ (p : payload) (success : bool),
    @GetCurrentDateTimeTool.execute Samples.utc_clock
      {[ lit "timezone" := VStr (lit "Mars/Olympus") ]} = Ok p ∧
    dict_get (lit "success") p = Some (VBool success) ∧
    (raises (@ZoneInfo Samples.utc_clock (VStr (lit "Mars/Olympus"))) →
     success = false ∧
     dict_get (lit "error") p
       = Some (VStr (lit "Error getting datetime: 'str' object has no attribute 'utc'"))).
Proof.
  split.
  - eexists. vm_compute. reflexivity.
  - exact (@get_current_datetime_never_raises Samples.utc_clock (lit "Mars/Olympus")).
Defined.


(** * Further properties *)

Import Builtins MockTools Config Clients Invariants.

#[local] Arguments lit : simpl never.
#[local] Arguments text : simpl never.

(** ** Dictionaries in insertion order *)

Section Dicts.
Context {V : Type}.

Lemma dict_get_set_eq (k : str) (v : V) (d : list (str * V)) :
  dict_get k (dict_set k v d) = Some v.
Proof.
  induction d as [|[k' v'] d IH]; simpl.
  - by rewrite decide_True.
  - destruct (decide (k = k')) as [->|Hne]; simpl.
    + by rewrite decide_True.
    + by rewrite decide_False.
Qed.

Lemma dict_get_set_ne (k k' : str) (v : V) (d : list (str * V)) :
  k ≠ k' → dict_get k' (dict_set k v d) = dict_get k' d.
Proof.
  intros Hne. induction d as [|[k0 v0] d IH]; simpl.
  - by rewrite decide_False.
  - destruct (decide (k = k0)) as [->|Hne0]; simpl.
    + by rewrite !decide_False.
    + destruct (decide (k' = k0)); [done|]. exact IH.
Qed.

Lemma dict_get_None (k : str) (d : list (str * V)) :
  dict_get k d = None ↔ k ∉ d.*1.
Proof.
  induction d as [|[k' v'] d IH]; simpl.
  - split; [intros _; apply not_elem_of_nil|done].
  - destruct (decide (k = k')) as [->|Hne].
    + split; [done|]. intros Hnot. exfalso. apply Hnot. apply list_elem_of_here.
    + rewrite IH, not_elem_of_cons. split; [by intros ?|by intros [_ ?]].
Qed.

Lemma dict_get_Some_elem (k : str) (v : V) (d : list (str * V)) :
  dict_get k d = Some v → (k, v) ∈ d.
Proof.
  induction d as [|[k' v'] d IH]; simpl; [done|].
  destruct (decide (k = k')) as [->|Hne].
  - intros [= ->]. apply list_elem_of_here.
  - intros Hget. apply list_elem_of_further. by apply IH.
Qed.

(** Setting a key changes the keys only by adding a new one at the end. *)
Lemma dict_set_keys (k : str) (v : V) (d : list (str * V)) :
  (dict_set k v d).*1 = if bool_decide (k ∈ d.*1) then d.*1 else d.*1 ++ [k].
Proof.
  induction d as [|[k' v'] d IH].
  - rewrite bool_decide_eq_false_2 by apply not_elem_of_nil. reflexivity.
  - cbn [dict_set]. destruct (decide (k = k')) as [->|Hne]; rewrite !fmap_cons; cbn [fst].
    + rewrite bool_decide_eq_true_2 by apply list_elem_of_here. reflexivity.
    + rewrite IH. destruct (decide (k ∈ d.*1)) as [Hin|Hin].
      * rewrite !bool_decide_eq_true_2; [done|by apply list_elem_of_further|done].
      * rewrite !bool_decide_eq_false_2; [done| |done].
        rewrite not_elem_of_cons. done.
Qed.

End Dicts.

(** ** The registry *)

(** X1.  Registering a tool that has a schema makes [get_tool] return
    it under the name of the schema, whatever was filed there before,
    and leaves every other name as it was; a tool without schema is
    not registered. *)
Theorem register_tool_then_get_tool (tools : ToolRegistry) (tool : BaseTool) :
  match schema tool with
  | Some sc =>
      get_tool (register_tool tools tool) (name sc) = Some tool ∧
      ∀ other : str,
        other ≠ name sc →
        get_tool (register_tool tools tool) other = get_tool tools other
  | None => register_tool tools tool = tools
  end.
Proof.
  unfold register_tool, get_tool. destruct (schema tool) as [sc|]; [|done].
  split.
  - apply dict_get_set_eq.
  - intros other Hother. by apply dict_get_set_ne.
Qed.

Lemma register_tool_well_keyed (tools : ToolRegistry) (tool : BaseTool) :
  well_keyed tools → well_keyed (register_tool tools tool).
Proof.
  intros [Hnodup Hall]. unfold register_tool.
  destruct (schema tool) as [sc|] eqn:Hsc; [|done].
  split.
  - rewrite dict_set_keys. case_bool_decide as Hin; [done|].
    apply NoDup_app. split; [done|]. split; [|apply NoDup_singleton].
    intros k Hk ->%list_elem_of_singleton. done.
  - clear Hnodup. induction tools as [|[k t] tools IH]; simpl.
    + constructor; [|constructor]. by exists sc.
    + apply Forall_cons in Hall as [Hhead Hall].
      destruct (decide (name sc = k)) as [<-|Hne].
      * constructor; [|done]. by exists sc.
      * constructor; [done|]. by apply IH.
Qed.

Lemma registrations_well_keyed (registered : list BaseTool) :
  ∀ tools : ToolRegistry,
    well_keyed tools → well_keyed (foldl register_tool tools registered).
Proof.
  induction registered as [|t registered IH]; intros tools Htools; simpl; [done|].
  apply IH. by apply register_tool_well_keyed.
Qed.

Lemma well_keyed_schemas (tools : ToolRegistry) :
  well_keyed tools →
  ∃ all_schemas : list FunctionSchema,
    get_all_schemas tools = Ok all_schemas ∧
    function_name <$> all_schemas = get_tool_names tools.
Proof.
  intros [_ Hall]. unfold get_all_schemas, get_tool_names.
  induction tools as [|[k t] rest IH].
  - by exists [].
  - apply Forall_cons in Hall as [(sc & Hsc & Hname) Hall].
    destruct (IH Hall) as (rest_schemas & Hrest & Hnames).
    cbn [snd fst] in Hsc, Hname. cbn [mapM snd]. rewrite Hsc.
    cbn [get_schema mbind result_bind]. rewrite Hrest.
    eexists. split; [reflexivity|].
    rewrite !fmap_cons. cbn [function_name fst]. by rewrite Hname, Hnames.
Qed.

(** X2.  Whatever tools are registered, in whatever order, starting
    from the empty registry: no name is listed twice, and
    [get_all_schemas] returns one schema per listed name, in the same
    order; it cannot raise for a tool without schema. *)
Theorem registry_lists_each_name_once (registered : list BaseTool) :
  let tools := foldl register_tool [] registered in
  NoDup (get_tool_names tools) ∧
  ∃ all_schemas : list FunctionSchema,
    get_all_schemas tools = Ok all_schemas ∧
    function_name <$> all_schemas = get_tool_names tools.
Proof.
  intros tools.
  assert (Hkeyed : well_keyed tools).
  { apply registrations_well_keyed. split; constructor. }
  split; [exact (proj1 Hkeyed)|]. by apply well_keyed_schemas.
Qed.

(** The loop over the required parameters stops at the first one that
    the keywords leave out. *)
Lemma check_required_first_missing (required : list str) (kwargs : keywords) :
  check_required required kwargs =
    match first_missing required kwargs with
    | None => Ok true
    | Some r => Raise (Exn ValueError (lit "Missing required parameter: " ++ r))
    end.
Proof.
  unfold first_missing.
  induction required as [|r required IH]; cbn [check_required List.find]; [done|].
  destruct (kwargs !! r) as [v|] eqn:Hr.
  - rewrite bool_decide_eq_false_2 by done. exact IH.
  - by rewrite bool_decide_eq_true_2.
Qed.

(** X3.  [validate_params] on a tool with a schema returns [True]
    exactly when every required parameter is among the keywords;
    otherwise it raises a [ValueError] whose text names the first
    required parameter, in the order of the schema, that is left out. *)
Theorem validate_params_names_first_missing (sc : ToolSchema) (kwargs : keywords) :
  validate_params (Some sc) kwargs =
    match first_missing (required_params sc) kwargs with
    | None => Ok true
    | Some r => Raise (Exn ValueError (lit "Missing required parameter: " ++ r))
    end ∧
  (validate_params (Some sc) kwargs = Ok true ↔
   Forall (fun r => is_Some (kwargs !! r)) (required_params sc)).
Proof.
  unfold validate_params. rewrite check_required_first_missing. split; [done|].
  unfold first_missing.
  induction (required_params sc) as [|r required IH]; cbn [List.find].
  - split; [constructor|done].
  - destruct (kwargs !! r) as [v|] eqn:Hr.
    + rewrite bool_decide_eq_false_2 by done. rewrite IH.
      split; [intros Hall; constructor; [by eexists|done]|].
      by intros [_ Hall]%Forall_cons.
    + rewrite bool_decide_eq_true_2 by done. split; [done|].
      intros [[v Hv] _]%Forall_cons. congruence.
Qed.

(** ** Strings *)

Lemma startswith_spec (s pre : str) :
  startswith s pre = true ↔ ∃ post, s = pre ++ post.
Proof.
  revert s. induction pre as [|p pre IH]; intros s.
  - split; [by exists s|]. intros _. by destruct s.
  - destruct s as [|c s]; cbn [startswith].
    + split; [done|]. by intros [post ?].
    + rewrite andb_true_iff, N.eqb_eq, IH. split.
      * intros [-> [post ->]]. by exists post.
      * intros [post [= -> ->]]. split; [done|]. by exists post.
Qed.

(** [needle in s] holds exactly when [needle] occurs in [s]. *)
Lemma contains_spec (needle s : str) :
  contains needle s = true ↔ ∃ pre post, s = pre ++ needle ++ post.
Proof.
  induction s as [|c s IH]; cbn [contains].
  - rewrite orb_false_r, startswith_spec. split.
    + intros [post Hpost]. by exists [], post.
    + intros (pre & post & Heq). destruct pre; [by exists post|done].
  - rewrite orb_true_iff, startswith_spec, IH. split.
    + intros [[post Hpost]|(pre & post & ->)].
      * by exists [], post.
      * by exists (c :: pre), post.
    + intros (pre & post & Heq). destruct pre as [|c' pre].
      * left. by exists post.
      * right. injection Heq as -> ->. by exists pre, post.
Qed.

Lemma contains_char (c : N) (s : str) : contains [c] s = true ↔ c ∈ s.
Proof.
  rewrite contains_spec. split.
  - intros (pre & post & ->). apply elem_of_app. right. apply list_elem_of_here.
  - intros (pre & post & ->)%list_elem_of_split. by exists pre, post.
Qed.

Lemma split_nonempty (sep : N) (s : str) : split sep s ≠ [].
Proof.
  destruct s as [|c s]; cbn [split]; [done|].
  destruct (c =? sep)%N; [done|]. by destruct (split sep s).
Qed.

Lemma join_cons (sep p : str) (parts : list str) :
  parts ≠ [] → join sep (p :: parts) = p ++ sep ++ join sep parts.
Proof. by destruct parts. Qed.

Lemma join_cons_head (sep : str) (c : N) (p : str) (parts : list str) :
  join sep ((c :: p) :: parts) = c :: join sep (p :: parts).
Proof. by destruct parts. Qed.

(** Joining the parts of a split with the separator gives the string
    back. *)
Lemma join_split (sep : N) (s : str) : join [sep] (split sep s) = s.
Proof.
  induction s as [|c s IH]; [done|]. cbn [split].
  pose proof (split_nonempty sep s) as Hne.
  destruct (N.eqb_spec c sep) as [->|Hc].
  - rewrite join_cons by done. by rewrite IH.
  - destruct (split sep s) as [|p ps] eqn:Hsplit; [done|].
    by rewrite join_cons_head, IH.
Qed.

Lemma split_parts_clean (sep : N) (s : str) :
  Forall (fun part => sep ∉ part) (split sep s).
Proof.
  induction s as [|c s IH]; cbn [split].
  - constructor; [apply not_elem_of_nil|constructor].
  - destruct (N.eqb_spec c sep) as [->|Hc].
    + constructor; [apply not_elem_of_nil|done].
    + destruct (split sep s) as [|p ps]; [constructor; [|constructor]|].
      * rewrite not_elem_of_cons. split; [done|apply not_elem_of_nil].
      * apply Forall_cons in IH as [Hp Hps]. constructor; [|done].
        rewrite not_elem_of_cons. done.
Qed.

Lemma join_ends_with_last (sep : str) (parts : list str) :
  ∃ before, join sep parts = before ++ last_part parts.
Proof.
  unfold last_part. induction parts as [|p parts IH]; [by exists []|].
  destruct parts as [|q parts]; [by exists []|].
  destruct IH as [before Hbefore]. exists (p ++ sep ++ before).
  rewrite join_cons by done. rewrite Hbefore. change (last (p :: q :: parts)) with (last (q :: parts)).
  by rewrite <- !app_assoc.
Qed.

(** What follows the last separator is free of it and ends the string. *)
Lemma last_part_of_split (sep : N) (s : str) :
  (sep ∉ last_part (split sep s)) ∧ ∃ before, s = before ++ last_part (split sep s).
Proof.
  split.
  - pose proof (split_parts_clean sep s) as Hclean.
    pose proof (split_nonempty sep s) as Hne.
    unfold last_part. destruct (last (split sep s)) as [part|] eqn:Hlast.
    + rewrite Forall_forall in Hclean. apply Hclean.
      apply last_Some in Hlast as [l' ->]. apply elem_of_app. right. apply list_elem_of_here.
    + by apply last_None in Hlast.
  - destruct (join_ends_with_last [sep] (split sep s)) as [before Hbefore].
    exists before. by rewrite <- Hbefore, join_split.
Qed.

Lemma join_last_cases (sep : str) (parts : list str) :
  join sep parts = last_part parts
  ∨ ∃ before, join sep parts = before ++ sep ++ last_part parts.
Proof.
  unfold last_part. induction parts as [|p parts IH]; [by left|].
  destruct parts as [|q parts]; [by left|]. right.
  rewrite join_cons by done. change (last (p :: q :: parts)) with (last (q :: parts)).
  destruct IH as [->|[before ->]].
  - by exists p.
  - exists (p ++ sep ++ before). by rewrite <- !app_assoc.
Qed.

(** What follows the last separator: the string itself when it has no
    separator. *)
Lemma after_last_separator (sep : N) (s : str) :
  (sep ∉ last_part (split sep s)) ∧
  (s = last_part (split sep s) ∨ ∃ before, s = before ++ sep :: last_part (split sep s)).
Proof.
  split; [apply last_part_of_split|].
  destruct (join_last_cases [sep] (split sep s)) as [Hlast|[before Hlast]];
    rewrite join_split in Hlast.
  - by left.
  - right. by exists before.
Qed.

(** ** File names of sources *)

(** X4.  The file name that [_process_sources] reports for a document
    contains neither a slash nor a backslash, and it is what follows
    the last slash or backslash of the source path of the document (of
    the word unknown when the metadata have no source): the path
    itself when it has neither. *)
Theorem source_filename_has_no_separator (doc : Document) (name : str) :
  RAGEngine.source_filename doc = Ok name →
  (slash ∉ name) ∧ (backslash ∉ name) ∧
  ∃ path : str,
    default (MStr (lit "unknown")) (metadata doc !! lit "source") = MStr path ∧
    (path = name
     ∨ ∃ (directory : str) (sep : N),
         (sep = slash ∨ sep = backslash) ∧ path = directory ++ sep :: name).
Proof.
  unfold RAGEngine.source_filename.
  destruct (default (MStr (lit "unknown")) (metadata doc !! lit "source"))
    as [path| | |]; try done.
  destruct (contains [slash] path || contains [backslash] path) eqn:Hsep.
  - intros [= <-].
    destruct (after_last_separator slash path) as [Hslash Hpath].
    destruct (after_last_separator backslash (last_part (split slash path)))
      as [Hback Hlast].
    set (tail := last_part (split slash path)) in *.
    set (file := last_part (split backslash tail)) in *.
    split; [|split; [done|]].
    + intros Hin. apply Hslash. destruct Hlast as [Hlast|[dir2 Hlast]]; rewrite Hlast; [done|].
      apply elem_of_app. right. by apply list_elem_of_further.
    + exists path. split; [done|].
      destruct Hpath as [Hpath|[dir1 Hpath]], Hlast as [Hlast|[dir2 Hlast]].
      * left. congruence.
      * right. exists dir2, backslash. split; [by right|congruence].
      * right. exists dir1, slash. split; [by left|congruence].
      * right. exists (dir1 ++ slash :: dir2), backslash. split; [by right|].
        rewrite Hpath, Hlast, <- app_assoc. reflexivity.
  - intros [= <-]. apply orb_false_iff in Hsep as [Hslash Hback].
    split; [|split].
    + intros Hin%contains_char. congruence.
    + intros Hin%contains_char. congruence.
    + exists path. split; [done|by left].
Qed.

(** ** One source entry per retrieved document *)

Lemma source_filename_returns (doc : Document) :
  Checks.source_is_text doc ↔ ∃ name, RAGEngine.source_filename doc = Ok name.
Proof.
  unfold Checks.source_is_text, RAGEngine.source_filename.
  destruct (metadata doc !! lit "source") as [[path| | |]|]; cbn [default from_option];
    unfold id.
  - split; [intros _|done].
    destruct (contains [slash] path || contains [backslash] path); by eexists.
  - split; [done|]. by intros [name ?].
  - split; [done|]. by intros [name ?].
  - split; [done|]. by intros [name ?].
  - split; [intros _|done].
    destruct (contains [slash] (lit "unknown") || contains [backslash] (lit "unknown"));
      by eexists.
Qed.

Lemma process_source_raises_TypeError (i : Z) (doc : Document) (e : exn) :
  process_source i doc = Raise e → exn_class_of e = TypeError.
Proof.
  unfold process_source, RAGEngine.source_filename.
  destruct (default (MStr (lit "unknown")) (metadata doc !! lit "source")) as [path| | |];
    cbn [mbind result_bind].
  - by destruct (contains [slash] path || contains [backslash] path).
  - by intros [= <-].
  - by intros [= <-].
  - by intros [= <-].
Qed.

Lemma process_from_raises_TypeError (docs : list Document) :
  ∀ (i : Z) (acc : list Source) (e : exn),
    process_from i docs acc = Raise e → exn_class_of e = TypeError.
Proof.
  induction docs as [|d docs IH]; intros i acc e; cbn [process_from]; [done|].
  destruct (process_source i d) as [entry|e'] eqn:Hentry; cbn [mbind result_bind].
  - apply IH.
  - intros [= <-]. by eapply process_source_raises_TypeError.
Qed.

(** X5.  [_process_sources] returns exactly when the source entry of
    every document, where there is one, is a string; any other source
    value makes it raise a [TypeError].  When it returns, there is one
    entry per document, in the order of the documents, and the
    chunk_index of an entry is the one in the metadata of its document,
    or its rank when the metadata have none. *)
Theorem process_sources_one_entry_per_document (docs : list Document) :
  (Forall Checks.source_is_text docs ↔ ∃ sources, _process_sources docs = Ok sources) ∧
  (∀ e, _process_sources docs = Raise e → exn_class_of e = TypeError) ∧
  (∀ sources : list Source,
     _process_sources docs = Ok sources →
     length sources = length docs ∧
     ∀ (i : nat) (doc : Document) (src : Source),
       docs !! i = Some doc → sources !! i = Some src →
       chunk_index src = default (MInt (Z.of_nat i)) (metadata doc !! lit "chunk_index")).
Proof.
  split; [|split].
  - split; [apply process_sources_returns|].
    intros [sources Hrun]. apply Forall_lookup. intros i doc Hdoc.
    destruct (process_sources_entries docs sources Hrun) as [_ Hall].
    destruct (Hall i doc Hdoc) as (src & _ & Hps).
    apply source_filename_returns. unfold process_source in Hps.
    destruct (RAGEngine.source_filename doc) as [name|e]; [by exists name|done].
  - intros e. apply process_from_raises_TypeError.
  - intros sources Hrun.
    destruct (process_sources_entries docs sources Hrun) as [Hlen Hall].
    split; [done|]. intros i doc src Hdoc Hsrc.
    destruct (Hall i doc Hdoc) as (src' & Hsrc' & Hps).
    rewrite Hsrc in Hsrc'. injection Hsrc' as <-.
    unfold process_source in Hps.
    destruct (RAGEngine.source_filename doc) as [name|e]; cbn [mbind result_bind] in Hps;
      [|done].
    by injection Hps as <-.
Qed.

(** ** Tool names mentioned in an answer *)

(** X6.  [_extract_tools_used] returns tool names only, each at most
    as often and in the same order as in the list it is given, and a
    name of the list is returned exactly when its lower-case form
    occurs somewhere in the lower-case form of the answer. *)
Theorem extract_tools_used_finds_mentions `{Unicode} (tool_names : list str)
    (response : str) :
  sublist (_extract_tools_used tool_names response) tool_names ∧
  ∀ tool_name : str,
    tool_name ∈ _extract_tools_used tool_names response ↔
    tool_name ∈ tool_names ∧
    ∃ before after, lower response = before ++ lower tool_name ++ after.
Proof.
  unfold _extract_tools_used. split.
  - apply sublist_filter.
  - intros tool_name. rewrite list_elem_of_filter, contains_spec. tauto.
Qed.

(** The statement above for a path with both separators. *)
Lemma source_filename_has_no_separator_witness :
  RAGEngine.source_filename Scenarios.exported_chunk = Ok (lit "visitor_policy.txt") ∧
  ((slash ∉ lit "visitor_policy.txt") ∧ (backslash ∉ lit "visitor_policy.txt") ∧
   ∃ path : str,
     default (MStr (lit "unknown")) (metadata Scenarios.exported_chunk !! lit "source")
       = MStr path ∧
     (path = lit "visitor_policy.txt"
      ∨ ∃ (directory : str) (sep : N),
          (sep = slash ∨ sep = backslash) ∧
          path = directory ++ sep :: lit "visitor_policy.txt")).
Proof.
  split; [vm_compute; reflexivity|].
  apply (source_filename_has_no_separator Scenarios.exported_chunk (lit "visitor_policy.txt")).
  vm_compute. reflexivity.
Defined.

(** ** Calls on behalf of the model *)

Import ToolExecutor Main.

(** The first element that a search finds, with those it passed over. *)
Lemma find_first {A : Type} (f : A → bool) (l : list A) (x : A) :
  List.find f l = Some x →
  ∃ before after : list A,
    l = before ++ x :: after ∧ f x = true ∧ Forall (λ y, f y = false) before.
Proof.
  induction l as [|y l IH]; [discriminate|]. cbn [List.find].
  destruct (f y) eqn:Hy.
  - intros [= ->]. exists [], l. by repeat split.
  - intros (before & after & -> & Hx & Hbefore)%IH.
    exists (y :: before), after. split; [reflexivity|]. split; [exact Hx|].
    by constructor.
Qed.

(** X7.  A request whose parameters use the name of a parameter of
    [execute_tool] itself, [tool_name] or [self], is not executed:
    [execute_from_llm_request] raises a [TypeError] that names the
    first such parameter in the order of the request, the one that no
    other such parameter comes before, whatever tool is asked for. *)
Theorem colliding_parameter_name_raises `{Clock} `{ToolBodies} (tool_name : str)
    (params : list (str * object)) (key : str) :
  key ∈ params.*1 →
  key ∈ own_parameters →
  ∃ (before : list (str * object)) (first : str) (v : object)
    (after : list (str * object)),
    params = before ++ (first, v) :: after ∧
    first ∈ own_parameters ∧
    (∀ earlier, earlier ∈ before.*1 → earlier ∉ own_parameters) ∧
    execute_from_llm_request tool_name params
      = Raise (Exn TypeError
                 (lit "ToolRegistry.execute_tool() got multiple values for argument '"
                    ++ first ++ squote)).
Proof.
  intros Hkey Hown. unfold execute_from_llm_request, unpack_call.
  destruct (List.find _ params) as [[first v]|] eqn:Hfind.
  - apply find_first in Hfind as (before & after & Hparams & Hfirst & Hbefore).
    exists before, first, v, after. split; [exact Hparams|]. split; [|split; [|reflexivity]].
    + apply (bool_decide_unpack _). by apply Is_true_true.
    + intros earlier [[k v'] [-> Hin]]%list_elem_of_fmap Hcollides.
      rewrite Forall_forall in Hbefore. apply Hbefore in Hin. cbn [fst] in Hin, Hcollides.
      by rewrite bool_decide_eq_true_2 in Hin.
  - exfalso. apply list_elem_of_fmap in Hkey as [[k v] [-> Hin]].
    apply list_elem_of_In in Hin. pose proof (find_none _ _ Hfind _ Hin) as Hp.
    cbn [fst] in Hp. by rewrite bool_decide_eq_true_2 in Hp.
Qed.

(** A request for the time that names the tool after the time zone. *)
Lemma colliding_parameter_name_raises_witness :
  lit "tool_name" ∈ Scenarios.naming_request.*1 ∧
  lit "tool_name" ∈ own_parameters ∧
  ∃ (before : list (str * object)) (first : str) (v : object)
    (after : list (str * object)),
    Scenarios.naming_request = before ++ (first, v) :: after ∧
    first ∈ own_parameters ∧
    (∀ earlier, earlier ∈ before.*1 → earlier ∉ own_parameters) ∧
    @execute_from_llm_request Samples.utc_clock Samples.plain_bodies
      (lit "get_current_datetime") Scenarios.naming_request
      = Raise (Exn TypeError
                 (lit "ToolRegistry.execute_tool() got multiple values for argument '"
                    ++ first ++ squote)).
Proof.
  assert (lit "tool_name" ∈ Scenarios.naming_request.*1) as Hkey
    by (apply (bool_decide_unpack _); vm_compute; exact I).
  assert (lit "tool_name" ∈ own_parameters) as Hown
    by (apply (bool_decide_unpack _); vm_compute; exact I).
  split; [exact Hkey|]. split; [exact Hown|].
  exact (@colliding_parameter_name_raises Samples.utc_clock Samples.plain_bodies
           (lit "get_current_datetime") Scenarios.naming_request (lit "tool_name")
           Hkey Hown).
Defined.

Lemma unpack_call_unbound (tools : ToolRegistry) (tool_name : str)
    (params : list (str * object)) :
  (∀ key, key ∈ params.*1 → key ∉ own_parameters) →
  unpack_call tools tool_name params = execute_tool tools tool_name (list_to_map params).
Proof.
  intros Hfree. unfold unpack_call.
  destruct (List.find _ params) as [[first v]|] eqn:Hfind; [|reflexivity].
  apply find_some in Hfind as [Hin Hp]. exfalso. apply (Hfree first).
  - apply list_elem_of_fmap. exists (first, v). split; [done|]. by apply list_elem_of_In.
  - apply (bool_decide_unpack _). by apply Is_true_true.
Qed.

(** The dictionary that [params or {}] leaves. *)
Lemma params_or_empty (params : option (list (str * object))) :
  match params with
  | Some (entry :: entries) => entry :: entries
  | _ => []
  end = default [] params.
Proof. by destruct params as [[|entry entries]|]. Qed.

(** X8.  POST /execute-tool for a tool name that is not registered,
    with parameters none of which is named [self] or [tool_name],
    answers with status 200 and the word success around a payload whose
    own success flag is false and whose error names the tool. *)
Theorem execute_tool_manual_unknown_tool `{Clock} `{ToolBodies} (tool_name : str)
    (params : option (list (str * object))) :
  tool_name ∉ get_tool_names tool_registry →
  (∀ key, key ∈ (default [] params).*1 → key ∉ own_parameters) →
  execute_tool_manual tool_name params
    = Response {| run_status := lit "success";
                  run_tool := tool_name;
                  run_result :=
                    [ (lit "success", VBool false);
                      (lit "error",
                       VStr (lit "Tool '" ++ tool_name ++ lit "' not found")) ] |}.
Proof.
  intros Hname Hfree. unfold execute_tool_manual.
  rewrite params_or_empty, unpack_call_unbound by exact Hfree.
  unfold execute_tool, get_tool.
  by rewrite (proj2 (dict_get_None tool_name tool_registry) Hname).
Qed.

(** X9.  POST /execute-tool for a registered tool without one of the
    parameters that its schema requires answers with status 500: the
    payload with the missing parameter's name is never built. *)
Theorem execute_tool_manual_missing_parameter `{Clock} `{ToolBodies} (tool_name : str)
    (tool : BaseTool) (sc : ToolSchema) (p : str)
    (params : option (list (str * object))) :
  get_tool tool_registry tool_name = Some tool →
  schema tool = Some sc →
  p ∈ required_params sc →
  p ∉ (default [] params).*1 →
  (∀ key, key ∈ (default [] params).*1 → key ∉ own_parameters) →
  ∃ msg : str,
    execute_tool_manual tool_name params
      = HTTPException 500 (lit "Tool execution failed: " ++ msg) ∧
    execute_tool tool_registry tool_name (list_to_map (default [] params))
      = Raise (Exn TypeError msg).
Proof.
  intros Htool Hsc Hp Hout Hfree. unfold execute_tool_manual.
  rewrite params_or_empty, unpack_call_unbound by exact Hfree.
  destruct (execute_tool_unbound tool_name tool sc p (list_to_map (default [] params))
              Htool Hsc Hp) as [msg Hmsg].
  - by apply not_elem_of_list_to_map_1.
  - exists msg. by rewrite Hmsg.
Qed.

(** ** The date and time tool on any arguments *)

(** X10.  Called with any keywords other than [self], whatever the type
    of the time zone value and with UTC when none is given, the date
    and time tool returns a payload and does not raise.  With a clock
    whose week days are 0 to 6, the success flag is true exactly when
    the zone database accepts the value, and the data then name the day
    of the week by the week day of the clock and repeat the time zone
    value as it was given. *)
Theorem get_current_datetime_succeeds_iff_zone_known `{Clock} (kwargs : keywords) :
  (∀ tz : tzinfo, 0 ≤ weekday (datetime_now tz) ≤ 6) →
  kwargs !! lit "self" = None →
  let timezone := default (VStr (lit "UTC")) (kwargs !! lit "timezone") in
  ∃ (p : payload) (success : bool),
    GetCurrentDateTimeTool.execute kwargs = Ok p ∧
    dict_get (lit "success") p = Some (VBool success) ∧
    (success = true ↔ ∃ tz, ZoneInfo timezone = Ok tz) ∧
    ∀ tz, ZoneInfo timezone = Ok tz →
      ∃ (data : payload) (day_name : str),
        dict_get (lit "data") p = Some (VDict data) ∧
        GetCurrentDateTimeTool.days !! Z.to_nat (weekday (datetime_now tz)) = Some day_name ∧
        dict_get (lit "day_of_week") data = Some (VStr day_name) ∧
        dict_get (lit "timezone") data = Some timezone.
Proof.
  intros Hweek Hself timezone.
  unfold GetCurrentDateTimeTool.execute, bound_call, optional_argument.
  rewrite Hself. cbn [mbind result_bind]. fold timezone.
  unfold GetCurrentDateTimeTool.run, GetCurrentDateTimeTool.attempt.
  change (validate_params GetCurrentDateTimeTool.schema {[lit "timezone" := timezone]})
    with (Ok true : result bool).
  cbn [mbind result_bind].
  destruct (ZoneInfo timezone) as [tz|e] eqn:Hzone; cbn [try_except mbind result_bind].
  - pose proof (Hweek tz) as Hday. unfold list_index.
    destruct (Z.ltb_spec (weekday (datetime_now tz)) 0) as [Hneg|_]; [lia|].
    replace ((0 <=? weekday (datetime_now tz))
             && (weekday (datetime_now tz) <? Z.of_nat (length GetCurrentDateTimeTool.days)))
      with true
      by (symmetry; apply andb_true_iff; split;
          [apply Z.leb_le|apply Z.ltb_lt; cbn [length GetCurrentDateTimeTool.days]]; lia).
    destruct (GetCurrentDateTimeTool.days !! Z.to_nat (weekday (datetime_now tz)))
      as [day_name|] eqn:Hname.
    + cbn [try_except mbind result_bind]. eexists _, true.
      split; [reflexivity|]. split; [vm_compute; reflexivity|].
      split; [split; [by exists tz|done]|].
      intros tz' [= <-]. eexists _, day_name.
      split; [vm_compute; reflexivity|]. split; [exact Hname|].
      split; vm_compute; reflexivity.
    + apply lookup_ge_None in Hname. cbn [length GetCurrentDateTimeTool.days] in Hname. lia.
  - unfold getattr_utc. cbn [try_except mbind result_bind]. eexists _, false.
    split; [reflexivity|]. split; [vm_compute; reflexivity|].
    split; [split; [done|by intros [tz ?]]|done].
Qed.

(** ** Ages *)

Lemma days_in_month_bounds (y m : Z) : 28 ≤ days_in_month y m ≤ 31.
Proof.
  unfold days_in_month.
  destruct (m =? 2); [destruct (is_leap y); lia|].
  destruct ((m =? 4) || (m =? 6) || (m =? 9) || (m =? 11)); lia.
Qed.

Lemma date_order (a b : date) :
  date_lt a b ∨ date_lt b a
  ∨ (year a = year b ∧ month a = month b ∧ day a = day b).
Proof. unfold date_lt. lia. Qed.

Lemma date_lt_asymmetric (a b : date) : date_lt a b → ¬ date_lt b a.
Proof. unfold date_lt. lia. Qed.

(** A year has 365 days, and one more when it is a leap year. *)
Lemma days_before_next_year (y : Z) :
  days_before_year (y + 1) = days_before_year y + 365 + (if is_leap y then 1 else 0).
Proof.
  unfold days_before_year, is_leap.
  replace (y + 1 - 1) with y by lia.
  destruct (Z.eqb_spec (y mod 4) 0) as [H4|H4];
    destruct (Z.eqb_spec (y mod 100) 0) as [H100|H100];
    destruct (Z.eqb_spec (y mod 400) 0) as [H400|H400];
    cbn [andb orb negb]; Z.div_mod_to_equations; lia.
Qed.

Lemma days_before_year_mono (y y' : Z) :
  y ≤ y' → days_before_year y + 365 * (y' - y) ≤ days_before_year y'.
Proof.
  intros Hle.
  assert (∀ n : nat, days_before_year y + 365 * Z.of_nat n ≤ days_before_year (y + Z.of_nat n))
    as Hsteps.
  { induction n as [|n IH].
    - replace (y + Z.of_nat 0) with y by lia. lia.
    - replace (y + Z.of_nat (S n)) with (y + Z.of_nat n + 1) by lia.
      rewrite days_before_next_year. destruct (is_leap (y + Z.of_nat n)); lia. }
  pose proof (Hsteps (Z.to_nat (y' - y))) as Hn.
  replace (y + Z.of_nat (Z.to_nat (y' - y))) with y' in Hn by lia. lia.
Qed.

Lemma month_cases (m : Z) :
  1 ≤ m ≤ 12 →
  m = 1 ∨ m = 2 ∨ m = 3 ∨ m = 4 ∨ m = 5 ∨ m = 6 ∨ m = 7 ∨ m = 8 ∨ m = 9 ∨ m = 10
  ∨ m = 11 ∨ m = 12.
Proof. lia. Qed.

Ltac each_month H :=
  apply month_cases in H;
  destruct H as [->|[->|[->|[->|[->|[->|[->|[->|[->|[->|[->| ->]]]]]]]]]]].

(** The days before a month and the days of it end where the next
    month begins, and the year ends after the last. *)
Lemma days_before_month_step (y m : Z) :
  1 ≤ m ≤ 12 →
  days_before_month y m + days_in_month y m
    = if m =? 12 then 365 + (if is_leap y then 1 else 0) else days_before_month y (m + 1).
Proof.
  intros Hm. unfold days_before_month, days_in_month.
  each_month Hm; destruct (is_leap y); reflexivity.
Qed.

Lemma days_before_month_mono (y m m' : Z) :
  1 ≤ m → m < m' → m' ≤ 12 →
  days_before_month y m + days_in_month y m ≤ days_before_month y m'.
Proof.
  intros Hm Hlt Hm'.
  assert (1 ≤ m ≤ 12) as Hm1 by lia. assert (1 ≤ m' ≤ 12) as Hm2 by lia.
  unfold days_before_month, days_in_month.
  each_month Hm1; each_month Hm2; try lia; destruct (is_leap y); vm_compute; discriminate.
Qed.

Lemma days_before_month_nonneg (y m : Z) : 0 ≤ days_before_month y m.
Proof.
  unfold days_before_month.
  assert (0 ≤ nth (Z.to_nat (m - 1)) [0; 31; 59; 90; 120; 151; 181; 212; 243; 273; 304; 334] 0)
    as Hnth.
  { generalize (Z.to_nat (m - 1)) as n. intros n.
    do 12 (destruct n as [|n]; [cbn [nth]; lia|]). destruct n; cbn [nth]; lia. }
  destruct ((2 <? m) && is_leap y); lia.
Qed.

(** The day numbers follow the order of the dates. *)
Lemma toordinal_lt (a b : date) :
  valid_date a → valid_date b → date_lt a b → toordinal a < toordinal b.
Proof.
  intros (Hya & Hma & Hda) (Hyb & Hmb & Hdb) Hlt. unfold toordinal.
  destruct Hlt as [Hy|[Hy [Hm|[Hm Hd]]]].
  - pose proof (days_before_year_mono (year a + 1) (year b) ltac:(lia)) as Hyears.
    rewrite days_before_next_year in Hyears.
    pose proof (days_before_month_step (year a) (month a) Hma) as Hstep.
    pose proof (days_before_month_nonneg (year b) (month b)) as Hpos.
    destruct (Z.eqb_spec (month a) 12) as [H12|H12].
    + lia.
    + pose proof (days_before_month_mono (year a) (month a) 12 ltac:(lia) ltac:(lia)
                    ltac:(lia)) as Hmono.
      pose proof (days_before_month_step (year a) 12 ltac:(lia)) as Hlast.
      cbn [Z.eqb Pos.eqb] in Hlast.
      pose proof (days_in_month_bounds (year a) 12). lia.
  - rewrite Hy.
    pose proof (days_before_month_mono (year b) (month a) (month b) ltac:(lia) Hm
                  ltac:(lia)) as Hmono.
    rewrite Hy in Hda. lia.
  - rewrite Hy, Hm. lia.
Qed.

(** X11.  For a reference date and a birth date of the calendar, the
    months of the age are between 0 and 11 and its days between 0 and
    30; on a birthday both are 0.  The years are negative exactly when
    the reference date is before the birth date, and so exactly when
    the number of days lived is negative: such an age is computed, not
    refused. *)
Theorem age_components_in_range (ref_dt birth_dt : date) :
  valid_date ref_dt →
  valid_date birth_dt →
  ∃ age_years age_months age_days : Z,
    age ref_dt birth_dt = (age_years, age_months, age_days) ∧
    0 ≤ age_months ≤ 11 ∧
    0 ≤ age_days ≤ 30 ∧
    (is_birthday ref_dt birth_dt = true → age_months = 0 ∧ age_days = 0) ∧
    (age_years < 0 ↔ date_lt ref_dt birth_dt) ∧
    (age_years < 0 ↔ toordinal ref_dt - toordinal birth_dt < 0).
Proof.
  intros Href Hbirth.
  assert ((toordinal ref_dt - toordinal birth_dt < 0) ↔ date_lt ref_dt birth_dt) as Hdays.
  { split.
    - intros Hneg. destruct (date_order ref_dt birth_dt) as [Hlt|[Hgt|(Hy & Hm & Hd)]].
      + exact Hlt.
      + pose proof (toordinal_lt _ _ Hbirth Href Hgt). lia.
      + unfold toordinal in Hneg. rewrite Hy, Hm, Hd in Hneg. lia.
    - intros Hlt. pose proof (toordinal_lt _ _ Href Hbirth Hlt). lia. }
  destruct Href as (_ & Hmr & Hdr), Hbirth as (_ & Hmb & Hdb).
  pose proof (days_in_month_bounds (year ref_dt) (month ref_dt)).
  pose proof (days_in_month_bounds (year birth_dt) (month birth_dt)).
  unfold age, is_birthday.
  destruct (Z.ltb_spec (day ref_dt - day birth_dt) 0) as [Hd|Hd];
    [destruct (Z.ltb_spec (month ref_dt - month birth_dt - 1) 0) as [Hm|Hm]
    |destruct (Z.ltb_spec (month ref_dt - month birth_dt) 0) as [Hm|Hm]];
    eexists _, _, _; (split; [reflexivity|]);
    rewrite Hdays; unfold date_lt; rewrite andb_true_iff, !Z.eqb_eq; lia.
Qed.

(** ** The age tool *)

Section ResultSteps.
Context {A B : Type}.

Lemma bind_Ok (a : A) (k : A → result B) : (Ok a ≫= k) = k a.
Proof. reflexivity. Qed.

Lemma bind_Raise (e : exn) (k : A → result B) : (Raise e ≫= k) = Raise e.
Proof. reflexivity. Qed.

Lemma try_except_Ok (a : A) (handler : exn → result A) : try_except (Ok a) handler = Ok a.
Proof. reflexivity. Qed.

Lemma try_except_Raise (e : exn) (handler : exn → result A) :
  try_except (Raise e) handler = handler e.
Proof. reflexivity. Qed.

End ResultSteps.

(** The four entries of a payload. *)
Lemma format_result_entries (sc : option ToolSchema) (success : bool) (data error : object) :
  dict_get (lit "success") (format_result sc success data error) = Some (VBool success) ∧
  dict_get (lit "data") (format_result sc success data error) = Some data ∧
  dict_get (lit "error") (format_result sc success data error) = Some error.
Proof. unfold format_result. generalize (VStr match sc with Some sc0 => name sc0 | None => lit "unknown" end). intros tool. vm_compute. done. Qed.

Section AgeTool.
Context `{RAGEngine.Unicode} `{Calendar}.

Lemma calculate_age_run (birthdate reference_date : object) :
  @CalculateAgeTool.run source_bodies birthdate reference_date
    = Ok (match parsed_dates birthdate reference_date with
          | Ok (ref_dt, birth_dt) =>
              format_result CalculateAgeTool.schema true
                (VDict (age_data birthdate ref_dt birth_dt)) VNone
          | Raise e =>
              format_result CalculateAgeTool.schema false VNone (VStr (age_error e))
          end).
Proof.
  unfold CalculateAgeTool.run.
  change (validate_params CalculateAgeTool.schema {[lit "birthdate" := birthdate]})
    with (Ok true : result bool).
  cbn [mbind result_bind].
  change (calculate_age_body birthdate reference_date)
    with (calculate_age birthdate reference_date).
  unfold calculate_age, parsed_dates, age_error.
  destruct (strptime birthdate) as [birth_dt|e].
  - rewrite !bind_Ok.
    destruct (if truthy reference_date then strptime reference_date else Ok today)
      as [ref_dt|e].
    + rewrite !bind_Ok. reflexivity.
    + rewrite !bind_Raise, try_except_Raise.
      destruct e as [[] msg]; cbv beta iota delta [exn_class_of exn_str]; reflexivity.
  - rewrite !bind_Raise, try_except_Raise.
    destruct e as [[] msg]; cbv beta iota delta [exn_class_of exn_str]; reflexivity.
Qed.

(** X12.  Called with a birth date and without [self], the age tool
    returns a payload and does not raise.  The success flag is true
    exactly when the dates parse.  A birth date that the parser refuses
    with a [ValueError] is reported as an invalid date format, any
    other failure as an error calculating the age.  A reference date
    that is [None], empty or otherwise false stands for today. *)
Theorem calculate_age_reports_errors (kwargs : keywords) (birthdate : object) :
  kwargs !! lit "self" = None →
  kwargs !! lit "birthdate" = Some birthdate →
  let reference_date := default VNone (kwargs !! lit "reference_date") in
  ∃ (p : payload) (success : bool),
    @CalculateAgeTool.execute source_bodies kwargs = Ok p ∧
    dict_get (lit "success") p = Some (VBool success) ∧
    (success = true ↔
     ∃ birth_dt ref_dt, strptime birthdate = Ok birth_dt ∧
       (if truthy reference_date then strptime reference_date else Ok today) = Ok ref_dt) ∧
    (∀ e, strptime birthdate = Raise e →
       dict_get (lit "error") p = Some (VStr (age_error e)) ∧
       (exn_class_of e = ValueError →
        age_error e = lit "Invalid date format. Use YYYY-MM-DD: " ++ exn_str e) ∧
       (exn_class_of e ≠ ValueError →
        age_error e = lit "Error calculating age: " ++ exn_str e)) ∧
    (truthy reference_date = false →
     ∀ birth_dt, strptime birthdate = Ok birth_dt →
       dict_get (lit "data") p = Some (VDict (age_data birthdate today birth_dt))).
Proof.
  intros Hself Hbirth reference_date.
  unfold CalculateAgeTool.execute, bound_call, required_argument, optional_argument.
  rewrite Hself, Hbirth. rewrite !bind_Ok. fold reference_date.
  rewrite calculate_age_run. unfold parsed_dates.
  destruct (strptime birthdate) as [birth_dt|e].
  - rewrite bind_Ok. destruct (truthy reference_date) eqn:Htruth.
    + destruct (strptime reference_date) as [ref_dt|e].
      * rewrite bind_Ok. eexists _, true. split; [reflexivity|].
        split; [apply format_result_entries|].
        split; [split; [by exists birth_dt, ref_dt|done]|]. split; [done|done].
      * rewrite bind_Raise. eexists _, false. split; [reflexivity|].
        split; [apply format_result_entries|].
        split; [split; [done|by intros (b & r & _ & ?)]|]. split; [done|done].
    + rewrite bind_Ok. eexists _, true. split; [reflexivity|].
      split; [apply format_result_entries|].
      split; [split; [by exists birth_dt, today|done]|]. split; [done|].
      intros _ birth_dt' [= <-]. apply format_result_entries.
  - rewrite bind_Raise. eexists _, false. split; [reflexivity|].
    split; [apply format_result_entries|].
    split; [split; [done|by intros (b & r & ? & _)]|].
    split; [|done]. intros e' [= <-]. split; [apply format_result_entries|].
    unfold age_error.
    destruct e as [[] msg]; cbv beta iota delta [exn_class_of exn_str];
      split; intros Hclass; first [congruence | reflexivity].
Qed.

End AgeTool.

(** ** Working hours *)

Lemma department_keys :
  HOSPITAL_SCHEDULE.*1
    = [ lit "emergency"; lit "icu"; lit "opd"; lit "pharmacy"; lit "billing" ].
Proof. reflexivity. Qed.

Lemma department_not_found :
  lit "Department not found. Available: " ++ join (lit ", ") HOSPITAL_SCHEDULE.*1
    = lit "Department not found. Available: emergency, icu, opd, pharmacy, billing".
Proof. vm_compute. reflexivity. Qed.

(** X13.  For every argument, the working hours tool returns a payload
    and does not raise.  The success flag is true exactly when the
    argument is a string that, in lower case and without the white
    space around it, is one of emergency, icu, opd, pharmacy and
    billing; the data are then the schedule of that department.  Any
    other string is answered with the list of the five names, and an
    argument that is not a string with the error of the missing method
    [lower]. *)
Theorem get_working_hours_knows_five_departments `{RAGEngine.Unicode} `{Calendar}
    (department : object) :
  ∃ (p : payload) (success : bool),
    @GetWorkingHoursTool.run source_bodies department = Ok p ∧
    dict_get (lit "success") p = Some (VBool success) ∧
    (success = true ↔
     ∃ s, department = VStr s ∧
          strip (RAGEngine.lower s)
            ∈ [ lit "emergency"; lit "icu"; lit "opd"; lit "pharmacy"; lit "billing" ]) ∧
    (∀ s data, department = VStr s →
       dict_get (strip (RAGEngine.lower s)) HOSPITAL_SCHEDULE = Some data →
       dict_get (lit "data") p = Some (VDict data)) ∧
    (success = false →
     dict_get (lit "error") p
       = Some (VStr (match department with
                     | VStr _ =>
                         lit "Department not found. Available: emergency, icu, opd, pharmacy, billing"
                     | _ =>
                         lit "Error fetching working hours: '" ++ type_name department
                           ++ lit "' object has no attribute 'lower'"
                     end))).
Proof.
  unfold GetWorkingHoursTool.run.
  change (validate_params GetWorkingHoursTool.schema {[lit "department" := department]})
    with (Ok true : result bool).
  rewrite bind_Ok.
  change (get_working_hours_body department) with (get_working_hours department).
  assert (∀ v : object, (∀ s, v ≠ VStr s) →
          ∃ (p : payload) (success : bool),
            try_except (no_attribute v (lit "lower") : result payload)
              (λ e, Ok (format_result GetWorkingHoursTool.schema false VNone
                          (VStr (lit "Error fetching working hours: " ++ exn_str e)))) = Ok p ∧
            dict_get (lit "success") p = Some (VBool success) ∧
            success = false ∧
            dict_get (lit "error") p
              = Some (VStr (lit "Error fetching working hours: '" ++ type_name v
                              ++ lit "' object has no attribute 'lower'"))) as Hother.
  { intros v _. unfold no_attribute. rewrite try_except_Raise.
    cbv beta iota delta [exn_str]. eexists _, false.
    split; [reflexivity|]. split; [apply format_result_entries|]. split; [reflexivity|].
    etransitivity; [apply format_result_entries|]. do 2 f_equal. }
  destruct department as [|b|z|x|s|l|d]; cbn [get_working_hours].
  5: {
    rewrite <- department_keys.
    destruct (dict_get (strip (RAGEngine.lower s)) HOSPITAL_SCHEDULE) as [data|] eqn:Hget;
      rewrite try_except_Ok.
    - eexists _, true. split; [reflexivity|]. split; [apply format_result_entries|].
      split; [|split; [|discriminate]].
      + split; [intros _|reflexivity]. exists s. split; [reflexivity|].
        destruct (decide (strip (RAGEngine.lower s) ∈ HOSPITAL_SCHEDULE.*1)) as [Hin|Hout];
          [exact Hin|].
        apply dict_get_None in Hout. congruence.
      + intros s' data' [= <-] Hdata. rewrite Hget in Hdata. injection Hdata as <-.
        apply format_result_entries.
    - eexists _, false. split; [reflexivity|]. split; [apply format_result_entries|].
      split; [|split].
      + split; [discriminate|]. intros (s' & [= <-] & Hin).
        apply dict_get_None in Hget. contradiction.
      + intros s' data' [= <-] Hdata. congruence.
      + intros _. rewrite <- department_not_found. apply format_result_entries. }
  all: match goal with |- context [no_attribute ?v _] =>
         destruct (Hother v ltac:(discriminate)) as (p & success & Hrun & Hflag & -> & Herr);
         exists p, false; split; [exact Hrun|]; split; [exact Hflag|];
         split; [split; [discriminate|by intros (s' & ? & _)]|];
         split; [discriminate|]; intros _; exact Herr
       end.
Qed.

(** ** The document search tool *)

Lemma str_eq_true (s : str) (v : object) : str_eq s v = true ↔ v = VStr s.
Proof.
  destruct v; cbn [str_eq]; try (split; [discriminate|discriminate]).
  rewrite bool_decide_eq_true. split; [by intros ->|by intros [= ->]].
Qed.

Lemma sublist_List_filter {A : Type} (f : A → bool) (l : list A) :
  sublist (List.filter f l) l.
Proof.
  induction l as [|x l IH]; cbn [List.filter]; [constructor|].
  destruct (f x); by constructor.
Qed.

(** A slice raises by its bound alone, whatever the list. *)
Lemma slice_to_raises {A B : Type} (xs : list A) (ys : list B) (stop : object) (e : exn) :
  slice_to xs stop = Raise e →
  e = Exn TypeError
        (lit "slice indices must be integers or None or have an __index__ method") ∧
  slice_to ys stop = Raise e.
Proof.
  destruct stop as [|b|z|x|s|l|d]; cbn [slice_to]; try discriminate;
    try (destruct (z <? 0); discriminate); by intros [= <-].
Qed.

Lemma search_failed_text :
  lit "Search failed: "
    ++ lit "slice indices must be integers or None or have an __index__ method"
  = lit "Search failed: slice indices must be integers or None or have an __index__ method".
Proof. vm_compute. reflexivity. Qed.

(** X14.  For every argument, the document search tool returns a
    payload and does not raise.  With a limit that is an integer or
    [None], the payload reports a success: its results are those of
    the three documents it knows that have the type asked for, all
    three when the type is all, in their order and cut by the limit as
    a slice cuts, so all of them for [None] and the first n of them for
    an integer n of 0 or more; the count reported is their number.
    With any other limit, the payload reports a failed search. *)
Theorem search_internal_docs_returns_known_documents `{RAGEngine.Unicode} `{Calendar}
    (query doc_type limit : object) :
  ∃ p : payload,
    @SearchInternalDocsTool.run source_bodies query doc_type limit = Ok p ∧
    if slice_bound limit
    then
      ∃ matching results : list (list (str * object)),
        sublist matching internal_results ∧
        (∀ r, r ∈ matching ↔
              r ∈ internal_results ∧
              (doc_type = VStr (lit "all") ∨ has_type doc_type r = true)) ∧
        slice_to matching limit = Ok results ∧
        (limit = VNone → results = matching) ∧
        (∀ n, limit = VInt n → 0 ≤ n → results = take (Z.to_nat n) matching) ∧
        p = format_result SearchInternalDocsTool.schema true
              (VDict [ (lit "query", query);
                       (lit "results_count", VInt (Z.of_nat (length results)));
                       (lit "results", VList (VDict <$> results));
                       (lit "search_time_ms", VInt 125) ]) VNone
    else
      p = format_result SearchInternalDocsTool.schema false VNone
            (VStr (lit "Search failed: slice indices must be integers or None or have an __index__ method")).
Proof.
  unfold SearchInternalDocsTool.run.
  change (validate_params SearchInternalDocsTool.schema {[lit "query" := query]})
    with (Ok true : result bool).
  rewrite bind_Ok.
  change (search_internal_docs_body query doc_type limit)
    with (search_internal_docs query doc_type limit).
  unfold search_internal_docs.
  set (mock_results := if str_eq (lit "all") doc_type then internal_results
                       else List.filter (has_type doc_type) internal_results).
  assert (sublist mock_results internal_results) as Hsub.
  { unfold mock_results. destruct (str_eq (lit "all") doc_type); [done|].
    apply sublist_List_filter. }
  assert (∀ r, r ∈ mock_results ↔
               r ∈ internal_results ∧
               (doc_type = VStr (lit "all") ∨ has_type doc_type r = true)) as Hmatching.
  { intros r. unfold mock_results.
    destruct (str_eq (lit "all") doc_type) eqn:Hall.
    - apply str_eq_true in Hall. tauto.
    - rewrite list_elem_of_In, filter_In, <- list_elem_of_In.
      assert (doc_type ≠ VStr (lit "all")) as Hne
        by (intros Heq; apply str_eq_true in Heq; congruence).
      tauto. }
  destruct (slice_to mock_results limit) as [kept|e] eqn:Hslice.
  - rewrite bind_Ok, try_except_Ok. eexists. split; [reflexivity|].
    assert (slice_bound limit = true) as ->
      by (destruct limit; try reflexivity; discriminate Hslice).
    exists mock_results, kept. split; [exact Hsub|]. split; [exact Hmatching|].
    split; [exact Hslice|]. split; [|split; [|reflexivity]].
    + intros ->. cbn [slice_to] in Hslice. congruence.
    + intros n -> Hn. cbn [slice_to] in Hslice.
      destruct (Z.ltb_spec n 0) as [Hneg|_]; [lia|]. congruence.
  - rewrite bind_Raise, try_except_Raise. eexists. split; [reflexivity|].
    assert (slice_bound limit = false) as ->.
    { destruct limit as [|b|z|x|s|l|d]; try reflexivity; cbn [slice_to] in Hslice;
        try discriminate Hslice. destruct (z <? 0); discriminate Hslice. }
    apply (slice_to_raises _ internal_results) in Hslice as [-> Hslice].
    cbv beta iota delta [exn_str]. rewrite search_failed_text. reflexivity.
Qed.

(** ** What a step does to the store *)

#[export] Instance same_entries_preorder : PreOrder same_entries.
Proof.
  split.
  - intros w collection. reflexivity.
  - intros w1 w2 w3 H12 H23 collection. by rewrite H23, H12.
Qed.

#[export] Instance keeps_entries_preorder : PreOrder keeps_entries.
Proof.
  split.
  - intros w collection entries Hw. exists []. by rewrite app_nil_r.
  - intros w1 w2 w3 H12 H23 collection entries Hw.
    destruct (H12 _ _ Hw) as [more Hmore]. destruct (H23 _ _ Hmore) as [more' Hmore'].
    exists (more ++ more'). by rewrite app_assoc.
Qed.

Section Frames.
Context (R : relation World) `{!PreOrder R}.
Context {A B : Type}.

Lemma M_bind_unfold (m : M A) (k : A → M B) (w : World) :
  (m ≫= k) w = match m w with
               | (Ok a, w') => k a w'
               | (Raise e, w') => (Raise e, w')
               end.
Proof. reflexivity. Qed.

Lemma preserves_ret (a : A) : preserves R (mret a : M A).
Proof. intros w. reflexivity. Qed.

Lemma preserves_lift (r : result A) : preserves R (lift r).
Proof. intros w. reflexivity. Qed.

Lemma preserves_raise (e : exn) : preserves R (raise e : M A).
Proof. intros w. reflexivity. Qed.

Lemma preserves_bind (m : M A) (k : A → M B) :
  preserves R m → (∀ a, preserves R (k a)) → preserves R (m ≫= k).
Proof.
  intros Hm Hk w. rewrite M_bind_unfold. pose proof (Hm w) as Hw.
  destruct (m w) as [[a|e] w']; cbn [snd] in Hw |- *; [|exact Hw].
  etransitivity; [exact Hw|apply Hk].
Qed.

Lemma preserves_try_catch (body : M A) (handler : exn → M A) :
  preserves R body → (∀ e, preserves R (handler e)) → preserves R (try_catch body handler).
Proof.
  intros Hbody Hhandler w. unfold try_catch. pose proof (Hbody w) as Hw.
  destruct (body w) as [[a|e] w']; cbn [snd] in Hw |- *; [exact Hw|].
  etransitivity; [exact Hw|apply Hhandler].
Qed.

End Frames.

Lemma Chroma_same_entries (collection : str) : preserves same_entries (Chroma collection).
Proof.
  intros w name. unfold Chroma.
  destruct (store_error w); [reflexivity|].
  destruct (collections w !! collection) eqn:Hc; [reflexivity|].
  cbn [snd set_collections collections].
  destruct (decide (collection = name)) as [<-|Hne].
  - by rewrite lookup_insert_eq, Hc.
  - by rewrite lookup_insert_ne.
Qed.

Lemma Chroma_keeps_entries (collection : str) : preserves keeps_entries (Chroma collection).
Proof.
  intros w name entries Hname. unfold Chroma.
  destruct (store_error w); [by exists []; rewrite app_nil_r|].
  destruct (collections w !! collection) eqn:Hc; [by exists []; rewrite app_nil_r|].
  cbn [snd set_collections collections]. exists [].
  rewrite lookup_insert_ne, app_nil_r; [done|]. intros <-. congruence.
Qed.

Lemma count_world (collection : str) (w : World) : (count collection w).2 = w.
Proof. unfold count. by destruct (count_error w). Qed.

Lemma count_preserves (R : relation World) `{!PreOrder R} (collection : str) :
  preserves R (count collection).
Proof. intros w. by rewrite count_world. Qed.

(** Steps that only write to the record of outside calls. *)
Lemma same_collections (R : relation World) (w w' : World) :
  R = same_entries ∨ R = keeps_entries →
  collections w' = collections w → R w w'.
Proof.
  intros [-> | ->] Hc.
  - intros name. by rewrite Hc.
  - intros name entries Hname. exists []. by rewrite Hc, app_nil_r.
Qed.

Lemma load_documents_collections (self : DocumentProcessor) (w : World) :
  collections (load_documents self w).2 = collections w.
Proof.
  unfold load_documents. destruct (documents_directory w) as [[[|d ds]|e]|]; reflexivity.
Qed.

Lemma embed_collections `{Embeddings} (texts : list str) (w : World) :
  collections (embed texts w).2 = collections w.
Proof. reflexivity. Qed.

Lemma appending_keeps_entries (collection : str) (more : list Entry) (w : World) :
  keeps_entries w
    (set_collections
       (λ cs, <[collection := default [] (cs !! collection) ++ more]> cs) w).
Proof.
  intros name stored Hname. cbn [set_collections collections].
  destruct (decide (collection = name)) as [<-|Hne].
  - exists more. by rewrite lookup_insert_eq, Hname.
  - exists []. by rewrite lookup_insert_ne, app_nil_r.
Qed.

Lemma add_entries_keeps_entries `{VectorStore} (collection : str) (chunks : list Document)
    (vectors : list (list float)) :
  preserves keeps_entries (add_entries collection chunks vectors).
Proof.
  intros w. unfold add_entries. destruct chunks as [|c chunks]; [reflexivity|].
  destruct (negb _); [reflexivity|].
  destruct (upsert _) as [[k e]|]; cbn [snd]; apply appending_keeps_entries.
Qed.

Lemma get_document_count_preserves (R : relation World) (self : DocumentProcessor) :
  R = same_entries ∨ R = keeps_entries →
  preserves R (get_document_count self).
Proof.
  intros HR. assert (PreOrder R) as HPre by (destruct HR as [-> | ->]; apply _).
  unfold get_document_count, get_vectorstore.
  apply preserves_try_catch; [exact HPre| |intros e; by apply preserves_ret].
  apply preserves_bind; [exact HPre| |intros store; by apply count_preserves].
  destruct HR as [-> | ->]; [apply Chroma_same_entries|apply Chroma_keeps_entries].
Qed.

(** ** Ingestion and the store *)

(** One step of a frame argument: the relation is a preorder, or the
    step is one of the plain ones. *)
Ltac frame :=
  first [ assumption
        | apply preserves_ret; frame
        | apply preserves_lift; frame
        | apply preserves_raise; frame
        | apply count_preserves; frame
        | apply Chroma_same_entries
        | apply Chroma_keeps_entries
        | apply _ ].

Section Ingestion.
Context `{TextSplitter} `{Embeddings} `{VectorStore}.

Lemma existing_collection_same_entries (self : DocumentProcessor) :
  preserves same_entries (existing_collection self).
Proof.
  unfold existing_collection.
  apply preserves_try_catch; [frame| |intros e; frame].
  apply preserves_bind; [frame|frame|]. intros store.
  apply preserves_bind; [frame|frame|]. intros n.
  destruct (n >? 0); frame.
Qed.

Lemma existing_collection_keeps_entries (self : DocumentProcessor) :
  preserves keeps_entries (existing_collection self).
Proof.
  unfold existing_collection.
  apply preserves_try_catch; [frame| |intros e; frame].
  apply preserves_bind; [frame|frame|]. intros store.
  apply preserves_bind; [frame|frame|]. intros n.
  destruct (n >? 0); frame.
Qed.

Lemma load_documents_preserves (R : relation World) (self : DocumentProcessor) :
  R = same_entries ∨ R = keeps_entries → preserves R (load_documents self).
Proof. intros HR w. apply same_collections; [exact HR|]. apply load_documents_collections. Qed.

Lemma embed_preserves (R : relation World) (texts : list str) :
  R = same_entries ∨ R = keeps_entries → preserves R (embed texts).
Proof. intros HR w. by apply same_collections. Qed.

Lemma from_documents_keeps_entries (chunks : list Document) (collection : str) :
  preserves keeps_entries (from_documents chunks collection).
Proof.
  unfold from_documents.
  apply preserves_bind; [frame|frame|]. intros store.
  apply preserves_bind; [frame|apply embed_preserves; by right|]. intros vectors.
  apply preserves_bind; [frame|apply add_entries_keeps_entries|]. intros _.
  frame.
Qed.

(** X15.  Whatever its arguments and its outcome, a run of
    [ingest_documents] leaves every entry that a collection held in its
    place: the run with [force_reindex] does not clear the collection,
    it adds to it. *)
Theorem ingest_documents_never_removes_entries (self : DocumentProcessor)
    (force_reindex : bool) (start_time end_time : float) (w : World) :
  keeps_entries w (ingest_documents self force_reindex start_time end_time w).2.
Proof.
  revert w. change (preserves keeps_entries
                      (ingest_documents self force_reindex start_time end_time)).
  unfold ingest_documents.
  apply preserves_bind; [frame| |].
  - destruct force_reindex; cbn [negb]; [frame|apply existing_collection_keeps_entries].
  - intros [report|]; [frame|].
    apply preserves_bind; [frame|apply load_documents_preserves; by right|].
    intros documents.
    apply preserves_bind; [frame|frame|]. intros chunks.
    apply preserves_bind; [frame| |intros _; frame].
    apply preserves_try_catch; [frame|apply from_documents_keeps_entries|].
    intros e. frame.
Qed.

End Ingestion.

Section IngestionOutcomes.
Context `{TextSplitter} `{Embeddings} `{VectorStore}.

(** The block before the loading: it never raises, it leaves the
    directory alone, and it at most creates the collection, empty. *)
Lemma early_step (self : DocumentProcessor) (force_reindex : bool) (w : World) :
  ∃ (early : option (Z * Z * float)) (w0 : World),
    (if negb force_reindex then existing_collection self else mret None) w = (Ok early, w0) ∧
    documents_directory w0 = documents_directory w ∧
    (collections w0 = collections w
     ∨ collections w !! collection_name self = None
       ∧ collections w0 = <[collection_name self := []]> (collections w)) ∧
    early = (if negb force_reindex && (0 <? visible_count (collection_name self) w)
             then Some (0, visible_count (collection_name self) w, zero)
             else None).
Proof.
  unfold visible_count. destruct force_reindex; cbn [negb andb].
  { exists None, w. split; [reflexivity|]. split; [reflexivity|]. split; [by left|done]. }
  unfold existing_collection, try_catch. rewrite M_bind_unfold. unfold Chroma.
  destruct (store_error w) as [e|].
  { exists None, w. split; [reflexivity|]. split; [reflexivity|]. split; [by left|done]. }
  destruct (collections w !! collection_name self) as [entries|] eqn:Hc;
    rewrite M_bind_unfold; unfold count; cbn [count_error set_collections];
    destruct (count_error w) as [e|].
  - exists None, w. split; [reflexivity|]. split; [reflexivity|]. split; [by left|done].
  - rewrite Hc. cbn [default from_option]. unfold id.
    rewrite Z.gtb_ltb. destruct (0 <? Z.of_nat (length entries)).
    + eexists (Some _), w. split; [reflexivity|]. split; [reflexivity|]. split; [by left|done].
    + exists None, w. split; [reflexivity|]. split; [reflexivity|]. split; [by left|done].
  - eexists None, _. split; [reflexivity|]. split; [reflexivity|]. split; [by right|done].
  - cbn [collections set_collections]. rewrite lookup_insert_eq.
    cbn [default from_option length].
    eexists None, _. split; [reflexivity|]. split; [reflexivity|]. split; [by right|done].
Qed.

Lemma created_empty_same_entries (w w0 : World) (collection : str) :
  (collections w0 = collections w
   ∨ collections w !! collection = None
     ∧ collections w0 = <[collection := []]> (collections w)) →
  same_entries w w0.
Proof.
  intros [Hc|[Hnone Hc]] name; rewrite Hc; [reflexivity|].
  destruct (decide (collection = name)) as [<-|Hne].
  - by rewrite lookup_insert_eq, Hnone.
  - by rewrite lookup_insert_ne.
Qed.

(** What [load_documents] returns and raises. *)
Lemma load_documents_outcome (self : DocumentProcessor) (w : World) :
  ∃ w1, collections w1 = collections w ∧
    ((∃ documents, load_documents self w = (Ok documents, w1) ∧
        documents_directory w = Some (Ok documents) ∧ documents ≠ [])
     ∨ (load_documents self w
          = (Raise (Exn FileNotFoundError
                      (lit "❌ Documents directory not found: " ++ documents_path self)), w1) ∧
        documents_directory w = None)
     ∨ (∃ e, load_documents self w
               = (Raise (Exn ValueError (lit "❌ Error loading documents: " ++ exn_str e)), w1) ∧
             documents_directory w = Some (Raise e))
     ∨ (load_documents self w
          = (Raise (Exn ValueError
                      (lit "❌ No .txt files found in " ++ documents_path self
                         ++ lit ". Please add documents to this directory.")), w1) ∧
        documents_directory w = Some (Ok []))).
Proof.
  unfold load_documents. destruct (documents_directory w) as [[[|d ds]|e]|].
  - eexists. split; [|right; right; right; split; reflexivity]. reflexivity.
  - eexists. split; [|left; eexists; split; [reflexivity|split; [reflexivity|discriminate]]].
    reflexivity.
  - eexists. split; [|right; right; left; eexists; split; reflexivity]. reflexivity.
  - eexists. split; [|right; left; split; reflexivity]. reflexivity.
Qed.


End IngestionOutcomes.

Section IngestionResults.
Context `{TextSplitter} `{Embeddings} `{VectorStore}.

(** The pipeline from the loading on, by its outcome. *)
Lemma ingest_documents_outcome (self : DocumentProcessor) (force_reindex : bool)
    (start_time end_time : float) (w : World) :
  ∃ (early : option (Z * Z * float)) (w0 : World),
    documents_directory w0 = documents_directory w ∧
    (collections w0 = collections w
     ∨ collections w !! collection_name self = None
       ∧ collections w0 = <[collection_name self := []]> (collections w)) ∧
    early = (if negb force_reindex && (0 <? visible_count (collection_name self) w)
             then Some (0, visible_count (collection_name self) w, zero)
             else None) ∧
    ingest_documents self force_reindex start_time end_time w
      = match early with
        | Some report => (Ok report, w0)
        | None =>
            match load_documents self w0 with
            | (Raise e, w1) => (Raise e, w1)
            | (Ok documents, w1) =>
                match split_documents self documents with
                | Raise e => (Raise e, w1)
                | Ok chunks =>
                    match from_documents chunks (collection_name self) w1 with
                    | (Raise e, w2) =>
                        (Raise (Exn RuntimeError
                                  (lit "❌ Failed to create vector store: " ++ exn_str e)), w2)
                    | (Ok _, w2) =>
                        (Ok (Z.of_nat (length documents), Z.of_nat (length chunks),
                             sub end_time start_time), w2)
                    end
                end
            end
        end.
Proof.
  destruct (early_step self force_reindex w) as (early & w0 & Hearly & Hdir & Hcol & Hrep).
  exists early, w0. split; [exact Hdir|]. split; [exact Hcol|]. split; [exact Hrep|].
  unfold ingest_documents. rewrite M_bind_unfold, Hearly.
  destruct early as [report|]; [reflexivity|].
  rewrite M_bind_unfold. destruct (load_documents self w0) as [[documents|e] w1]; [|reflexivity].
  rewrite M_bind_unfold. unfold lift at 1.
  destruct (split_documents self documents) as [chunks|e]; [|reflexivity].
  rewrite M_bind_unfold. unfold try_catch.
  by destruct (from_documents chunks (collection_name self) w1) as [[store|e] w2].
Qed.



End IngestionResults.

(** ** The pieces of a batch *)

Lemma index_chunks_content (chunks : list Document) (i : Z) :
  page_content <$> index_chunks i chunks = page_content <$> chunks.
Proof.
  revert i. induction chunks as [|c chunks IH]; intros i; [reflexivity|].
  cbn [index_chunks]. rewrite !fmap_cons, IH. reflexivity.
Qed.

Lemma fmap_concat_groups {A B : Type} (f : A → B) (groups : list (list A)) :
  f <$> concat groups = concat ((λ g : list A, f <$> g) <$> groups).
Proof.
  induction groups as [|g groups IH]; [reflexivity|].
  cbn [concat]. rewrite fmap_app, IH. reflexivity.
Qed.

Lemma lookup_concat_inv {A : Type} (groups : list (list A)) (i : nat) (x : A) :
  concat groups !! i = Some x →
  ∃ (j : nat) (g : list A) (k : nat),
    groups !! j = Some g ∧ g !! k = Some x ∧ i = (length (concat (take j groups)) + k)%nat.
Proof.
  revert i. induction groups as [|g groups IH]; intros i Hi; [cbn [concat] in Hi; by rewrite lookup_nil in Hi|].
  cbn [concat] in Hi. apply lookup_app_Some in Hi as [Hi|[Hlen Hi]].
  - exists 0%nat, g, i. by repeat split.
  - destruct (IH _ Hi) as (j & g' & k & Hj & Hk & Heq).
    exists (S j), g', k. split; [exact Hj|]. split; [exact Hk|].
    cbn [take concat]. rewrite length_app. lia.
Qed.

Lemma pieces_as_chunks_content (documents : list Document) (pieces : list (list str)) :
  length documents = length pieces →
  page_content <$> pieces_as_chunks documents pieces = concat pieces.
Proof.
  unfold pieces_as_chunks. revert pieces.
  induction documents as [|d documents IH]; intros [|texts pieces] Hlen;
    try discriminate Hlen; [reflexivity|].
  cbn [zip_with concat]. rewrite fmap_app, IH by (simpl in Hlen; lia). f_equal.
  rewrite <- list_fmap_compose. clear. induction texts as [|t texts IH]; [done|].
  rewrite fmap_cons. cbn [compose page_content]. by rewrite IH.
Qed.

Lemma pieces_as_chunks_offset (documents : list Document) (pieces : list (list str))
    (j : nat) :
  length documents = length pieces →
  length (concat (take j (zip_with (λ (d : Document) (texts : list str),
                                      (λ t, {| page_content := t; metadata := metadata d |})
                                        <$> texts) documents pieces)))
  = length (concat (take j pieces)).
Proof.
  revert pieces j.
  induction documents as [|d documents IH]; intros [|texts pieces] j Hlen;
    try discriminate Hlen.
  - by destruct j.
  - destruct j as [|j]; [reflexivity|].
    cbn [zip_with take concat]. rewrite !length_app, length_fmap, IH by (simpl in Hlen; lia).
    reflexivity.
Qed.

(** X18.  When [split_documents] returns, the texts of its chunks are
    the pieces that the text splitter cuts from the documents, all of
    them and in their order, document after document; the chunk at a
    position is a piece of the document whose pieces cover that
    position, and apart from chunk_index and chunk_size, which are
    written anew, it has the metadata of that document. *)
Theorem split_documents_keeps_every_piece `{TextSplitter} (self : DocumentProcessor)
    (documents chunks : list Document) :
  split_documents self documents = Ok chunks →
  ∃ pieces : list (list str),
    Forall2 (λ d texts,
               split_text (chunk_size self) (chunk_overlap self) (page_content d) = Ok texts)
            documents pieces ∧
    page_content <$> chunks = concat pieces ∧
    ∀ (i : nat) (chunk : Document),
      chunks !! i = Some chunk →
      ∃ (j k : nat) (d : Document) (texts : list str),
        documents !! j = Some d ∧
        pieces !! j = Some texts ∧
        texts !! k = Some (page_content chunk) ∧
        i = (length (concat (take j pieces)) + k)%nat ∧
        ∀ key, key ≠ lit "chunk_index" → key ≠ lit "chunk_size" →
               metadata chunk !! key = metadata d !! key.
Proof.
  unfold split_documents. intros Hrun.
  destruct (splitter_init (chunk_size self) (chunk_overlap self)) as [[]|e];
    [rewrite bind_Ok in Hrun|discriminate Hrun].
  destruct (library_split_documents (chunk_size self) (chunk_overlap self) documents)
    as [raw|e] eqn:Hlib; [rewrite bind_Ok in Hrun|discriminate Hrun].
  injection Hrun as <-.
  apply library_split_documents_pieces in Hlib as (pieces & Hpieces & ->).
  pose proof (Forall2_length _ _ _ Hpieces) as Hlen.
  exists pieces. split; [exact Hpieces|]. split.
  - by rewrite index_chunks_content, pieces_as_chunks_content.
  - intros i chunk Hchunk.
    destruct (index_chunks_lookup _ _ _ _ Hchunk) as (c0 & Hc0 & Htext & Hmeta).
    unfold pieces_as_chunks in Hc0.
    apply lookup_concat_inv in Hc0 as (j & g & k & Hj & Hk & ->).
    apply lookup_zip_with_Some in Hj as (d & texts & -> & Hd & Htexts).
    rewrite list_lookup_fmap in Hk.
    destruct (texts !! k) as [t|] eqn:Ht; [|discriminate Hk].
    injection Hk as <-. cbn [page_content metadata] in Htext, Hmeta.
    exists j, k, d, texts. split; [exact Hd|]. split; [exact Htexts|].
    split; [by rewrite Htext|]. split; [by rewrite pieces_as_chunks_offset|].
    intros key Hindex Hsize. rewrite Hmeta, !lookup_insert_ne by done. reflexivity.
Qed.

(** ** The prompt with the tool block *)

Lemma persona_cases (user_role : str) :
  default GENERAL_PROMPT (ROLE_PROMPTS !! user_role)
    ∈ [ DOCTOR_PROMPT; RECEPTIONIST_PROMPT; BILLING_PROMPT; GENERAL_PROMPT ].
Proof.
  destruct (ROLE_PROMPTS !! user_role) as [persona|] eqn:Hrole; cbn [default from_option].
  - unfold id. unfold ROLE_PROMPTS in Hrole. apply elem_of_list_to_map_2 in Hrole.
    repeat (apply elem_of_cons in Hrole as [[= _ ->]|Hrole];
            [apply (bool_decide_unpack _); vm_compute; exact I|]).
    by apply elem_of_nil in Hrole.
  - do 3 apply list_elem_of_further. apply list_elem_of_here.
Qed.

(** Each role text, framed, has the response header once and does not
    speak of tools. *)
Lemma framed_persona_has_one_header :
  Forall (λ persona,
            contains (lit "AVAILABLE TOOLS") (persona ++ template_frame) = false ∧
            ∀ block : str,
              replace (persona ++ template_frame) (lit "===== RESPONSE =====") block
                = persona ++ frame_before ++ block ++ frame_after)
         [ DOCTOR_PROMPT; RECEPTIONIST_PROMPT; BILLING_PROMPT; GENERAL_PROMPT ].
Proof.
  repeat constructor; try (vm_compute; reflexivity); intros block; vm_compute; reflexivity.
Qed.

(** X19.  For every role key and every list of tool schemas, the
    prompt that [query] hands to the chain is the text of the role,
    then the context and the question, then the tool block on a line of
    its own before the response header, then the three closing
    instructions; its input variables are context and question. *)
Theorem tool_block_goes_before_response_header (user_role : str)
    (tool_schemas : list FunctionSchema) :
  with_tools (_create_prompt_template user_role) tool_schemas
    = {| template :=
           default GENERAL_PROMPT (ROLE_PROMPTS !! user_role)
             ++ frame_before
             ++ (tool_info tool_schemas ++ nl ++ response_header)
             ++ frame_after;
         input_variables := [ lit "context"; lit "question" ] |}.
Proof.
  unfold with_tools, _create_prompt_template. rewrite role_prompts_default.
  cbn [template input_variables].
  pose proof (persona_cases user_role) as Hpersona.
  pose proof framed_persona_has_one_header as Hframed.
  rewrite Forall_forall in Hframed. destruct (Hframed _ Hpersona) as [-> Hreplace].
  unfold response_header. by rewrite Hreplace.
Qed.

Lemma tool_lines_lookup (tool_schemas : list FunctionSchema) :
  ∀ (i : Z) (k : nat) (func : FunctionSchema),
    tool_schemas !! k = Some func →
    ∃ before after : str,
      tool_lines i tool_schemas
        = before
            ++ (str_of_int (i + Z.of_nat k) ++ lit ". " ++ function_name func ++ lit ": "
                  ++ function_description func ++ nl)
            ++ after.
Proof.
  induction tool_schemas as [|s rest IH]; intros i k func Hk; [by rewrite lookup_nil in Hk|].
  destruct k as [|k]; cbn [lookup list_lookup] in Hk.
  - injection Hk as ->. exists [], (tool_lines (i + 1) rest).
    cbn [tool_lines]. replace (i + Z.of_nat 0) with i by lia.
    rewrite app_nil_l, <- !app_assoc. reflexivity.
  - destruct (IH (i + 1) k func Hk) as (before & after & Hlines).
    exists (str_of_int i ++ lit ". " ++ function_name s ++ lit ": "
              ++ function_description s ++ nl ++ before), after.
    cbn [tool_lines]. rewrite Hlines.
    replace (i + 1 + Z.of_nat k) with (i + Z.of_nat (S k)) by lia.
    rewrite <- !app_assoc. reflexivity.
Qed.

(** X20.  The tool block is empty for an empty list of schemas.
    Otherwise it names every schema of the list on a line of its own:
    the position counted from 1, the name and the description. *)
Theorem tool_info_lists_every_schema (tool_schemas : list FunctionSchema) :
  (tool_schemas = [] → tool_info tool_schemas = []) ∧
  ∀ (k : nat) (func : FunctionSchema),
    tool_schemas !! k = Some func →
    ∃ before after : str,
      tool_info tool_schemas
        = before
            ++ (str_of_int (Z.of_nat k + 1) ++ lit ". " ++ function_name func ++ lit ": "
                  ++ function_description func ++ nl)
            ++ after.
Proof.
  split; [by intros ->|]. intros k func Hk.
  destruct (tool_lines_lookup tool_schemas 1 k func Hk) as (before & after & Hlines).
  exists (tool_info_head ++ before), (after ++ tool_info_tail).
  destruct tool_schemas as [|s rest]; [by rewrite lookup_nil in Hk|].
  unfold tool_info. rewrite Hlines. replace (1 + Z.of_nat k) with (Z.of_nat k + 1) by lia.
  rewrite <- !app_assoc. reflexivity.
Qed.

(** ** Counting and reading *)

(** [get_document_count] never raises; it reports the visible count and
    at most creates the collection, empty. *)
Lemma get_document_count_outcome (self : DocumentProcessor) (w : World) :
  ∃ w1 : World,
    get_document_count self w = (Ok (visible_count (collection_name self) w), w1) ∧
    store_error w1 = store_error w ∧
    count_error w1 = count_error w ∧
    documents_directory w1 = documents_directory w ∧
    (collections w1 = collections w
     ∨ collections w !! collection_name self = None
       ∧ collections w1 = <[collection_name self := []]> (collections w)) ∧
    (0 < visible_count (collection_name self) w → w1 = w).
Proof.
  unfold get_document_count, get_vectorstore, try_catch, visible_count.
  rewrite M_bind_unfold. unfold Chroma.
  destruct (store_error w) as [e|] eqn:Hstore.
  { exists w. repeat (split; [done|]). split; [by left|done]. }
  destruct (collections w !! collection_name self) as [entries|] eqn:Hc;
    unfold count; cbn [count_error set_collections collections];
    destruct (count_error w) as [e|] eqn:Hcount.
  - exists w. repeat (split; [done|]). split; [by left|done].
  - rewrite Hc. exists w. repeat (split; [done|]). split; [by left|done].
  - eexists. split; [reflexivity|]. cbn [store_error count_error documents_directory collections].
    repeat (split; [done|]). split; [by right|lia].
  - rewrite lookup_insert_eq. cbn [default from_option length].
    eexists. split; [reflexivity|]. cbn [store_error count_error documents_directory collections].
    repeat (split; [done|]). split; [by right|]. cbn [length]. lia.
Qed.

Lemma visible_count_nonneg (collection : str) (w : World) : 0 ≤ visible_count collection w.
Proof. unfold visible_count. destruct (store_error w), (count_error w); lia. Qed.

Section Reading.
Context `{Clock} `{ToolBodies} `{Chain} `{Unicode}.
Variable settings : Settings.

Lemma answer_with_world (chain : qa_chain) (question : str) (user_role : UserRole)
    (include_sources : bool) (start_time end_time : float) (w : World) :
  (answer_with chain question user_role include_sources start_time end_time w).2 = w.
Proof. unfold answer_with. by destruct (invoke chain question w). Qed.

Lemma query_same_entries (question : str) (user_role : UserRole) (include_sources : bool)
    (start_time end_time : float) :
  preserves same_entries
    (query settings question user_role include_sources start_time end_time).
Proof.
  unfold query, prepare_chain, get_vectorstore.
  apply preserves_bind; [frame| |].
  - apply preserves_bind; [frame|frame|]. intros store.
    apply preserves_bind; [frame|frame|]. intros tool_schemas. frame.
  - intros chain w. by rewrite answer_with_world.
Qed.

(** The store cannot be opened: the error leaves [query] as it is,
    before any answer is assembled. *)
Lemma query_unreachable (question : str) (user_role : UserRole) (include_sources : bool)
    (start_time end_time : float) (w : World) (e : exn) :
  store_error w = Some e →
  query settings question user_role include_sources start_time end_time w = (Raise e, w).
Proof.
  intros Hstore. unfold query, prepare_chain, get_vectorstore.
  rewrite !M_bind_unfold. unfold Chroma. by rewrite Hstore.
Qed.

End Reading.

(** ** The endpoints *)

Lemma round_zero : round zero 2 = zero.
Proof. vm_compute. reflexivity. Qed.

Section EndpointResults.
Context `{Clock} `{ToolBodies} `{Chain} `{Unicode} `{TextSplitter} `{Embeddings} `{VectorStore}
        `{ResponseValidation}.
Variable providers : ProviderSettings.
Variable settings : Settings.

Local Abbreviation processor := (document_processor settings).
Local Abbreviation stored := (visible_count (CHROMA_COLLECTION_NAME settings)).

(** X21.  GET /health answers with status 200 and the word healthy for
    every state of the store, also one that cannot be opened; the
    vector store is reported healthy when the count is above 0 and
    empty otherwise, and no entry of the store is touched. *)
Theorem health_check_always_answers (w : World) :
  ∃ w' : World,
    health_check providers settings w
      = (Response {| status := lit "healthy";
                     version := APP_VERSION providers;
                     vector_db_status :=
                       if stored w >? 0 then lit "healthy" else lit "empty";
                     document_count := stored w |}, w') ∧
    same_entries w w' ∧
    (store_error w ≠ None ∨ count_error w ≠ None → stored w = 0).
Proof.
  destruct (get_document_count_outcome processor w) as (w1 & Hcount & _ & _ & _ & Hcol & _).
  change (collection_name processor) with (CHROMA_COLLECTION_NAME settings) in *.
  exists w1. unfold health_check. rewrite Hcount. split; [reflexivity|].
  split; [by eapply created_empty_same_entries|].
  unfold visible_count. destruct (store_error w), (count_error w); try reflexivity.
  by intros [?|?].
Qed.

(** X22.  GET /stats answers with the numbers of the configuration and
    the provider Gemini when the Gemini key is set.  When it is not
    set, also with an OpenAI key, the handler asks the settings for a
    method they do not have and answers with status 500. *)
Theorem get_statistics_needs_gemini (w : World) :
  ∃ w' : World,
    same_entries w w' ∧
    get_statistics providers settings w
      = (if is_gemini_configured providers
         then Response {| total_chunks := stored w;
                          stats_chunk_size := CHUNK_SIZE settings;
                          stats_chunk_overlap := CHUNK_OVERLAP settings;
                          embedding_model := EMBEDDING_MODEL providers;
                          chat_model_name := CHAT_MODEL providers;
                          retrieval_top_k := RETRIEVAL_TOP_K settings;
                          stats_collection_name := CHROMA_COLLECTION_NAME settings;
                          provider_name := lit "Gemini (Google AI)" |}
         else HTTPException 500
                (lit "Failed to get statistics: "
                   ++ lit "'Settings' object has no attribute 'is_azure_configured'"), w').
Proof.
  destruct (get_document_count_outcome processor w) as (w1 & Hcount & _ & _ & _ & Hcol & _).
  change (collection_name processor) with (CHROMA_COLLECTION_NAME settings) in *.
  exists w1. split; [by eapply created_empty_same_entries|].
  unfold get_statistics. rewrite Hcount.
  destruct (is_gemini_configured providers); reflexivity.
Qed.

(** X23.  POST /query answers with status 400 and the request to
    ingest first exactly when the count of the collection is 0, which
    is also the case when the store cannot be opened or cannot count;
    the question is then not put to the engine. *)
Theorem query_endpoint_needs_documents (question : str) (role : UserRole)
    (include_sources : bool) (start_time end_time : float) (w : World) :
  (stored w = 0 →
   ∃ w', query_knowledge_base settings question role include_sources start_time end_time w
           = (HTTPException 400
                (lit "No documents ingested. Please call /ingest endpoint first."), w') ∧
         same_entries w w') ∧
  (status_of (query_knowledge_base settings question role include_sources
                start_time end_time w).1 = 400 →
   stored w = 0).
Proof.
  destruct (get_document_count_outcome processor w) as (w1 & Hcount & _ & _ & _ & Hcol & _).
  change (collection_name processor) with (CHROMA_COLLECTION_NAME settings) in *.
  unfold query_knowledge_base. rewrite Hcount. split.
  - intros ->. exists w1. split; [reflexivity|]. by eapply created_empty_same_entries.
  - destruct (Z.eqb_spec (stored w) 0) as [Hzero|Hpos]; [done|].
    destruct (query settings question role include_sources start_time end_time w1)
      as [[result|e] w2]; [|discriminate].
    destruct (validate_query_response result); discriminate.
Qed.


(** X24.  Neither [get_document_count] nor [query], nor the handlers of
    /health, /stats and /query, add, remove or change an entry of any
    collection, whatever they return or raise; all they may do to the
    store is to create the collection, empty. *)
Theorem reading_leaves_entries (question : str) (role : UserRole) (include_sources : bool)
    (start_time end_time : float) (w : World) :
  same_entries w (get_document_count processor w).2 ∧
  same_entries w (query settings question role include_sources start_time end_time w).2 ∧
  same_entries w (health_check providers settings w).2 ∧
  same_entries w (get_statistics providers settings w).2 ∧
  same_entries w (query_knowledge_base settings question role include_sources
                    start_time end_time w).2.
Proof.
  pose proof (get_document_count_preserves same_entries processor (or_introl eq_refl) w)
    as Hcount.
  split; [exact Hcount|]. split; [apply query_same_entries|].
  split; [|split].
  - unfold health_check.
    by destruct (get_document_count processor w) as [[doc_count|e] w1].
  - unfold get_statistics.
    destruct (get_document_count processor w) as [[doc_count|e] w1]; [|exact Hcount].
    by destruct (is_gemini_configured providers).
  - unfold query_knowledge_base.
    destruct (get_document_count processor w) as [[doc_count|e] w1]; cbn [snd] in Hcount |- *;
      [|exact Hcount].
    destruct (doc_count =? 0); [exact Hcount|].
    pose proof (query_same_entries settings question role include_sources
                  start_time end_time w1) as Hquery.
    destruct (query settings question role include_sources start_time end_time w1)
      as [[result|e] w2]; cbn [snd] in Hquery |- *; [|by etransitivity].
    destruct (validate_query_response result); by etransitivity.
Qed.

End EndpointResults.

(** ** What makes a query raise *)

Lemma process_sources_text_only (docs : list Document) (sources : list Source) :
  _process_sources docs = Ok sources → Forall Checks.source_is_text docs.
Proof.
  intros Hrun. apply Forall_lookup. intros i doc Hdoc.
  destruct (process_sources_entries docs sources Hrun) as [_ Hall].
  destruct (Hall i doc Hdoc) as (src & _ & Hps).
  apply source_filename_returns. unfold process_source in Hps.
  destruct (RAGEngine.source_filename doc) as [name|e]; [by exists name|discriminate Hps].
Qed.

Section QueryRaises.
Context `{Clock} `{ToolBodies} `{Chain} `{Unicode}.
Variable settings : Settings.

Lemma registry_schemas :
  ∃ all_schemas : list FunctionSchema, get_all_schemas tool_registry = Ok all_schemas.
Proof.
  destruct (well_keyed_schemas tool_registry) as (all_schemas & Hall & _).
  - apply registrations_well_keyed. split; [apply NoDup_nil_2|apply Forall_nil_2].
  - by exists all_schemas.
Qed.

(** X25.  When the store cannot be opened, [query] raises the error of
    the store as it is.  And [query] raises in three cases only: the
    store cannot be opened, the chain cannot be built, or sources are
    asked for and a retrieved document has a source entry that is not a
    string, which gives a [TypeError].  A failing invocation of the
    chain is never among them. *)
Theorem query_raises_only_outside_the_try (question : str) (user_role : UserRole)
    (include_sources : bool) (start_time end_time : float) (w : World) :
  (∀ e, store_error w = Some e →
        query settings question user_role include_sources start_time end_time w
          = (Raise e, w)) ∧
  (∀ e w',
     query settings question user_role include_sources start_time end_time w
       = (Raise e, w') →
     store_error w = Some e
     ∨ (∃ store prompt,
          from_chain_type store (RETRIEVAL_TOP_K settings) include_sources prompt = Raise e)
     ∨ (include_sources = true ∧ exn_class_of e = TypeError ∧
        ∃ chain chain_result documents,
          invoke chain question w' = Ok chain_result ∧
          source_documents chain_result = Some documents ∧
          ¬ Forall Checks.source_is_text documents)).
Proof.
  split; [intros e; apply query_unreachable|].
  intros e w'. unfold query, prepare_chain, get_vectorstore.
  rewrite !M_bind_unfold. unfold Chroma.
  destruct (store_error w) as [e0|]; [intros [= -> _]; by left|].
  destruct registry_schemas as [all_schemas ->].
  match goal with
  | |- context [match collections w !! ?c with _ => _ end] =>
      destruct (collections w !! c) as [entries|]
  end; unfold lift at 1; rewrite M_bind_unfold; unfold lift at 1.
  all: match goal with
       | |- context [from_chain_type ?store ?k ?inc ?prompt] =>
           destruct (from_chain_type store k inc prompt) as [chain|e1] eqn:Hbuild;
             [|intros [= <- _]; right; left; by exists store, prompt]
       end.
  all: unfold answer_with;
       destruct (invoke chain question _) as [chain_result|e2] eqn:Hinvoke; [|discriminate];
       unfold success_result;
       destruct include_sources; [|discriminate];
       destruct (source_documents chain_result) as [documents|] eqn:Hdocs; [|discriminate];
       destruct (_process_sources documents) as [sources|e3] eqn:Hsources; [discriminate|];
       rewrite bind_Raise; intros [= <- <-]; right; right;
       (split; [reflexivity|]);
       (split; [by eapply process_from_raises_TypeError|]);
       exists chain, chain_result, documents;
       (split; [exact Hinvoke|]); (split; [exact Hdocs|]);
       intros Htext; apply process_sources_returns in Htext as [sources Hok];
       rewrite Hok in Hsources; discriminate Hsources.
Qed.

(** X26.  When the chain answers and sources are asked for, a
    retrieved document whose source entry is not a string makes
    [query] raise a [TypeError]: the answer of the model is lost, for
    the sources are processed after the [try]. *)
Theorem query_raises_on_source_that_is_not_text (question : str) (user_role : UserRole)
    (start_time end_time : float) (w w1 : World) (chain : qa_chain)
    (chain_result : ChainResult) (documents : list Document) :
  prepare_chain settings user_role true w = (Ok chain, w1) →
  invoke chain question w1 = Ok chain_result →
  source_documents chain_result = Some documents →
  ¬ Forall Checks.source_is_text documents →
  ∃ msg : str,
    query settings question user_role true start_time end_time w
      = (Raise (Exn TypeError msg), w1).
Proof.
  intros Hchain Hinvoke Hdocs Hbad.
  unfold query. rewrite M_bind_unfold, Hchain. unfold answer_with. rewrite Hinvoke.
  unfold success_result. rewrite Hdocs.
  destruct (_process_sources documents) as [sources|[class msg]] eqn:Hsources.
  - exfalso. apply Hbad. by eapply process_sources_text_only.
  - apply process_from_raises_TypeError in Hsources as Hclass. cbn [exn_class_of] in Hclass.
    subst class. by exists msg.
Qed.

End QueryRaises.

(** ** The ingestion and query endpoints *)

Section EndpointOutcomes.
Context `{Clock} `{ToolBodies} `{Chain} `{Unicode} `{TextSplitter} `{Embeddings} `{VectorStore}
        `{ResponseValidation}.
Variable settings : Settings.

Local Abbreviation stored := (visible_count (CHROMA_COLLECTION_NAME settings)).

(** X27.  POST /ingest, by the state it finds.  Without force_reindex
    and with a collection that counts above 0, it answers with status
    200, no document processed and the message that there is nothing
    new.  Otherwise it goes on to load the documents: a missing
    directory gives status 404, a loader that fails or finds no file
    gives status 400, each with the text of the exception as detail;
    and when it then answers with status 200, at least one document
    was processed and the message says that the documents are
    ingested. *)
Theorem ingest_endpoint_status (force_reindex : bool) (start_time end_time : float)
    (w : World) :
  let skipped := negb force_reindex && (0 <? stored w) in
  let out := ingest_documents_endpoint settings force_reindex start_time end_time w in
  (skipped = true →
   out.1 = Response {| success := true;
                       message := lit "No new documents to ingest";
                       documents_processed := 0;
                       chunks_created := stored w;
                       time_taken_seconds := zero |}) ∧
  (skipped = false →
   (documents_directory w = None →
    out.1 = HTTPException 404
              (lit "❌ Documents directory not found: " ++ DOCUMENTS_PATH settings)) ∧
   (∀ e, documents_directory w = Some (Raise e) →
         out.1 = HTTPException 400 (lit "❌ Error loading documents: " ++ exn_str e)) ∧
   (documents_directory w = Some (Ok []) →
    out.1 = HTTPException 400
              (lit "❌ No .txt files found in " ++ DOCUMENTS_PATH settings
                 ++ lit ". Please add documents to this directory.")) ∧
   (∀ r, out.1 = Response r →
         success r = true ∧ 0 < documents_processed r ∧
         message r = lit "Documents ingested successfully")).
Proof.
  intros skipped out. unfold out, ingest_documents_endpoint.
  destruct (ingest_documents_outcome (document_processor settings) force_reindex
              start_time end_time w) as (early & w0 & Hdir & _ & Hearly & ->).
  change (collection_name (document_processor settings))
    with (CHROMA_COLLECTION_NAME settings) in Hearly.
  fold skipped in Hearly. split; intros Hskipped; rewrite Hskipped in Hearly; subst early.
  { cbn [fst]. rewrite round_zero.
    apply andb_true_iff in Hskipped as [_ Hpos]. reflexivity. }
  destruct (load_documents_outcome (document_processor settings) w0)
    as (w1 & _ & [(documents & -> & Hdocs & Hsome)
                 |[[-> Hnone]|[(e & -> & Hfail)|[-> Hempty]]]]);
    rewrite Hdir in *; cbn [fst exn_class_of exn_str].
  - split; [intros Hw; congruence|]. split; [intros e Hw; congruence|].
    split; [intros Hw; assert (documents = []) by congruence; contradiction|].
    intros r.
    destruct (split_documents (document_processor settings) documents) as [chunks|e];
      [|destruct (exn_class_of e); discriminate].
    destruct (from_documents chunks (collection_name (document_processor settings)) w1)
      as [[store|e] w2]; [|discriminate].
    cbn [fst]. intros [= <-]. cbn [success documents_processed message].
    assert (0 < Z.of_nat (length documents)) as Hpos
      by (destruct documents; [done|cbn [length]; lia]).
    split; [reflexivity|]. split; [exact Hpos|].
    by rewrite (proj2 (Z.gtb_lt _ _) Hpos).
  - split; [intros _; reflexivity|]. split; [intros e Hw; congruence|].
    split; [intros Hw; congruence|discriminate].
  - split; [intros Hw; congruence|]. split; [intros e' Hw; congruence|].
    split; [intros Hw; congruence|discriminate].
  - split; [intros Hw; congruence|]. split; [intros e' Hw; congruence|].
    split; [intros _; reflexivity|discriminate].
Qed.


(** X28.  POST /query on a collection that counts above 0, when the
    chain is built and its invocation raises: the handler answers with
    status 200, and the answer of the response is the error marker
    followed by the text of the exception, with no sources and no
    tools. *)
Theorem query_endpoint_answers_provider_failure (question : str) (role : UserRole)
    (include_sources : bool) (start_time end_time : float) (w w1 : World)
    (chain : qa_chain) (e : exn) :
  0 < stored w →
  prepare_chain settings role include_sources w = (Ok chain, w1) →
  invoke chain question w1 = Raise e →
  query_knowledge_base settings question role include_sources start_time end_time w
    = (Response {| response_question := question;
                   response_answer := lit "❌ Error processing query: " ++ exn_str e;
                   response_sources := [];
                   response_user_role := value role;
                   response_disclaimer := DISCLAIMER;
                   response_processing_time_seconds := round (sub end_time start_time) 2;
                   response_tools_used := [] |}, w1).
Proof.
  intros Hstored Hchain Hinvoke.
  destruct (get_document_count_outcome (document_processor settings) w)
    as (w0 & Hcount & _ & _ & _ & _ & Hsame).
  change (collection_name (document_processor settings))
    with (CHROMA_COLLECTION_NAME settings) in *.
  rewrite (Hsame Hstored) in Hcount. unfold query_knowledge_base. rewrite Hcount.
  destruct (Z.eqb_spec (stored w) 0) as [Hzero|_]; [lia|].
  unfold query. rewrite M_bind_unfold, Hchain. unfold answer_with. rewrite Hinvoke.
  reflexivity.
Qed.

End EndpointOutcomes.

(** ** Providers *)

Lemma provider_names_distinct :
  lit "gemini" ≠ lit "openai" ∧ lit "gemini" ≠ lit "azure" ∧ lit "openai" ≠ lit "azure".
Proof. repeat split; vm_compute; discriminate. Qed.

(** X29.  The check at import passes exactly when [get_llm_config]
    returns.  The two configurations then name the same provider and
    the same key, with the chat model in one and the embedding model in
    the other; the provider is gemini exactly when the Gemini key is
    set, whatever the OpenAI key, and openai otherwise: never azure. *)
Theorem one_provider_for_both_clients (self : ProviderSettings) :
  (validate_on_import self = Ok () ↔ ∃ llm_config, get_llm_config self = Ok llm_config) ∧
  ∀ llm_config : ProviderConfig,
    get_llm_config self = Ok llm_config →
    ∃ embedding_config : ProviderConfig,
      get_embedding_config self = Ok embedding_config ∧
      provider embedding_config = provider llm_config ∧
      api_key embedding_config = api_key llm_config ∧
      model llm_config = CHAT_MODEL self ∧
      model embedding_config = EMBEDDING_MODEL self ∧
      (provider llm_config = lit "gemini" ↔ is_gemini_configured self = true) ∧
      (provider llm_config = lit "openai" ↔ is_gemini_configured self = false) ∧
      provider llm_config ≠ lit "azure".
Proof.
  destruct provider_names_distinct as (Hgo & Hga & Hoa).
  unfold validate_on_import, get_llm_config, get_embedding_config, is_gemini_configured,
    is_openai_configured.
  destruct (GEMINI_API_KEY self) as [gemini|], (OPENAI_API_KEY self) as [openai|];
    cbn [negb andb bool_decide decide_rel]; split.
  all: try (split; [intros _; by eexists|reflexivity]).
  all: try (split; [discriminate|by intros [c ?]]).
  all: intros c [= <-]; try (eexists; split; [reflexivity|]); cbn [provider api_key model].
  all: repeat (split; [done|]); try done.
  all: split; [split; [intros ?; exfalso; by apply Hgo|discriminate]|].
  all: split; [done|done].
Qed.

(** X30.  The clients follow the configuration.  With a Gemini key,
    the chat model and the embeddings are the Gemini clients, built
    from that key and the two model names.  With an OpenAI key only,
    the embeddings are the OpenAI client, and the chat model is never
    built: the settings have no LLM_MAX_TOKENS, and reading it raises
    an [AttributeError].  So without a Gemini key the start of the
    application raises, whatever the libraries and the store do. *)
Theorem clients_follow_the_configuration `{Libraries} (providers : ProviderSettings) :
  match GEMINI_API_KEY providers, OPENAI_API_KEY providers with
  | Some key, _ =>
      _initialize_llm providers
        = ChatGoogleGenerativeAI key (CHAT_MODEL providers) (LLM_TEMPERATURE providers)
            (LLM_MAX_OUTPUT_TOKENS providers) ∧
      _initialize_embeddings providers
        = GoogleGenerativeAIEmbeddings (EMBEDDING_MODEL providers) key 768
  | None, Some key =>
      _initialize_llm providers
        = Raise (Exn AttributeError
                   (lit "'Settings' object has no attribute 'LLM_MAX_TOKENS'")) ∧
      _initialize_embeddings providers = OpenAIEmbeddings key (EMBEDDING_MODEL providers)
  | None, None =>
      (∃ msg, _initialize_llm providers = Raise (Exn ValueError msg)) ∧
      (∃ msg, _initialize_embeddings providers = Raise (Exn ValueError msg))
  end ∧
  (GEMINI_API_KEY providers = None →
   ∀ (settings : Settings) (w : World),
     ∃ e w', startup providers settings w = (Raise e, w')).
Proof.
  destruct provider_names_distinct as (Hgo & Hga & Hoa).
  assert (lit "'Settings' object has no attribute '" ++ lit "LLM_MAX_TOKENS" ++ squote
          = lit "'Settings' object has no attribute 'LLM_MAX_TOKENS'") as Htext
    by (vm_compute; reflexivity).
  unfold startup, new_document_processor, new_rag_engine, validate_on_import,
    is_gemini_configured, is_openai_configured.
  unfold _initialize_llm, _initialize_embeddings, get_llm_config, get_embedding_config,
    missing_setting.
  destruct (GEMINI_API_KEY providers) as [gemini|], (OPENAI_API_KEY providers) as [openai|];
    rewrite ?bind_Ok, ?bind_Raise; cbn [provider api_key model].
  - rewrite !decide_True by reflexivity.
    rewrite (decide_False (P := lit "gemini" = lit "azure")) by exact Hga.
    rewrite (decide_False (P := lit "gemini" = lit "openai")) by exact Hgo.
    split; [split; reflexivity|discriminate].
  - rewrite !decide_True by reflexivity.
    rewrite (decide_False (P := lit "gemini" = lit "azure")) by exact Hga.
    rewrite (decide_False (P := lit "gemini" = lit "openai")) by exact Hgo.
    split; [split; reflexivity|discriminate].
  - rewrite (decide_False (P := lit "openai" = lit "gemini")) by (intros Heq; by apply Hgo).
    rewrite !(decide_False (P := lit "openai" = lit "azure")) by exact Hoa.
    rewrite !decide_True by reflexivity. rewrite Htext.
    split; [split; reflexivity|]. intros _ settings w.
    destruct (OpenAIEmbeddings openai (EMBEDDING_MODEL providers)) as [client|e];
      [|eexists _, _; reflexivity].
    destruct (mkdir (CHROMA_PERSIST_DIRECTORY settings)) as [[]|e];
      eexists _, _; reflexivity.
  - split; [split; by eexists|]. intros _ settings w. eexists _, _. reflexivity.
Qed.

(** ** The conditional properties on sample inputs *)

Section OnSamples.
#[local] Existing Instance Samples.utc_clock.
#[local] Existing Instance Samples.plain_bodies.
#[local] Existing Instance Samples.ascii_only.
#[local] Existing Instance Samples.plain_splitter.
#[local] Existing Instance Scenarios.fixed_calendar.
#[local] Existing Instance Scenarios.strict_validation.

(** The date and time tool on the zone UTC. *)
Lemma get_current_datetime_succeeds_iff_zone_known_witness :
  (∀ tz : tzinfo, 0 ≤ weekday (datetime_now tz) ≤ 6) ∧
  Scenarios.utc_call !! lit "self" = None ∧
  let timezone := default (VStr (lit "UTC")) (Scenarios.utc_call !! lit "timezone") in
  ∃ (p : payload) (success : bool),
    GetCurrentDateTimeTool.execute Scenarios.utc_call = Ok p ∧
    dict_get (lit "success") p = Some (VBool success) ∧
    (success = true ↔ ∃ tz, ZoneInfo timezone = Ok tz) ∧
    ∀ tz, ZoneInfo timezone = Ok tz →
      ∃ (data : payload) (day_name : str),
        dict_get (lit "data") p = Some (VDict data) ∧
        GetCurrentDateTimeTool.days !! Z.to_nat (weekday (datetime_now tz)) = Some day_name ∧
        dict_get (lit "day_of_week") data = Some (VStr day_name) ∧
        dict_get (lit "timezone") data = Some timezone.
Proof.
  assert (∀ tz : tzinfo, 0 ≤ weekday (datetime_now tz) ≤ 6) as Hweek
    by (intros tz; vm_compute; split; discriminate).
  assert (Scenarios.utc_call !! lit "self" = None) as Hself by (vm_compute; reflexivity).
  split; [exact Hweek|]. split; [exact Hself|].
  exact (get_current_datetime_succeeds_iff_zone_known Scenarios.utc_call Hweek Hself).
Defined.

(** The age on 2025-11-17 of someone born on 1990-05-15. *)
Lemma age_components_in_range_witness :
  valid_date today ∧
  valid_date Scenarios.birthday_1990 ∧
  ∃ age_years age_months age_days : Z,
    age today Scenarios.birthday_1990 = (age_years, age_months, age_days) ∧
    0 ≤ age_months ≤ 11 ∧
    0 ≤ age_days ≤ 30 ∧
    (is_birthday today Scenarios.birthday_1990 = true → age_months = 0 ∧ age_days = 0) ∧
    (age_years < 0 ↔ date_lt today Scenarios.birthday_1990) ∧
    (age_years < 0 ↔ toordinal today - toordinal Scenarios.birthday_1990 < 0).
Proof.
  assert (valid_date today) as Href by (repeat split; vm_compute; discriminate).
  assert (valid_date Scenarios.birthday_1990) as Hbirth
    by (repeat split; vm_compute; discriminate).
  split; [exact Href|]. split; [exact Hbirth|].
  exact (age_components_in_range today Scenarios.birthday_1990 Href Hbirth).
Defined.

(** The age tool on the birth date 1990-05-15. *)
Lemma calculate_age_reports_errors_witness :
  Scenarios.age_call !! lit "self" = None ∧
  Scenarios.age_call !! lit "birthdate" = Some (VStr (lit "1990-05-15")) ∧
  let reference_date := default VNone (Scenarios.age_call !! lit "reference_date") in
  ∃ (p : payload) (success : bool),
    @CalculateAgeTool.execute source_bodies Scenarios.age_call = Ok p ∧
    dict_get (lit "success") p = Some (VBool success) ∧
    (success = true ↔
     ∃ birth_dt ref_dt, strptime (VStr (lit "1990-05-15")) = Ok birth_dt ∧
       (if truthy reference_date then strptime reference_date else Ok today) = Ok ref_dt) ∧
    (∀ e, strptime (VStr (lit "1990-05-15")) = Raise e →
       dict_get (lit "error") p = Some (VStr (age_error e)) ∧
       (exn_class_of e = ValueError →
        age_error e = lit "Invalid date format. Use YYYY-MM-DD: " ++ exn_str e) ∧
       (exn_class_of e ≠ ValueError →
        age_error e = lit "Error calculating age: " ++ exn_str e)) ∧
    (truthy reference_date = false →
     ∀ birth_dt, strptime (VStr (lit "1990-05-15")) = Ok birth_dt →
       dict_get (lit "data") p
         = Some (VDict (age_data (VStr (lit "1990-05-15")) today birth_dt))).
Proof.
  assert (Scenarios.age_call !! lit "self" = None) as Hself by (vm_compute; reflexivity).
  assert (Scenarios.age_call !! lit "birthdate" = Some (VStr (lit "1990-05-15"))) as Hbirth
    by (vm_compute; reflexivity).
  split; [exact Hself|]. split; [exact Hbirth|].
  exact (calculate_age_reports_errors Scenarios.age_call (VStr (lit "1990-05-15"))
           Hself Hbirth).
Defined.

(** The batch of two sample documents, cut every 20 characters. *)
Lemma split_documents_keeps_every_piece_witness :
  split_documents Samples.small_chunks [Samples.visiting_hours; Samples.billing_note]
    = Ok Samples.batch_chunks ∧
  ∃ pieces : list (list str),
    Forall2 (λ d texts,
               split_text (chunk_size Samples.small_chunks)
                 (chunk_overlap Samples.small_chunks) (page_content d) = Ok texts)
            [Samples.visiting_hours; Samples.billing_note] pieces ∧
    page_content <$> Samples.batch_chunks = concat pieces ∧
    ∀ (i : nat) (chunk : Document),
      Samples.batch_chunks !! i = Some chunk →
      ∃ (j k : nat) (d : Document) (texts : list str),
        [Samples.visiting_hours; Samples.billing_note] !! j = Some d ∧
        pieces !! j = Some texts ∧
        texts !! k = Some (page_content chunk) ∧
        i = (length (concat (take j pieces)) + k)%nat ∧
        ∀ key, key ≠ lit "chunk_index" → key ≠ lit "chunk_size" →
               metadata chunk !! key = metadata d !! key.
Proof.
  assert (split_documents Samples.small_chunks [Samples.visiting_hours; Samples.billing_note]
            = Ok Samples.batch_chunks) as Hrun by (vm_compute; reflexivity).
  split; [exact Hrun|].
  exact (split_documents_keeps_every_piece Samples.small_chunks
           [Samples.visiting_hours; Samples.billing_note] Samples.batch_chunks Hrun).
Defined.



(** A chain that answers from a chunk whose source is the number 7. *)
Lemma query_raises_on_source_that_is_not_text_witness :
  @prepare_chain Samples.utc_clock Samples.plain_bodies Scenarios.numbered_chain
    default_settings GENERAL true Samples.populated = (Ok tt, Samples.populated) ∧
  @invoke Scenarios.numbered_chain tt Samples.visiting_question Samples.populated
    = Ok Scenarios.numbered_answer ∧
  source_documents Scenarios.numbered_answer = Some [Scenarios.numbered_source] ∧
  ¬ Forall Checks.source_is_text [Scenarios.numbered_source] ∧
  ∃ msg : str,
    @query Samples.utc_clock Samples.plain_bodies Scenarios.numbered_chain
      Samples.ascii_only default_settings Samples.visiting_question GENERAL true zero one
      Samples.populated
      = (Raise (Exn TypeError msg), Samples.populated).
Proof.
  assert (@prepare_chain Samples.utc_clock Samples.plain_bodies Scenarios.numbered_chain
            default_settings GENERAL true Samples.populated = (Ok tt, Samples.populated))
    as Hchain by (vm_compute; reflexivity).
  assert (¬ Forall Checks.source_is_text [Scenarios.numbered_source]) as Hbad
    by (intros Htext; apply Forall_inv in Htext; vm_compute in Htext; exact Htext).
  split; [exact Hchain|]. split; [reflexivity|]. split; [reflexivity|]. split; [exact Hbad|].
  exact (@query_raises_on_source_that_is_not_text Samples.utc_clock Samples.plain_bodies
           Scenarios.numbered_chain Samples.ascii_only default_settings
           Samples.visiting_question GENERAL zero one Samples.populated Samples.populated
           tt Scenarios.numbered_answer [Scenarios.numbered_source]
           Hchain eq_refl eq_refl Hbad).
Defined.

(** POST /query while the provider answers 503. *)
Lemma query_endpoint_answers_provider_failure_witness :
  0 < visible_count (CHROMA_COLLECTION_NAME default_settings) Samples.populated ∧
  @prepare_chain Samples.utc_clock Samples.plain_bodies Samples.failing_chain
    default_settings GENERAL true Samples.populated = (Ok tt, Samples.populated) ∧
  @invoke Samples.failing_chain tt Samples.visiting_question Samples.populated
    = Raise Samples.provider_down ∧
  @query_knowledge_base Samples.utc_clock Samples.plain_bodies Samples.failing_chain
    Samples.ascii_only Scenarios.strict_validation default_settings
    Samples.visiting_question GENERAL true zero one Samples.populated
    = (Response {| response_question := Samples.visiting_question;
                   response_answer :=
                     lit "❌ Error processing query: " ++ exn_str Samples.provider_down;
                   response_sources := [];
                   response_user_role := value GENERAL;
                   response_disclaimer := DISCLAIMER;
                   response_processing_time_seconds := round (sub one zero) 2;
                   response_tools_used := [] |}, Samples.populated).
Proof.
  assert (0 < visible_count (CHROMA_COLLECTION_NAME default_settings) Samples.populated)
    as Hstored by (vm_compute; reflexivity).
  assert (@prepare_chain Samples.utc_clock Samples.plain_bodies Samples.failing_chain
            default_settings GENERAL true Samples.populated = (Ok tt, Samples.populated))
    as Hchain by (vm_compute; reflexivity).
  split; [exact Hstored|]. split; [exact Hchain|]. split; [reflexivity|].
  exact (@query_endpoint_answers_provider_failure Samples.utc_clock Samples.plain_bodies
           Samples.failing_chain Samples.ascii_only Scenarios.strict_validation
           default_settings Samples.visiting_question GENERAL true zero one
           Samples.populated Samples.populated tt Samples.provider_down
           Hstored Hchain eq_refl).
Defined.

(** POST /execute-tool for a tool that does not exist. *)
Lemma execute_tool_manual_unknown_tool_witness :
  (Scenarios.unknown_tool ∉ get_tool_names tool_registry) ∧
  (∀ key, key ∈ (default [] Scenarios.patient_params).*1 → key ∉ own_parameters) ∧
  execute_tool_manual Scenarios.unknown_tool Scenarios.patient_params
    = Response {| run_status := lit "success";
                  run_tool := Scenarios.unknown_tool;
                  run_result :=
                    [ (lit "success", VBool false);
                      (lit "error",
                       VStr (lit "Tool '" ++ Scenarios.unknown_tool ++ lit "' not found")) ] |}.
Proof.
  assert (Scenarios.unknown_tool ∉ get_tool_names tool_registry) as Hname
    by (apply (bool_decide_unpack _); vm_compute; exact I).
  assert (∀ key, key ∈ (default [] Scenarios.patient_params).*1 → key ∉ own_parameters)
    as Hfree.
  { intros key Hkey. apply list_elem_of_singleton in Hkey as ->.
    apply (bool_decide_unpack _). vm_compute. exact I. }
  split; [exact Hname|]. split; [exact Hfree|].
  exact (execute_tool_manual_unknown_tool Scenarios.unknown_tool Scenarios.patient_params
           Hname Hfree).
Defined.

(** POST /execute-tool for the age tool without parameters. *)
Lemma execute_tool_manual_missing_parameter_witness :
  get_tool tool_registry (lit "calculate_age") = Some Scenarios.age_tool ∧
  ∃ sc : ToolSchema,
    schema Scenarios.age_tool = Some sc ∧
    lit "birthdate" ∈ required_params sc ∧
    (lit "birthdate" ∉ (default [] None : list (str * object)).*1) ∧
    ∃ msg : str,
      execute_tool_manual (lit "calculate_age") None
        = HTTPException 500 (lit "Tool execution failed: " ++ msg) ∧
      execute_tool tool_registry (lit "calculate_age") (list_to_map (default [] None))
        = Raise (Exn TypeError msg).
Proof.
  assert (get_tool tool_registry (lit "calculate_age") = Some Scenarios.age_tool) as Htool
    by (vm_compute; reflexivity).
  split; [exact Htool|]. eexists. split; [reflexivity|].
  assert (lit "birthdate" ∈ [lit "birthdate"]) as Hp by apply list_elem_of_here.
  assert (lit "birthdate" ∉ (default [] None : list (str * object)).*1) as Hout
    by apply not_elem_of_nil.
  split; [exact Hp|]. split; [exact Hout|].
  refine (execute_tool_manual_missing_parameter (lit "calculate_age") Scenarios.age_tool _
            (lit "birthdate") None Htool eq_refl Hp Hout _).
  intros key Hkey. by apply elem_of_nil in Hkey.
Defined.

End OnSamples.

